(** * The EPUB reading session hook [useEpubReader], embedded in Rocq

    Source: [src/hooks/use-epub-reader.ts].

    The hook is a bundle of React state cells, a [localStorage] dictionary
    and callbacks that update them.  The embedding is by explicit state
    passing: one record [Reader] holds the state cells together with the
    part of the outside world the callbacks write to (the storage
    dictionary, the clipboard, the navigation and overlay commands sent to
    the rendition).  A callback is a function on [Reader]; a callback that
    can raise returns an [Outcome].

    Conventions.
    - JavaScript strings are modelled by [string]; [String.length] stands
      for [.length].
    - Character counts and indices are integers ([Z]); they stand for
      JavaScript numbers as long as they are safe integers, on which sums
      are exact.  The allowance percentage is kept as the rational ([Q])
      the caller wrote.
    - Where rounding shows, the arithmetic is carried out in IEEE binary64
      with the Standard Library's [SpecFloat]: the quota of [copyText],
      which multiplies by a percentage that may be fractional and divides
      by 100, and the page estimate of the table of contents.
    - [String.prototype.toLowerCase] is the engine's; it maps letters
      outside ASCII too and may lengthen a text.  The search is embedded
      over any such function ([Search.Engine]).
    - [JSON.stringify] followed by [JSON.parse] is modelled by a typed
      value [Json]; [Malformed] stands for stored bytes that
      [JSON.parse] rejects. *)

From Stdlib Require Import ZArith QArith Qpower List Lia Bool.
From Stdlib Require Import Ascii String DecimalString SpecFloat.
From Stdlib Require Import Sorting.Sorted.
From stdpp Require Import gmap strings.
Import ListNotations.

Local Set Warnings "-register-all".

Local Open Scope string_scope.
Local Open Scope list_scope.
Local Open Scope Z_scope.

(** ** Data model ([use-epub-reader.ts], lines 58-99) *)

Inductive HighlightType := highlight | underline.

Definition HighlightType_eqb (a b : HighlightType) : bool :=
  match a, b with
  | highlight, highlight | underline, underline => true
  | _, _ => false
  end.

(** [rect?: DOMRect] is a screen rectangle that no callback of the
    store ever sets; it is left out. *)
Record Highlight := mkHighlight {
  h_id : option string;
  h_cfi : string;
  h_text : string;
  h_type : option HighlightType;
  h_color : option string;
  h_createdAt : string
}.

Record Bookmark := mkBookmark {
  b_cfi : string;
  b_label : option string;
  b_createdAt : string;
  b_chapter : option string;
  b_page : option Z
}.

Record Note := mkNote {
  n_cfi : string;
  n_text : string;
  n_note : string;
  n_createdAt : string
}.

Record SearchResult := mkSearchResult {
  sr_cfi : string;
  sr_excerpt : string;
  sr_href : string;
  sr_chapterTitle : string;
  sr_chapterIndex : nat
}.

(** ** The outside world *)

(** A value held by [localStorage]: the JSON text of what the hook wrote,
    or bytes that do not parse. *)
Inductive Json :=
| JNumber (n : Z)
| JHighlights (hs : list Highlight)
| JBookmarks (bs : list Bookmark)
| JNotes (ns : list Note)
| Malformed (raw : string).

(** Commands sent to [rendition.annotations]. *)
Inductive OverlayCmd :=
| AnnotAdd (type : HighlightType) (cfi : string) (className : option string) (colour : string)
| AnnotRemove (cfi : string) (type : HighlightType).

Inductive Error :=
| InvalidCopyAllowance      (* Error("Invalid copyAllowancePercentage") *)
| CopyLimitExceeded         (* Error("Copy limit exceeded") *)
| ClipboardRejected         (* navigator.clipboard.writeText rejected *)
| SyntaxError               (* JSON.parse *)
| TypeError                 (* a method called on a value that lacks it *).

(** ** The state of the hook *)

Record Reader := mkReader {
  highlights : list Highlight;
  bookmarks : list Bookmark;
  notes : list Note;
  searchResults : list SearchResult;
  currentSearchResultIndex : Z;
  selectedCfi : string;
  isSearching : bool;
  location : option string;
  totalBookChars : Z;
  copiedChars : Z;
  copyAllowance : Q;
  localStorage : gmap string Json;
  clipboard : list string;           (* texts written, oldest first *)
  displayed : list string;           (* rendition.display targets, oldest first *)
  overlay : list OverlayCmd          (* annotation commands, oldest first *)
}.

(** The state right after the first render: every [useState] initial
    value; the three atoms of [@/atoms/copy-protection] are not under
    [src/], they start at [0] characters and the default 10 percent. *)
Definition initialReader (storage : gmap string Json) : Reader :=
  {| highlights := []; bookmarks := []; notes := [];
     searchResults := []; currentSearchResultIndex := -1;
     selectedCfi := EmptyString; isSearching := false; location := None;
     totalBookChars := 0; copiedChars := 0; copyAllowance := 10%Q;
     localStorage := storage; clipboard := []; displayed := [];
     overlay := [] |}.

(** A callback either returns or throws; in both cases it leaves a
    state behind, the one reached when it stopped. *)
Inductive Outcome :=
| Returned (r : Reader)
| Threw (e : Error) (r : Reader).

Definition andThen (m : Outcome) (k : Reader -> Outcome) : Outcome :=
  match m with
  | Returned r => k r
  | Threw e r => Threw e r
  end.

(** The state a caller observes once the call is over. *)
Definition stateOf (o : Outcome) : Reader :=
  match o with
  | Returned r => r
  | Threw _ r => r
  end.

(** The arguments of the hook (interface [IUseEpubReader]), with the
    defaults of the parameter list already applied, and whether
    [renditionRef.current] is set. *)
Record Props := mkProps {
  url : string;
  isCopyProtected : bool;
  copyAllowancePercentage : Q;
  hasRendition : bool
}.

Definition defaultProps (u : string) (protected : option bool) (allowance : option Q) : Props :=
  {| url := u;
     isCopyProtected := default false protected;
     copyAllowancePercentage := default 10%Q allowance;
     hasRendition := true |}.

Definition STORAGE_KEY_HIGHLIGHTS (p : Props) : string := "epub-highlights-" +:+ url p.
Definition STORAGE_KEY_BOOKMARK (p : Props) : string := "epub-bookmarks-" +:+ url p.
Definition STORAGE_KEY_NOTES (p : Props) : string := "epub-notes-" +:+ url p.
Definition STORAGE_KEY_COPIED_CHARS (p : Props) : string := "epub-copied-chars-" +:+ url p.

(** State cell setters. *)
Definition setHighlights (hs : list Highlight) (r : Reader) : Reader :=
  {| highlights := hs; bookmarks := bookmarks r; notes := notes r;
     searchResults := searchResults r;
     currentSearchResultIndex := currentSearchResultIndex r;
     selectedCfi := selectedCfi r; isSearching := isSearching r;
     location := location r; totalBookChars := totalBookChars r;
     copiedChars := copiedChars r; copyAllowance := copyAllowance r;
     localStorage := localStorage r; clipboard := clipboard r;
     displayed := displayed r; overlay := overlay r |}.

Definition setBookmarks (bs : list Bookmark) (r : Reader) : Reader :=
  {| highlights := highlights r; bookmarks := bs; notes := notes r;
     searchResults := searchResults r;
     currentSearchResultIndex := currentSearchResultIndex r;
     selectedCfi := selectedCfi r; isSearching := isSearching r;
     location := location r; totalBookChars := totalBookChars r;
     copiedChars := copiedChars r; copyAllowance := copyAllowance r;
     localStorage := localStorage r; clipboard := clipboard r;
     displayed := displayed r; overlay := overlay r |}.

Definition setNotes (ns : list Note) (r : Reader) : Reader :=
  {| highlights := highlights r; bookmarks := bookmarks r; notes := ns;
     searchResults := searchResults r;
     currentSearchResultIndex := currentSearchResultIndex r;
     selectedCfi := selectedCfi r; isSearching := isSearching r;
     location := location r; totalBookChars := totalBookChars r;
     copiedChars := copiedChars r; copyAllowance := copyAllowance r;
     localStorage := localStorage r; clipboard := clipboard r;
     displayed := displayed r; overlay := overlay r |}.

Definition setSearchResults (rs : list SearchResult) (r : Reader) : Reader :=
  {| highlights := highlights r; bookmarks := bookmarks r; notes := notes r;
     searchResults := rs;
     currentSearchResultIndex := currentSearchResultIndex r;
     selectedCfi := selectedCfi r; isSearching := isSearching r;
     location := location r; totalBookChars := totalBookChars r;
     copiedChars := copiedChars r; copyAllowance := copyAllowance r;
     localStorage := localStorage r; clipboard := clipboard r;
     displayed := displayed r; overlay := overlay r |}.

Definition setCurrentSearchResultIndex (i : Z) (r : Reader) : Reader :=
  {| highlights := highlights r; bookmarks := bookmarks r; notes := notes r;
     searchResults := searchResults r; currentSearchResultIndex := i;
     selectedCfi := selectedCfi r; isSearching := isSearching r;
     location := location r; totalBookChars := totalBookChars r;
     copiedChars := copiedChars r; copyAllowance := copyAllowance r;
     localStorage := localStorage r; clipboard := clipboard r;
     displayed := displayed r; overlay := overlay r |}.

Definition setSelectedCfi (cfi : string) (r : Reader) : Reader :=
  {| highlights := highlights r; bookmarks := bookmarks r; notes := notes r;
     searchResults := searchResults r;
     currentSearchResultIndex := currentSearchResultIndex r;
     selectedCfi := cfi; isSearching := isSearching r;
     location := location r; totalBookChars := totalBookChars r;
     copiedChars := copiedChars r; copyAllowance := copyAllowance r;
     localStorage := localStorage r; clipboard := clipboard r;
     displayed := displayed r; overlay := overlay r |}.

Definition setIsSearching (b : bool) (r : Reader) : Reader :=
  {| highlights := highlights r; bookmarks := bookmarks r; notes := notes r;
     searchResults := searchResults r;
     currentSearchResultIndex := currentSearchResultIndex r;
     selectedCfi := selectedCfi r; isSearching := b; location := location r;
     totalBookChars := totalBookChars r; copiedChars := copiedChars r;
     copyAllowance := copyAllowance r; localStorage := localStorage r;
     clipboard := clipboard r; displayed := displayed r;
     overlay := overlay r |}.

Definition setCopyAllowance (a : Q) (r : Reader) : Reader :=
  {| highlights := highlights r; bookmarks := bookmarks r; notes := notes r;
     searchResults := searchResults r;
     currentSearchResultIndex := currentSearchResultIndex r;
     selectedCfi := selectedCfi r; isSearching := isSearching r;
     location := location r; totalBookChars := totalBookChars r;
     copiedChars := copiedChars r; copyAllowance := a;
     localStorage := localStorage r; clipboard := clipboard r;
     displayed := displayed r; overlay := overlay r |}.

Definition setTotalBookChars (n : Z) (r : Reader) : Reader :=
  {| highlights := highlights r; bookmarks := bookmarks r; notes := notes r;
     searchResults := searchResults r;
     currentSearchResultIndex := currentSearchResultIndex r;
     selectedCfi := selectedCfi r; isSearching := isSearching r;
     location := location r; totalBookChars := n;
     copiedChars := copiedChars r; copyAllowance := copyAllowance r;
     localStorage := localStorage r; clipboard := clipboard r;
     displayed := displayed r; overlay := overlay r |}.

Definition setCopiedChars (n : Z) (r : Reader) : Reader :=
  {| highlights := highlights r; bookmarks := bookmarks r; notes := notes r;
     searchResults := searchResults r;
     currentSearchResultIndex := currentSearchResultIndex r;
     selectedCfi := selectedCfi r; isSearching := isSearching r;
     location := location r; totalBookChars := totalBookChars r;
     copiedChars := n; copyAllowance := copyAllowance r;
     localStorage := localStorage r; clipboard := clipboard r;
     displayed := displayed r; overlay := overlay r |}.

(** [localStorage.setItem(key, JSON.stringify(v))] *)
Definition setItem (key : string) (v : Json) (r : Reader) : Reader :=
  {| highlights := highlights r; bookmarks := bookmarks r; notes := notes r;
     searchResults := searchResults r;
     currentSearchResultIndex := currentSearchResultIndex r;
     selectedCfi := selectedCfi r; isSearching := isSearching r;
     location := location r; totalBookChars := totalBookChars r;
     copiedChars := copiedChars r; copyAllowance := copyAllowance r;
     localStorage := <[key := v]> (localStorage r);
     clipboard := clipboard r; displayed := displayed r;
     overlay := overlay r |}.

(** [navigator.clipboard.writeText(text)], when it resolves. *)
Definition writeClipboard (text : string) (r : Reader) : Reader :=
  {| highlights := highlights r; bookmarks := bookmarks r; notes := notes r;
     searchResults := searchResults r;
     currentSearchResultIndex := currentSearchResultIndex r;
     selectedCfi := selectedCfi r; isSearching := isSearching r;
     location := location r; totalBookChars := totalBookChars r;
     copiedChars := copiedChars r; copyAllowance := copyAllowance r;
     localStorage := localStorage r; clipboard := clipboard r ++ [text];
     displayed := displayed r; overlay := overlay r |}.

(** A call of [rendition.display(target)]. *)
Definition display (target : string) (r : Reader) : Reader :=
  {| highlights := highlights r; bookmarks := bookmarks r; notes := notes r;
     searchResults := searchResults r;
     currentSearchResultIndex := currentSearchResultIndex r;
     selectedCfi := selectedCfi r; isSearching := isSearching r;
     location := location r; totalBookChars := totalBookChars r;
     copiedChars := copiedChars r; copyAllowance := copyAllowance r;
     localStorage := localStorage r; clipboard := clipboard r;
     displayed := displayed r ++ [target]; overlay := overlay r |}.

(** A call on [rendition.annotations]. *)
Definition annotate (c : OverlayCmd) (r : Reader) : Reader :=
  {| highlights := highlights r; bookmarks := bookmarks r; notes := notes r;
     searchResults := searchResults r;
     currentSearchResultIndex := currentSearchResultIndex r;
     selectedCfi := selectedCfi r; isSearching := isSearching r;
     location := location r; totalBookChars := totalBookChars r;
     copiedChars := copiedChars r; copyAllowance := copyAllowance r;
     localStorage := localStorage r; clipboard := clipboard r;
     displayed := displayed r; overlay := overlay r ++ [c] |}.

(** [a < b] and [a > b] on rationals. *)
Definition Qltb (a b : Q) : bool := if Qlt_le_dec a b then true else false.
Definition Qgtb (a b : Q) : bool := Qltb b a.

(** ** JavaScript numbers *)

Module Double.

(** IEEE binary64 with round to nearest even. *)
Definition number := spec_float.
Definition of_Z (z : Z) : number := binary_normalize 53 1024 z 0 false.
Definition mul (a b : number) : number := SFmul 53 1024 a b.
Definition div (a b : number) : number := SFdiv 53 1024 a b.

(** The number a rational written in the program denotes: numerator by
    denominator, rounded once.  A rational that is a double denotes
    itself; a decimal such as [57 # 100] denotes the double next to it. *)
Definition of_Q (q : Q) : number := div (of_Z (Qnum q)) (of_Z (Zpos (Qden q))).

(** The real value of a finite number; zero for a zero. *)
Definition real (x : number) : Q :=
  match x with
  | S754_finite s m e => (inject_Z (if s then Zneg m else Zpos m) * 2 ^ e)%Q
  | _ => 0%Q
  end.

(** [x < y] (ECMAScript's Number::lessThan): false as soon as one side is
    [NaN]; the infinities lie below and above every other number; finite
    numbers compare by their real values. *)
Definition lt (x y : number) : bool :=
  match x, y with
  | S754_nan, _ | _, S754_nan => false
  | S754_infinity sx, S754_infinity sy => sx && negb sy
  | S754_infinity sx, _ => sx
  | _, S754_infinity sy => negb sy
  | _, _ => Qltb (real x) (real y)
  end.

(** [x > y] is [y < x]; [x <= y] is false when one side is [NaN], and
    the negation of [y < x] otherwise. *)
Definition gt (x y : number) : bool := lt y x.

Definition le (x y : number) : bool :=
  match x, y with
  | S754_nan, _ | _, S754_nan => false
  | _, _ => negb (lt y x)
  end.

End Double.

(** ** Copy quota (lines 213-262) *)

Module CopyQuota.

(** The validation effect of lines 213-221.  The parameter has a default,
    so the [!== undefined] test always passes. *)
Definition validateAllowance (p : Props) (r : Reader) : Outcome :=
  let a := copyAllowancePercentage p in
  if Qltb a 0 || Qgtb a 100
  then Threw InvalidCopyAllowance r
  else Returned (setCopyAllowance a r).

(** [(totalBookChars * copyAllowance) / 100], line 242: the product is
    rounded, then the quotient. *)
Definition allowedChars (r : Reader) : Double.number :=
  Double.div
    (Double.mul (Double.of_Z (totalBookChars r)) (Double.of_Q (copyAllowance r)))
    (Double.of_Z 100).

(** The guard of line 244: [copiedChars + text.length > allowedChars].
    The sum of the two integers is the number it denotes. *)
Definition exceeds (r : Reader) (text : string) : bool :=
  Double.gt (Double.of_Z (copiedChars r + Z.of_nat (String.length text))) (allowedChars r).

(** [copiedChars <= allowedChars]: the counter is within the allowance. *)
Definition within (r : Reader) : bool :=
  Double.le (Double.of_Z (copiedChars r)) (allowedChars r).

(** [navigator.clipboard.writeText] resolves or rejects; which of the two
    is decided outside the hook and passed as [writes]. *)
Definition clipboard_writeText (writes : bool) (text : string) (r : Reader) : Outcome :=
  if writes then Returned (writeClipboard text r) else Threw ClipboardRejected r.

(** [copyText], lines 231-262, as the callback made by the render that
    saw the state [rendered], called in the state [r].  The guard reads
    the [totalBookChars], [copyAllowance] and [copiedChars] of the render
    (the dependencies of line 261); the update adds to [prev], the counter
    of the moment.  In the unprotected branch the rejection is caught and
    logged; in the protected branch it is thrown again. *)
Definition copyTextFrom (p : Props) (rendered : Reader) (writes : bool) (text : string)
    (r : Reader) : Outcome :=
  if negb (isCopyProtected p) then
    match clipboard_writeText writes text r with
    | Returned r' => Returned r'
    | Threw _ r' => Returned r'
    end
  else if exceeds rendered text then Threw CopyLimitExceeded r
  else
    andThen (clipboard_writeText writes text r) (fun r1 =>
      let newCopiedChars := copiedChars r1 + Z.of_nat (String.length text) in
      Returned (setCopiedChars newCopiedChars
                  (setItem (STORAGE_KEY_COPIED_CHARS p) (JNumber newCopiedChars) r1))).

(** A call of the callback of the latest render: the [copiedChars] of
    the guard and the [prev] of the update are the same value. *)
Definition copyText (p : Props) (writes : bool) (text : string) (r : Reader) : Outcome :=
  copyTextFrom p r writes text r.

(** The scenario of the specification: chapters of 100 and 300
    characters, 10 percent allowed, nothing copied yet. *)
Definition scenarioProps : Props :=
  {| url := "book.epub"; isCopyProtected := true;
     copyAllowancePercentage := 10%Q; hasRendition := true |}.

Definition scenarioStart : Reader :=
  setTotalBookChars (100 + 300) (initialReader ∅).

Definition chars (n : nat) : string := string_of_list_ascii (repeat "x"%char n).

(** A book of 10000 characters with 0.57 percent allowed, and a book of
    500 characters whose allowance is the double next to 0.6, written out
    as the fraction it is. *)
Definition fractionalProps (allowance : Q) : Props :=
  {| url := "book.epub"; isCopyProtected := true;
     copyAllowancePercentage := allowance; hasRendition := true |}.

Definition fractionalStart (total : Z) (allowance : Q) : Reader :=
  setCopyAllowance allowance (setTotalBookChars total (initialReader ∅)).

Definition double_0_6 : Q := 5404319552844595 # 9007199254740992.

End CopyQuota.

(** Calls on [renditionRef.current?.…] are skipped while the reference
    is empty. *)
Definition withRendition (p : Props) (f : Reader -> Reader) (r : Reader) : Reader :=
  if hasRendition p then f r else r.

(** ** Highlights (lines 264-331) *)

Module Annotations.

(** [defaultConfig[type].className] *)
Definition className (t : HighlightType) : string :=
  match t with
  | highlight => "epub-highlight"
  | underline => "epub-underline"
  end.

(** [addHighlight], lines 264-283.  The argument is a [Highlight] whose
    [type] and [color] default to ["highlight"] and ["yellow"]; [now] is
    [new Date().toISOString()].  [setSelection(null)] touches a cell that
    is not part of [Reader]. *)
Definition newHighlightOf (now : string) (args : Highlight) : Highlight :=
  {| h_id := None; h_cfi := h_cfi args; h_text := h_text args;
     h_type := Some (default highlight (h_type args));
     h_color := Some (default "yellow" (h_color args));
     h_createdAt := now |}.

Definition addHighlight (p : Props) (now : string) (args : Highlight) (r : Reader) : Reader :=
  let type := default highlight (h_type args) in
  let color := default "yellow" (h_color args) in
  let newHighlight := newHighlightOf now args in
  let r1 := withRendition p
              (annotate (AnnotAdd type (h_cfi args) (Some (className type)) color)) r in
  let updated := highlights r1 ++ [newHighlight] in
  setHighlights updated (setItem (STORAGE_KEY_HIGHLIGHTS p) (JHighlights updated) r1).

(** [removeHighlight], lines 285-331.  The clean-up of stray DOM
    elements (lines 290-313) acts on the rendered page only.  An empty
    [location] string is falsy. *)
Definition removeHighlight (p : Props) (cfi : string) (type : HighlightType) (r : Reader) : Reader :=
  let r1 := withRendition p (annotate (AnnotRemove cfi type)) r in
  let r2 := match location r1 with
            | Some loc => if String.eqb loc EmptyString then r1 else withRendition p (display loc) r1
            | None => r1
            end in
  let updated := List.filter (fun h => negb (String.eqb (h_cfi h) cfi)) (highlights r2) in
  setHighlights updated (setItem (STORAGE_KEY_HIGHLIGHTS p) (JHighlights updated) r2).

(** The key under which the store is meant to be unique: the position
    and the kind, a missing kind counting as ["highlight"] as in
    [h.type || "highlight"]. *)
Definition keyOf (h : Highlight) : string * HighlightType :=
  (h_cfi h, default highlight (h_type h)).

Definition sameKey (k : string * HighlightType) (h : Highlight) : bool :=
  String.eqb (fst k) (h_cfi h) && HighlightType_eqb (snd k) (default highlight (h_type h)).

(** How many stored highlights carry the key [k]. *)
Definition countKey (k : string * HighlightType) (hs : list Highlight) : nat :=
  length (List.filter (sameKey k) hs).

(** A sequence of [addHighlight] calls, oldest first, each with its own
    time stamp. *)
Definition addHighlights (p : Props) (calls : list (string * Highlight)) (r : Reader) : Reader :=
  fold_left (fun acc c => addHighlight p (fst c) (snd c) acc) calls r.

(** One selection highlighted twice. *)
Definition sampleHighlight : Highlight :=
  {| h_id := None; h_cfi := "epubcfi(/6/4!/4/2,/1:0,/1:5)"; h_text := "Hello";
     h_type := Some highlight; h_color := Some "yellow"; h_createdAt := EmptyString |}.

Definition sampleProps : Props :=
  {| url := "book.epub"; isCopyProtected := false;
     copyAllowancePercentage := 10%Q; hasRendition := true |}.

Definition addedTwice : Reader :=
  addHighlights sampleProps
    [("2025-01-01T10:00:00.000Z", sampleHighlight);
     ("2025-01-01T10:05:00.000Z", sampleHighlight)]
    (initialReader ∅).

End Annotations.

(** ** Loading the saved collections (lines 1051-1090) *)

Module Persistence.

(** [if (saved)]: a missing key gives [null], and the empty string is
    falsy as well. *)
Definition truthy (v : option Json) : option Json :=
  match v with
  | Some (Malformed EmptyString) => None
  | other => other
  end.

(** Lines 1052-1063.  Each parsed highlight is passed to [addHighlight]
    with its [cfi], [text], [color] and [createdAt] only, then the cell
    is set to the parsed array.  Whatever [JSON.parse] or [forEach]
    throws is caught and logged. *)
Definition loadSavedHighlights (p : Props) (now : string) (r : Reader) : Outcome :=
  match truthy (localStorage r !! STORAGE_KEY_HIGHLIGHTS p) with
  | Some (JHighlights parsed) =>
      let readd acc h :=
        Annotations.addHighlight p now
          {| h_id := None; h_cfi := h_cfi h; h_text := h_text h; h_type := None;
             h_color := h_color h; h_createdAt := h_createdAt h |} acc in
      Returned (setHighlights parsed (fold_left readd parsed r))
  | Some _ => Returned r
  | None => Returned r
  end.

(** Lines 1066-1075.  The parsed value is stored as it is; a value of
    another shape is never written under this key by the hook and is
    treated like bytes that do not parse. *)
Definition loadSavedBookmarks (p : Props) (r : Reader) : Outcome :=
  match truthy (localStorage r !! STORAGE_KEY_BOOKMARK p) with
  | Some (JBookmarks parsed) => Returned (setBookmarks parsed r)
  | Some _ => Returned r
  | None => Returned r
  end.

(** Lines 1078-1090.  There is no [try] around [JSON.parse] here: a
    [SyntaxError] leaves the effect, and so does the [TypeError] of
    [parsed.forEach] on a value that is not an array. *)
Definition loadSavedNotes (p : Props) (r : Reader) : Outcome :=
  if negb (hasRendition p) then Returned r
  else
    match truthy (localStorage r !! STORAGE_KEY_NOTES p) with
    | Some (JNotes parsed) =>
        let mark acc (n : Note) :=
          annotate (AnnotAdd highlight (n_cfi n) (Some "epub-note") "lightblue") acc in
        Returned (setNotes parsed (fold_left mark parsed r))
    | Some (Malformed _) => Threw SyntaxError r
    | Some _ => Threw TypeError r
    | None => Returned r
    end.

(** The three loading effects in the order React runs them on mount. *)
Definition loadSaved (p : Props) (now : string) (r : Reader) : Outcome :=
  andThen (loadSavedHighlights p now r) (fun r1 =>
  andThen (loadSavedBookmarks p r1) (fun r2 =>
  loadSavedNotes p r2)).

(** Session start, as far as the state cells above go: the validation
    effect first, then the loading effects; an effect that throws takes
    the component down. *)
Definition startSession (p : Props) (now : string) (storage : gmap string Json) : Outcome :=
  andThen (CopyQuota.validateAllowance p (initialReader storage)) (loadSaved p now).

(** A storage whose notes were cut off while being written. *)
Definition corruptNotes : gmap string Json :=
  {[ "epub-notes-book.epub" := Malformed "[{cfi:epubcfi(/6/4!/4/2" ]}.

End Persistence.

(** ** Moving to a search result (lines 621-631) *)

Module Navigation.

(** [goToSearchResult]: the index is an integer; inside the bounds
    [searchResults[index]] is defined. *)
Definition goToSearchResult (p : Props) (index : Z) (r : Reader) : Reader :=
  if (0 <=? index) && (index <? Z.of_nat (length (searchResults r))) then
    match searchResults r !! Z.to_nat index with
    | Some result =>
        setCurrentSearchResultIndex index
          (setSelectedCfi (sr_cfi result)
             (withRendition p (display (sr_cfi result)) r))
    | None => r
    end
  else r.

(** A state with two results. *)
Definition twoResults : Reader :=
  setSearchResults
    [mkSearchResult "epubcfi(/6/2!/4:0)" "...a cat..." "ch1.xhtml" "One" 0;
     mkSearchResult "epubcfi(/6/4!/4:7)" "...the cat..." "ch2.xhtml" "Two" 1]
    (initialReader ∅).

End Navigation.

(** ** Page estimates for the table of contents (lines 495-523) *)

Module Toc.

(** epub.js [NavItem], and the same with the estimated page. *)
Inductive NavItem :=
| mkNavItem (id href label : string) (subitems : list NavItem).

Inductive EnhancedNavItem :=
| mkEnhancedNavItem (id href label : string) (page : option Z)
    (subitems : list EnhancedNavItem).

Definition nav_label (i : NavItem) : string :=
  match i with mkNavItem _ _ l _ => l end.
Definition nav_subitems (i : NavItem) : list NavItem :=
  match i with mkNavItem _ _ _ s => s end.
Definition enh_label (e : EnhancedNavItem) : string :=
  match e with mkEnhancedNavItem _ _ l _ _ => l end.
Definition enh_page (e : EnhancedNavItem) : option Z :=
  match e with mkEnhancedNavItem _ _ _ pg _ => pg end.
Definition enh_subitems (e : EnhancedNavItem) : list EnhancedNavItem :=
  match e with mkEnhancedNavItem _ _ _ _ s => s end.

(** What [book.locations?.length()] answers: it throws, [locations] is
    missing, or it returns a count. *)
Inductive LocationsLength :=
| LengthThrows
| NoLocations
| Length (n : Z).

(** The answer may differ from one entry to the next; an entry is named
    by its path, the positions among siblings from the top level down. *)
Definition Book := list nat -> LocationsLength.

(** JavaScript numbers in the one expression where rounding shows:
    IEEE binary64, round to nearest even. *)
Definition number := spec_float.
Definition of_Z (z : Z) : number := binary_normalize 53 1024 z 0 false.
Definition div (a b : number) : number := SFdiv 53 1024 a b.
Definition mul (a b : number) : number := SFmul 53 1024 a b.

(** [Math.floor]: an integer for a finite number, the number itself
    otherwise. *)
Inductive Floored :=
| Finite (z : Z)
| PlusInfinity
| MinusInfinity
| NotANumber.

Definition Math_floor (x : number) : Floored :=
  match x with
  | S754_zero _ => Finite 0
  | S754_finite s m e =>
      let v := if s then Z.neg m else Z.pos m in
      Finite (match e with
              | Z0 => v
              | Zpos k => v * 2 ^ Zpos k
              | Zneg k => v / 2 ^ Zpos k
              end)
  | S754_infinity false => PlusInfinity
  | S754_infinity true => MinusInfinity
  | S754_nan => NotANumber
  end.

(** [if (page < 1) page = 1; if (page > len) page = len;] *)
Definition clamp (len page : Z) : Z :=
  let page := if page <? 1 then 1 else page in
  if len <? page then len else page.

(** [page = floored + 1] followed by the two tests.  Adding one to an
    infinity leaves it; every comparison with [NaN] is false, and a page
    that is [NaN] is no page number: [None]. *)
Definition pageFrom (len : Z) (floored : Floored) : option Z :=
  match floored with
  | Finite f => Some (clamp len (f + 1))
  | PlusInfinity => Some len
  | MinusInfinity => Some (if len <? 1 then len else 1)
  | NotANumber => None
  end.

(** The [try] block of lines 499-508 for one entry; [n] is
    [tocItems.length]. *)
Definition estimatePage (len : LocationsLength) (index n : Z) : option Z :=
  match len with
  | Length l =>
      if 0 <? l then pageFrom l (Math_floor (mul (div (of_Z index) (of_Z n)) (of_Z l)))
      else None
  | LengthThrows | NoLocations => None
  end.

(** [enhanceItem], lines 496-520.  [n] is the length of the top-level
    array captured by the closure; a subitem at position [subIndex] is
    enhanced with [index + subIndex + 1]. *)
Fixpoint enhanceItem (book : Book) (n : Z) (item : NavItem) (index : Z) (path : list nat)
  : EnhancedNavItem :=
  match item with
  | mkNavItem id href label subitems =>
      mkEnhancedNavItem id href label
        (estimatePage (book path) index n)
        ((fix each (subIndex : nat) (l : list NavItem) : list EnhancedNavItem :=
            match l with
            | [] => []
            | subitem :: rest =>
                enhanceItem book n subitem (index + Z.of_nat subIndex + 1) (path ++ [subIndex])
                :: each (S subIndex) rest
            end) 0%nat subitems)
  end.

(** [tocItems.map((item, index) => enhanceItem(item, index))] *)
Definition enhanceTocWithPages (tocItems : list NavItem) (book : Book) : list EnhancedNavItem :=
  imap (fun index item =>
          enhanceItem book (Z.of_nat (length tocItems)) item (Z.of_nat index) [index])
       tocItems.

(** The [map] over the subitems in [enhanceItem], on its own. *)
Fixpoint enhanceEach (book : Book) (n index : Z) (path : list nat) (subIndex : nat)
    (l : list NavItem) : list EnhancedNavItem :=
  match l with
  | [] => []
  | subitem :: rest =>
      enhanceItem book n subitem (index + Z.of_nat subIndex + 1) (path ++ [subIndex])
      :: enhanceEach book n index path (S subIndex) rest
  end.

(** The entry reached by a path. *)
Fixpoint navAt (items : list NavItem) (path : list nat) : option NavItem :=
  match path with
  | [] => None
  | k :: deeper =>
      match items !! k with
      | Some i =>
          match deeper with
          | [] => Some i
          | _ :: _ => navAt (nav_subitems i) deeper
          end
      | None => None
      end
  end.

Fixpoint enhancedAt (items : list EnhancedNavItem) (path : list nat) : option EnhancedNavItem :=
  match path with
  | [] => None
  | k :: deeper =>
      match items !! k with
      | Some e =>
          match deeper with
          | [] => Some e
          | _ :: _ => enhancedAt (enh_subitems e) deeper
          end
      | None => None
      end
  end.

(** The index [enhanceItem] is called with at the end of a path: the
    top-level position, plus one more than the position at every level
    below. *)
Definition pathOffset (deeper : list nat) : Z :=
  fold_right (fun j acc => Z.of_nat j + 1 + acc) 0 deeper.

Definition indexOfPath (path : list nat) : Z :=
  match path with
  | [] => 0
  | k :: deeper => Z.of_nat k + pathOffset deeper
  end.

(** The numbering the specification describes: all entries, nested ones
    included, in depth-first pre-order. *)
Fixpoint preorder (e : EnhancedNavItem) : list EnhancedNavItem :=
  match e with
  | mkEnhancedNavItem _ _ _ _ subitems =>
      e :: (fix all (l : list EnhancedNavItem) : list EnhancedNavItem :=
              match l with
              | [] => []
              | s :: rest => preorder s ++ all rest
              end) subitems
  end.

Definition flatten (toc : list EnhancedNavItem) : list EnhancedNavItem :=
  flat_map preorder toc.

(** The page the specification's formula gives to flat index [i] of
    [n]: [floor(i / n * total) + 1], clamped, in exact arithmetic. *)
Definition formulaPage (i n total : Z) : Z :=
  clamp total (i * total / n + 1).

(** A book whose locations are generated: every call answers [total]. *)
Definition located (total : Z) : Book := fun _ => Length total.

Definition leaf (label : string) : NavItem := mkNavItem label (label +:+ ".xhtml") label [].

(** Four chapters side by side; a chapter with one section, then a
    second chapter; forty-nine chapters side by side. *)
Definition flatToc : list NavItem :=
  [leaf "Preface"; leaf "One"; leaf "Two"; leaf "Three"].

Definition nestedToc : list NavItem :=
  [mkNavItem "One" "One.xhtml" "One" [leaf "One.1"]; leaf "Two"].

Definition longToc : list NavItem := List.map (fun _ => leaf "Chapter") (seq 0 49).

End Toc.

(** ** Full-text search (lines 525-619) *)

Module Search.

(** *** Strings *)

Definition lower (c : ascii) : ascii :=
  let n := nat_of_ascii c in
  if (65 <=? n)%nat && (n <=? 90)%nat then ascii_of_nat (n + 32) else c.

(** The lower case of a text in which the letters are ASCII. *)
Fixpoint asciiLowerCase (s : string) : string :=
  match s with
  | EmptyString => EmptyString
  | String c rest => String (lower c) (asciiLowerCase rest)
  end.

(** [String.prototype.toLowerCase] belongs to the engine: it maps the
    letters of every script, and the lower case of one character can be
    two (a capital I with a dot gives [i] and a combining dot), so the
    lower case of a text can be longer than the text.  All the search
    relies on is that a text that is not empty has a lower case that is
    not empty. *)
Class Engine := {
  toLowerCase : string -> string;
  toLowerCase_empty : forall s, toLowerCase s = EmptyString <-> s = EmptyString
}.

Definition asciiLowerCase_empty (s : string) :
  asciiLowerCase s = EmptyString <-> s = EmptyString.
Proof. destruct s; simpl; split; intros H; try reflexivity; discriminate. Defined.

(** The engine on texts in ASCII. *)
Definition asciiEngine : Engine :=
  {| toLowerCase := asciiLowerCase; toLowerCase_empty := asciiLowerCase_empty |}.

(** An engine for examples in which one character, number 221 (the
    capital dotted I of Latin-5), has a lower case of two characters. *)
Definition dottedLower (c : ascii) : string :=
  if (nat_of_ascii c =? 221)%nat then String "i" (String (ascii_of_nat 7) EmptyString)
  else String (lower c) EmptyString.

Fixpoint dottedLowerCase (s : string) : string :=
  match s with
  | EmptyString => EmptyString
  | String c rest => dottedLower c +:+ dottedLowerCase rest
  end.

Definition dottedLowerCase_empty (s : string) :
  dottedLowerCase s = EmptyString <-> s = EmptyString.
Proof.
  destruct s as [|c rest]; [split; reflexivity|].
  split; [|discriminate]. simpl. unfold dottedLower.
  destruct (nat_of_ascii c =? 221)%nat; discriminate.
Defined.

Definition dottedEngine : Engine :=
  {| toLowerCase := dottedLowerCase; toLowerCase_empty := dottedLowerCase_empty |}.

Definition isSpace (c : ascii) : bool :=
  let n := nat_of_ascii c in
  ((9 <=? n)%nat && (n <=? 13)%nat) || (n =? 32)%nat.

Fixpoint trimStart (s : string) : string :=
  match s with
  | EmptyString => EmptyString
  | String c rest => if isSpace c then trimStart rest else s
  end.

Fixpoint trimEnd (s : string) : string :=
  match s with
  | EmptyString => EmptyString
  | String c rest =>
      let t := trimEnd rest in
      if isSpace c && String.eqb t EmptyString then EmptyString else String c t
  end.

Definition trim (s : string) : string := trimEnd (trimStart s).

(** [s.indexOf(q, from)], with [None] for [-1]. *)
Definition indexOf (s q : string) (from : nat) : option nat := String.index from q s.

(** [s.substring(from, to)] for [from <= to]. *)
Definition substring (s : string) (from to : nat) : string :=
  String.substring from (to - from) s.

(** *** The documents of the spine *)

(** A DOM range inside one text node. *)
Record Range := mkRange {
  container : nat;          (* index of the text node *)
  startOffset : nat;
  endOffset : nat
}.

(** What [item.load] leaves in [item.document]: the promise rejects,
    there is no document, or a document with its text nodes in tree
    order, each given by its [textContent]. *)
Inductive ChapterDocument :=
| LoadRejects
| NoDocument
| Document (textNodes : list string).

(** A spine item (epub.js [Section]).  [cfiFromRange] is the library's;
    [None] stands for an exception. *)
Record SpineItem := mkSpineItem {
  href : string;
  document : ChapterDocument;
  cfiFromRange : Range -> option string
}.

(** The answer of [getChapterFromCfi] ([@/lib/epub-utils], not under
    [src/]): the promise rejects, or resolves to a title or [null]. *)
Inductive ChapterLookup :=
| LookupRejects
| Resolved (title : option string).

Record Book := mkBook {
  getChapterFromCfi : string -> ChapterLookup
}.

(** [range.setStart(node, a); range.setEnd(node, b)]: the DOM throws an
    [IndexSizeError] when an offset is past the end of the node. *)
Definition createRange (nodeIndex : nat) (nodeText : string) (a b : nat) : option Range :=
  if (a <=? String.length nodeText)%nat && (b <=? String.length nodeText)%nat
  then Some (mkRange nodeIndex a b)
  else None.

(** *** The scan of one chapter *)

(** Lines 570-579: walk the nodes until the offset falls inside one. *)
Fixpoint locate (textNodes : list string) (nodeIndex offset : nat) : nat * nat :=
  match textNodes with
  | [] => (nodeIndex, offset)
  | nodeText :: rest =>
      if (offset <? String.length nodeText)%nat then (nodeIndex, offset)
      else locate rest (S nodeIndex) (offset - String.length nodeText)
  end.

Definition contextLength : nat := 30.

(** Lines 581-602: the body of the loop at the match position [pos];
    what it pushes on [results].  Every exception raised inside is
    caught and logged, the match is then skipped. *)
Definition pushAt (book : Book) (item : SpineItem) (chapterIndex : nat)
    (textNodes : list string) (fullText trimmedQuery : string) (pos : nat)
  : list SearchResult :=
  let '(nodeIndex, offset) := locate textNodes 0 pos in
  match textNodes !! nodeIndex with
  | None => []
  | Some nodeText =>
      match createRange nodeIndex nodeText offset (offset + String.length trimmedQuery) with
      | None => []
      | Some range =>
          match cfiFromRange item range with
          | None => []
          | Some cfi =>
              let excerpt :=
                substring fullText (pos - contextLength)
                  (pos + String.length trimmedQuery + contextLength) in
              match getChapterFromCfi book cfi with
              | LookupRejects => []
              | Resolved title =>
                  let chapterTitle :=
                    match title with
                    | Some t => t
                    | None => EmptyString
                    end in
                  [ {| sr_cfi := cfi;
                       sr_excerpt := "..." +:+ excerpt +:+ "...";
                       sr_href := href item;
                       sr_chapterTitle := chapterTitle;
                       sr_chapterIndex := chapterIndex |} ]
              end
          end
      end
  end.

(** Lines 568-605: [pos = indexOf(q)], then while [pos !== -1] run the
    body and continue from [pos + 1].  Each round moves [pos] forward, so
    one more round than the text has characters is enough fuel. *)
Fixpoint whileFound {A} (fuel : nat) (fullText trimmedQuery : string)
    (body : nat -> list A) (pos : option nat) : list A :=
  match fuel, pos with
  | S fuel', Some p =>
      body p ++ whileFound fuel' fullText trimmedQuery body
                  (indexOf fullText trimmedQuery (p + 1))
  | _, _ => []
  end.

Definition forEachMatch {A} (fullText trimmedQuery : string) (body : nat -> list A) : list A :=
  whileFound (S (String.length fullText)) fullText trimmedQuery body
    (indexOf fullText trimmedQuery 0).

(** The positions the loop visits. *)
Definition matchPositions (fullText trimmedQuery : string) : list nat :=
  forEachMatch fullText trimmedQuery (fun pos => [pos]).

(** The text contents of the nodes, joined without separator and
    lower-cased (lines 563-566). *)
Definition fullTextOf {engine : Engine} (textNodes : list string) : string :=
  toLowerCase (String.concat EmptyString textNodes).

(** The task of one spine item (lines 552-611): everything it pushes,
    in the order it pushes. *)
Definition scanChapter {engine : Engine} (book : Book) (trimmedQuery : string)
    (chapterIndex : nat) (item : SpineItem) : list SearchResult :=
  match document item with
  | Document textNodes =>
      let fullText := fullTextOf textNodes in
      forEachMatch fullText trimmedQuery
        (pushAt book item chapterIndex textNodes fullText trimmedQuery)
  | LoadRejects | NoDocument => []
  end.

(** *** The tasks run concurrently *)

(** All tasks push on the one array [results].  A task is suspended at
    [await item.load(…)] and again at [await getChapterFromCfi(…)] before
    each push, so pushes of different tasks interleave in whatever order
    the promises settle.  A schedule names, push after push, the task
    whose turn it is; when the schedule is used up the tasks that still
    have something to push finish in spine order. *)
Fixpoint interleave (schedule : list nat) (pending : list (list SearchResult))
    (results : list SearchResult) : list SearchResult :=
  match schedule with
  | [] => results ++ List.concat pending
  | task :: later =>
      match pending !! task with
      | Some (r :: more) => interleave later (<[task := more]> pending) (results ++ [r])
      | _ => interleave later pending results
      end
  end.

(** The occurrences of [q] in [s], every start position in increasing
    order, overlapping ones included. *)
Definition occursAt (s q : string) (pos : nat) : bool :=
  String.eqb (String.substring pos (String.length q) s) q.

Definition occurrences (s q : string) : list nat :=
  List.filter (occursAt s q) (seq 0 (String.length s)).

Definition sortedByChapter (rs : list SearchResult) : Prop :=
  StronglySorted (fun a b => (sr_chapterIndex a <= sr_chapterIndex b)%nat) rs.

Definition ofChapter (c : nat) (rs : list SearchResult) : list SearchResult :=
  List.filter (fun r => (sr_chapterIndex r =? c)%nat) rs.

(** Whether the range the loop builds for the position [pos] of the
    lower-cased buffer, at the offset the walk leaves and as long as the
    query, lies inside the node the walk stops at. *)
Definition fitsInNode (textNodes : list string) (queryLength pos : nat) : bool :=
  let '(nodeIndex, offset) := locate textNodes 0 pos in
  match textNodes !! nodeIndex with
  | Some nodeText => (offset + queryLength <=? String.length nodeText)%nat
  | None => false
  end.

(** Task [i] of [pending], counted from [base], holds results of
    chapter [base + i] only. *)
Definition tagged (base : nat) (pending : list (list SearchResult)) : Prop :=
  forall i l res, pending !! i = Some l -> In res l -> sr_chapterIndex res = (base + i)%nat.

(** The pushes come in spine order: no task pushes a result while the
    task of an earlier chapter still has one to push. *)
Definition nothingLeft (l : list SearchResult) : bool :=
  match l with
  | [] => true
  | _ :: _ => false
  end.

Fixpoint inOrder (schedule : list nat) (pending : list (list SearchResult)) : bool :=
  match schedule with
  | [] => true
  | task :: later =>
      match pending !! task with
      | Some (_ :: more) =>
          forallb nothingLeft (take task pending) && inOrder later (<[task := more]> pending)
      | _ => inOrder later pending
      end
  end.

Definition noResults (r : Reader) : Reader :=
  setCurrentSearchResultIndex (-1) (setSearchResults [] r).

(** [searchBook], lines 525-619.  [book] and [spine] are the contents of
    [bookRef.current] and of the [spine] cell. *)
Definition searchBook {engine : Engine} (book : option Book)
    (spine : option (list SpineItem)) (schedule : list nat) (query : string) (r : Reader)
  : Reader :=
  let r := setIsSearching true r in
  match book, spine with
  | Some book, Some spineItems =>
      if String.eqb query EmptyString then noResults r
      else
        let trimmedQuery := toLowerCase (trim query) in
        if String.eqb trimmedQuery EmptyString then noResults r
        else if (length spineItems =? 0)%nat then noResults r
        else
          let tasks := imap (scanChapter book trimmedQuery) spineItems in
          let results := interleave schedule tasks [] in
          setIsSearching false
            (setCurrentSearchResultIndex (if (0 <? length results)%nat then 0 else -1)
               (setSearchResults results r))
  | _, _ => noResults r
  end.

(** A host for examples: a range is encoded by node and offsets, every
    position lies in a chapter without title. *)
Definition decimal (n : nat) : string := NilEmpty.string_of_uint (Nat.to_uint n).

Definition sampleCfi (r : Range) : option string :=
  Some ("epubcfi(" +:+ decimal (container r) +:+ ":" +:+ decimal (startOffset r)
        +:+ "," +:+ decimal (endOffset r) +:+ ")").

Definition sampleBook : Book := {| getChapterFromCfi := fun _ => Resolved None |}.

Definition chapterOf (name : string) (textNodes : list string) : SpineItem :=
  {| href := name; document := Document textNodes; cfiFromRange := sampleCfi |}.

(** The chapter of the scenario in one text node, and the same text
    with an element boundary inside the first match, as in
    [the <b>c</b>ats category]. *)
Definition oneNode : SpineItem := chapterOf "chapter.xhtml" ["the cats category"].
Definition splitNodes : SpineItem := chapterOf "chapter.xhtml" ["the "; "c"; "ats category"].

(** Two chapters, the second answering first. *)
Definition twoChapters : list SpineItem :=
  [chapterOf "one.xhtml" ["a cat"]; chapterOf "two.xhtml" ["cat cat"]].

Definition secondFirst : Reader :=
  @searchBook asciiEngine (Some sampleBook) (Some twoChapters) [1%nat] "cat"
    (initialReader ∅).

(** Two chapters with two matches each, the tasks pushing in turn: each
    task ends after the one before it. *)
Definition twoEach : list SpineItem :=
  [chapterOf "one.xhtml" ["cat cat"]; chapterOf "two.xhtml" ["cat cat"]].

Definition inTurn : Reader :=
  @searchBook asciiEngine (Some sampleBook) (Some twoEach) [0%nat; 1%nat; 0%nat; 1%nat]
    "cat" (initialReader ∅).

(** One text node that starts with a capital dotted I. *)
Definition dottedNode : SpineItem :=
  chapterOf "chapter.xhtml" [String (ascii_of_nat 221) " cat cat"].

End Search.

(** ** The rest of the annotation store (lines 333-493) *)

(** [localStorage.removeItem(key)] *)
Definition removeItem (key : string) (r : Reader) : Reader :=
  {| highlights := highlights r; bookmarks := bookmarks r; notes := notes r;
     searchResults := searchResults r;
     currentSearchResultIndex := currentSearchResultIndex r;
     selectedCfi := selectedCfi r; isSearching := isSearching r;
     location := location r; totalBookChars := totalBookChars r;
     copiedChars := copiedChars r; copyAllowance := copyAllowance r;
     localStorage := delete key (localStorage r); clipboard := clipboard r;
     displayed := displayed r; overlay := overlay r |}.

(** [setLocation(cfi)], the cell the relocated handler keeps. *)
Definition setLocation (cfi : option string) (r : Reader) : Reader :=
  {| highlights := highlights r; bookmarks := bookmarks r; notes := notes r;
     searchResults := searchResults r;
     currentSearchResultIndex := currentSearchResultIndex r;
     selectedCfi := selectedCfi r; isSearching := isSearching r;
     location := cfi; totalBookChars := totalBookChars r;
     copiedChars := copiedChars r; copyAllowance := copyAllowance r;
     localStorage := localStorage r; clipboard := clipboard r;
     displayed := displayed r; overlay := overlay r |}.

Module Store.

(** [if (renditionRef.current && location) requestAnimationFrame(…display(location))] *)
Definition redisplay (p : Props) (r : Reader) : Reader :=
  match location r with
  | Some loc => if String.eqb loc EmptyString then r else withRendition p (display loc) r
  | None => r
  end.

(** [removeAllHighlights], lines 333-350.  Every stored highlight is
    taken off the page as a ["highlight"], whatever its own kind. *)
Definition removeAllHighlights (p : Props) (r : Reader) : Reader :=
  let unmark acc (h : Highlight) :=
    withRendition p (annotate (AnnotRemove (h_cfi h) highlight)) acc in
  let r1 := fold_left unmark (highlights r) r in
  let r2 := redisplay p r1 in
  setHighlights [] (removeItem (STORAGE_KEY_HIGHLIGHTS p) r2).

(** [{ ...h, color: newColor }] *)
Definition recolored (newColor : string) (h : Highlight) : Highlight :=
  {| h_id := h_id h; h_cfi := h_cfi h; h_text := h_text h; h_type := h_type h;
     h_color := Some newColor; h_createdAt := h_createdAt h |}.

(** [updateHighlightColor], lines 471-493: every highlight at [cfi] is
    taken off the page and drawn again in the new colour, with its own
    kind ([h.type || "highlight"]), and stored with the new colour. *)
Definition updateHighlightColor (p : Props) (cfi newColor : string) (r : Reader) : Reader :=
  let redraw acc (h : Highlight) :=
    if String.eqb (h_cfi h) cfi then
      let type := default highlight (h_type h) in
      withRendition p
        (fun x => annotate (AnnotAdd type cfi (Some (Annotations.className type)) newColor)
                    (annotate (AnnotRemove cfi type) x)) acc
    else acc in
  let r1 := fold_left redraw (highlights r) r in
  let updated :=
    map (fun h => if String.eqb (h_cfi h) cfi then recolored newColor h else h)
        (highlights r) in
  setHighlights updated (setItem (STORAGE_KEY_HIGHLIGHTS p) (JHighlights updated) r1).

(** What [updateHighlightColor] sends to the rendition for one stored
    highlight. *)
Definition redrawn (cfi newColor : string) (h : Highlight) : list OverlayCmd :=
  if String.eqb (h_cfi h) cfi then
    let type := default highlight (h_type h) in
    [AnnotRemove cfi type;
     AnnotAdd type cfi (Some (Annotations.className type)) newColor]
  else [].

(** An [async] callback settles: it is fulfilled or rejected. *)
Inductive Settled :=
| Fulfilled (r : Reader)
| Rejected (r : Reader).

Definition settledState (s : Settled) : Reader :=
  match s with
  | Fulfilled r => r
  | Rejected r => r
  end.

(** [addBookmark], lines 352-374.  [hasBook] says whether
    [bookRef.current] is set; [chapter] and [page] are the answers of
    [getChapterFromCfi] and [getPageFromCfi] ([@/lib/epub-utils]) for the
    current location. *)
Definition addBookmark (p : Props) (now : string) (hasBook : bool)
    (chapter : Search.ChapterLookup) (page : option Z) (r : Reader) : Settled :=
  match location r with
  | None => Fulfilled r
  | Some loc =>
      if String.eqb loc EmptyString || negb hasBook then Fulfilled r
      else
        match chapter with
        | Search.LookupRejects => Rejected r
        | Search.Resolved title =>
            let newBookmark :=
              {| b_cfi := loc; b_label := None; b_createdAt := now;
                 b_chapter := title; b_page := page |} in
            let updated := bookmarks r ++ [newBookmark] in
            Fulfilled (setBookmarks updated
                         (setItem (STORAGE_KEY_BOOKMARK p) (JBookmarks updated) r))
        end
  end.

(** [goToBookmark], lines 376-383. *)
Definition goToBookmark (p : Props) (cfi : string) (r : Reader) : Reader :=
  if String.eqb cfi EmptyString then r else withRendition p (display cfi) r.

(** [removeBookmark], lines 385-394. *)
Definition removeBookmark (p : Props) (cfiToRemove : string) (r : Reader) : Reader :=
  let updated :=
    List.filter (fun b => negb (String.eqb (b_cfi b) cfiToRemove)) (bookmarks r) in
  setBookmarks updated (setItem (STORAGE_KEY_BOOKMARK p) (JBookmarks updated) r).

(** [removeAllBookmarks], lines 396-401. *)
Definition removeAllBookmarks (p : Props) (r : Reader) : Reader :=
  setBookmarks [] (removeItem (STORAGE_KEY_BOOKMARK p) r).

(** [goToCfi], lines 415-418. *)
Definition goToCfi (p : Props) (cfi : string) (r : Reader) : Reader :=
  withRendition p (display cfi) (setSelectedCfi cfi r).

(** [addNote], lines 420-436; the argument's [createdAt] is not read. *)
Definition addNote (p : Props) (now : string) (args : Note) (r : Reader) : Reader :=
  let newNote :=
    {| n_cfi := n_cfi args; n_text := n_text args; n_note := n_note args;
       n_createdAt := now |} in
  let r1 := withRendition p
              (annotate (AnnotAdd highlight (n_cfi args) (Some "epub-note") "lightblue")) r in
  let updated := notes r1 ++ [newNote] in
  setNotes updated (setItem (STORAGE_KEY_NOTES p) (JNotes updated) r1).

(** [removeNote], lines 438-448. *)
Definition removeNote (p : Props) (cfi : string) (r : Reader) : Reader :=
  let r1 := withRendition p (annotate (AnnotRemove cfi highlight)) r in
  let updated := List.filter (fun n => negb (String.eqb (n_cfi n) cfi)) (notes r1) in
  setNotes updated (setItem (STORAGE_KEY_NOTES p) (JNotes updated) r1).

(** [removeAllNotes], lines 450-458. *)
Definition removeAllNotes (p : Props) (r : Reader) : Reader :=
  let unmark acc (n : Note) :=
    withRendition p (annotate (AnnotRemove (n_cfi n) highlight)) acc in
  let r1 := fold_left unmark (notes r) r in
  setNotes [] (removeItem (STORAGE_KEY_NOTES p) r1).

(** [{ ...n, note: newNote }] *)
Definition renoted (newNote : string) (n : Note) : Note :=
  {| n_cfi := n_cfi n; n_text := n_text n; n_note := newNote;
     n_createdAt := n_createdAt n |}.

(** [editNote], lines 460-469. *)
Definition editNote (p : Props) (cfi newNote : string) (r : Reader) : Reader :=
  let updated :=
    map (fun n => if String.eqb (n_cfi n) cfi then renoted newNote n else n) (notes r) in
  setNotes updated (setItem (STORAGE_KEY_NOTES p) (JNotes updated) r).

(** What a user does to the store, one step at a time.  Before a
    bookmark is added the reader may have moved: [AddBookmark] carries the
    location cell at that moment and the host's answers for it. *)
Inductive Action :=
| AddHighlight (now : string) (args : Highlight)
| RemoveHighlight (cfi : string) (type : HighlightType)
| UpdateHighlightColor (cfi newColor : string)
| RemoveAllHighlights
| AddBookmark (at_ : option string) (now : string) (hasBook : bool)
    (chapter : Search.ChapterLookup) (page : option Z)
| RemoveBookmark (cfi : string)
| RemoveAllBookmarks
| AddNote (now : string) (args : Note)
| RemoveNote (cfi : string)
| EditNote (cfi newNote : string)
| RemoveAllNotes.

Definition act (p : Props) (r : Reader) (a : Action) : Reader :=
  match a with
  | AddHighlight now args => Annotations.addHighlight p now args r
  | RemoveHighlight cfi type => Annotations.removeHighlight p cfi type r
  | UpdateHighlightColor cfi newColor => updateHighlightColor p cfi newColor r
  | RemoveAllHighlights => removeAllHighlights p r
  | AddBookmark at_ now hasBook chapter page =>
      settledState (addBookmark p now hasBook chapter page (setLocation at_ r))
  | RemoveBookmark cfi => removeBookmark p cfi r
  | RemoveAllBookmarks => removeAllBookmarks p r
  | AddNote now args => addNote p now args r
  | RemoveNote cfi => removeNote p cfi r
  | EditNote cfi newNote => editNote p cfi newNote r
  | RemoveAllNotes => removeAllNotes p r
  end.

Definition perform (p : Props) (actions : list Action) (r : Reader) : Reader :=
  fold_left (act p) actions r.

(** The stored copy of a collection agrees with the cell: the key holds
    the collection, or is absent while the collection is empty. *)
Definition stored (r : Reader) (key : string) (v : Json) (empty : bool) : Prop :=
  localStorage r !! key = Some v \/ (localStorage r !! key = None /\ empty = true).

Definition isNil {A} (l : list A) : bool :=
  match l with
  | [] => true
  | _ :: _ => false
  end.

Definition mirrored (p : Props) (r : Reader) : Prop :=
  stored r (STORAGE_KEY_HIGHLIGHTS p) (JHighlights (highlights r)) (isNil (highlights r))
  /\ stored r (STORAGE_KEY_BOOKMARK p) (JBookmarks (bookmarks r)) (isNil (bookmarks r))
  /\ stored r (STORAGE_KEY_NOTES p) (JNotes (notes r)) (isNil (notes r)).

(** The two states hold the same data: they differ at most in what was
    sent to the rendition. *)
Definition sameData (r r' : Reader) : Prop :=
  highlights r' = highlights r /\ bookmarks r' = bookmarks r /\ notes r' = notes r
  /\ localStorage r' = localStorage r /\ location r' = location r.

(** A new session on the storage an earlier one left. *)
Definition reopened (r : Reader) : Reader := initialReader (localStorage r).

(** What the loader passes to [addHighlight] for a stored highlight, and
    what [addHighlight] then stores. *)
Definition reAdded (now : string) (h : Highlight) : Highlight :=
  Annotations.newHighlightOf now
    {| h_id := None; h_cfi := h_cfi h; h_text := h_text h; h_type := None;
       h_color := h_color h; h_createdAt := h_createdAt h |}.

Definition underlined : Highlight :=
  {| h_id := None; h_cfi := "epubcfi(/6/4!/4/2,/1:0,/1:5)"; h_text := "Hello";
     h_type := Some underline; h_color := Some "green";
     h_createdAt := "2025-01-01T10:00:00.000Z" |}.

End Store.

(** ** Copying over a whole session, and the counters at start
    (lines 231-262 and 727-749) *)

Module Session.

(** The calls made with the callback of one render, each with the
    answer of the clipboard and the text: every guard reads the state the
    render saw, every update acts on the state the call before left. *)
Definition copyFrom (p : Props) (rendered : Reader) (calls : list (bool * string))
    (r : Reader) : Reader :=
  fold_left (fun acc c => stateOf (CopyQuota.copyTextFrom p rendered (fst c) (snd c) acc))
    calls r.

(** A series of [copyText] calls, render after render: the calls of one
    render come from the state the render before left. *)
Definition copyAll (p : Props) (renders : list (list (bool * string))) (r : Reader) : Reader :=
  fold_left (fun rendered calls => copyFrom p rendered calls rendered) renders r.

(** The same calls, a new render before each. *)
Definition oneByOne (calls : list (bool * string)) : list (list (bool * string)) :=
  map (fun c => [c]) calls.

(** The characters of a list of texts. *)
Definition charsOf (texts : list string) : Z :=
  Z.of_nat (list_sum (map String.length texts)).

(** The texts of the calls the clipboard accepted. *)
Definition accepted (calls : list (bool * string)) : list string :=
  map snd (List.filter fst calls).

Definition STORAGE_KEY_TOTAL_CHARS (p : Props) : string := "epub-total-chars-" +:+ url p.

(** How the initialisation of the book ends, as far as the counters go. *)
Inductive Failure :=
| ParseFailed      (* JSON.parse threw *)
| LoadFailed       (* a chapter did not load *).

Inductive Started :=
| Ready (r : Reader)
| Failed (why : Failure) (r : Reader).

Definition startedState (s : Started) : Reader :=
  match s with
  | Ready r => r
  | Failed _ r => r
  end.

(** [Promise.all] over the chapters: the body texts, unless one chapter
    fails to load. *)
Fixpoint allLoaded (bodies : list (option string)) : option (list string) :=
  match bodies with
  | [] => Some []
  | None :: _ => None
  | Some text :: rest =>
      match allLoaded rest with
      | Some texts => Some (text :: texts)
      | None => None
      end
  end.

(** Lines 727-749 of the initialisation.  [bodies] are the
    [document.body.textContent] of the spine items in order, [None] for a
    chapter whose load is rejected.  A stored value of another shape than
    a number is never written under these keys by the hook; it is left
    aside. *)
Definition restoreCounters (p : Props) (bodies : list (option string)) (r : Reader) : Started :=
  if negb (isCopyProtected p) then Ready r
  else
    let total :=
      match Persistence.truthy (localStorage r !! STORAGE_KEY_TOTAL_CHARS p) with
      | Some (JNumber n) => Ready (setTotalBookChars n r)
      | Some (Malformed _) => Failed ParseFailed r
      | Some _ => Ready r
      | None =>
          match allLoaded bodies with
          | None => Failed LoadFailed r
          | Some allText =>
              let totalChars := Z.of_nat (String.length (String.concat EmptyString allText)) in
              Ready (setItem (STORAGE_KEY_TOTAL_CHARS p) (JNumber totalChars)
                       (setTotalBookChars totalChars r))
          end
      end in
    match total with
    | Failed why r1 => Failed why r1
    | Ready r1 =>
        match Persistence.truthy (localStorage r1 !! STORAGE_KEY_COPIED_CHARS p) with
        | Some (JNumber n) => Ready (setCopiedChars n r1)
        | Some (Malformed _) => Failed ParseFailed r1
        | Some _ => Ready r1
        | None => Ready r1
        end
    end.

Definition bookOfTwoChapters : list (option string) :=
  [Some (CopyQuota.chars 100); Some (CopyQuota.chars 300)].

End Session.

(** ** The overlays of the search results (lines 662-677) *)

Module SearchOverlay.

(** The effect that runs when [searchResults] changes.  [previous] is
    [previousSearchHighlights.current]; the effect returns at once without
    a rendition. *)
Definition highlightSearchResults (p : Props) (previous : list string) (r : Reader)
  : list string * Reader :=
  if negb (hasRendition p) then (previous, r)
  else
    let r1 := fold_left (fun acc cfi => annotate (AnnotRemove cfi highlight) acc) previous r in
    let r2 :=
      fold_left
        (fun acc result =>
           annotate (AnnotAdd highlight (sr_cfi result) (Some "epub-search-highlight") "red")
             acc)
        (searchResults r) r1 in
    (map sr_cfi (searchResults r), r2).

(** A new result set is published and the effect runs. *)
Definition publish (p : Props) (state : list string * Reader) (results : list SearchResult)
  : list string * Reader :=
  highlightSearchResults p (fst state) (setSearchResults results (snd state)).

Definition publishAll (p : Props) (sets : list (list SearchResult))
    (state : list string * Reader) : list string * Reader :=
  fold_left (publish p) sets state.

Definition isSearchAdd (cfi : string) (c : OverlayCmd) : bool :=
  match c with
  | AnnotAdd highlight at_ (Some cls) _ =>
      String.eqb at_ cfi && String.eqb cls "epub-search-highlight"
  | _ => false
  end.

Definition isRemove (cfi : string) (c : OverlayCmd) : bool :=
  match c with
  | AnnotRemove at_ highlight => String.eqb at_ cfi
  | _ => false
  end.

(** How often a search overlay was drawn at [cfi], how often a
    "highlight" was removed there, and how often [cfi] occurs in a list. *)
Definition drawn (cfi : string) (cmds : list OverlayCmd) : nat :=
  length (List.filter (isSearchAdd cfi) cmds).

Definition removed (cfi : string) (cmds : list OverlayCmd) : nat :=
  length (List.filter (isRemove cfi) cmds).

Definition times (cfi : string) (cfis : list string) : nat :=
  length (List.filter (String.eqb cfi) cfis).

End SearchOverlay.

(** ** Clicks on the page (lines 952-1002) *)

Module Clicks.

(** A client rectangle; the coordinates are numbers compared exactly. *)
Record Rect := mkRect { left : Q; right : Q; top : Q; bottom : Q }.

(** What [rendition.getRange(cfi)] gives: an exception, nothing, or a
    range with its client rectangles. *)
Inductive RangeAnswer :=
| RangeThrows
| NoRange
| ClientRects (rects : list Rect).

Definition Qgeb (a b : Q) : bool := Qle_bool b a.

(** [x >= rect.left && x <= rect.right && y >= rect.top && y <= rect.bottom] *)
Definition inside (x y : Q) (rect : Rect) : bool :=
  Qgeb x (left rect) && Qle_bool x (right rect) && Qgeb y (top rect) && Qle_bool y (bottom rect).

(** The [try] block around one annotation: whether the loop over its
    rectangles finds the point. *)
Definition hit (getRange : string -> RangeAnswer) (x y : Q) (cfi : string) : bool :=
  match getRange cfi with
  | ClientRects rects => existsb (inside x y) rects
  | RangeThrows | NoRange => false
  end.

(** The cells the handler writes. *)
Record Cells := mkCells {
  selection : option (string * string);     (* cfi and text of the selection *)
  editingNote : option Note;
  clickedHighlight : option Highlight
}.

(** [handleClick] up to the image branch, which only sets the image
    preview and is reached when no annotation was found.  [selected] says
    whether the window still holds a non-empty text selection. *)
Definition handleClick (getRange : string -> RangeAnswer) (selected : bool) (x y : Q)
    (r : Reader) (c : Cells) : Cells :=
  let c1 := if selected then c
            else {| selection := None; editingNote := editingNote c;
                    clickedHighlight := clickedHighlight c |} in
  let c2 := {| selection := selection c1; editingNote := editingNote c1;
               clickedHighlight := None |} in
  match List.find (fun n => hit getRange x y (n_cfi n)) (notes r) with
  | Some note =>
      {| selection := selection c2; editingNote := Some note;
         clickedHighlight := clickedHighlight c2 |}
  | None =>
      match List.find (fun h => hit getRange x y (h_cfi h)) (highlights r) with
      | Some h =>
          {| selection := selection c2; editingNote := editingNote c2;
             clickedHighlight := Some h |}
      | None => c2
      end
  end.

(** A page with a note over a highlight and a second highlight apart. *)
Definition sampleRanges (cfi : string) : RangeAnswer :=
  if String.eqb cfi "epubcfi(/6/4!/4/2,/1:0,/1:5)"
  then ClientRects [mkRect 10 110 20 40]
  else if String.eqb cfi "epubcfi(/6/4!/4/6,/1:0,/1:9)"
  then ClientRects [mkRect 10 90 100 120]
  else NoRange.

Definition samplePage : Reader :=
  setNotes [mkNote "epubcfi(/6/4!/4/2,/1:0,/1:5)" "Hello" "check this" "2025-01-01T10:00:00.000Z"]
    (setHighlights
       [Store.underlined;
        mkHighlight None "epubcfi(/6/4!/4/6,/1:0,/1:9)" "Good night" (Some highlight)
          (Some "yellow") "2025-01-01T11:00:00.000Z"]
       (initialReader ∅)).

Definition noCells : Cells :=
  {| selection := None; editingNote := None; clickedHighlight := None |}.

End Clicks.

(** ** The text preview (lines 633-647) *)

Module Preview.

(** [s.slice(0, n)] for an integer [n]: the first [n] characters, or all
    but the last [-n] when [n] is negative. *)
Definition slice0 (s : string) (n : Z) : string :=
  if 0 <=? n then String.substring 0 (Z.to_nat n) s
  else String.substring 0 (String.length s - Z.to_nat (- n)) s.

(** What the host finds for the middle of the book: no book or no
    locations, no section, or the section's [body.textContent]. *)
Inductive Middle :=
| NoBook
| NoSection
| Body (textContent : option string).

(** [getPreviewText(charCount)]; [x || null] turns the empty string
    into [null]. *)
Definition getPreviewText (middle : Middle) (charCount : Z) : option string :=
  match middle with
  | NoBook | NoSection => None
  | Body None => None
  | Body (Some content) =>
      let text := slice0 (Search.trim content) charCount in
      if String.eqb text EmptyString then None else Some text
  end.

End Preview.

(** ** The search box and the result list (lines 621-631 and 650-660) *)

Module SearchBox.

(** The effect that runs when the debounced query changes: a blank
    query clears the results, a query of three characters or more is
    searched, anything else leaves the results as they are. *)
Definition searchEffect {engine : Search.Engine} (book : option Search.Book)
    (spine : option (list Search.SpineItem)) (schedule : list nat)
    (debouncedSearchQuery : string) (r : Reader) : Reader :=
  if (String.length (Search.trim debouncedSearchQuery) =? 0)%nat then Search.noResults r
  else if (3 <=? String.length debouncedSearchQuery)%nat
       then Search.searchBook book spine schedule debouncedSearchQuery r
       else r.

(** What happens around the search box: the query settles, with the book
    and the spine of that moment and the order in which the chapter tasks
    answer, or the user picks a result. *)
Inductive Event :=
| Typed (book : option Search.Book) (spine : option (list Search.SpineItem))
        (schedule : list nat) (query : string)
| Picked (index : Z).

Definition handle {engine : Search.Engine} (p : Props) (r : Reader) (e : Event) : Reader :=
  match e with
  | Typed book spine schedule query => searchEffect book spine schedule query r
  | Picked index => Navigation.goToSearchResult p index r
  end.

Definition run {engine : Search.Engine} (p : Props) (events : list Event) (r : Reader)
  : Reader :=
  fold_left (handle p) events r.

(** The current index names a result, or is [-1] when there is none. *)
Definition wellIndexed (r : Reader) : Prop :=
  (searchResults r = [] /\ currentSearchResultIndex r = -1)
  \/ 0 <= currentSearchResultIndex r < Z.of_nat (length (searchResults r)).

End SearchBox.


(** * Properties *)

(** ** Copy quota *)

Lemma Qltb_lt (a b : Q) : Qltb a b = true <-> (a < b)%Q.
Proof.
  unfold Qltb. destruct (Qlt_le_dec a b) as [Hlt | Hle]; split; intros H;
    try reflexivity; try assumption; try discriminate.
  exfalso. apply (Qlt_not_le _ _ H Hle).
Qed.

Lemma Qltb_ge (a b : Q) : Qltb a b = false <-> (b <= a)%Q.
Proof.
  unfold Qltb. destruct (Qlt_le_dec a b) as [Hlt | Hle]; split; intros H;
    try reflexivity; try assumption; try discriminate.
  exfalso. apply (Qlt_not_le _ _ Hlt H).
Qed.

(** The three calls of the scenario, the clipboard accepting each text. *)
Lemma copyText_scenario :
  let r1 := stateOf (CopyQuota.copyText CopyQuota.scenarioProps true (CopyQuota.chars 30)
                       CopyQuota.scenarioStart) in
  let r3 := stateOf (CopyQuota.copyText CopyQuota.scenarioProps true (CopyQuota.chars 10) r1) in
  CopyQuota.copyText CopyQuota.scenarioProps true (CopyQuota.chars 30) CopyQuota.scenarioStart
    = Returned r1
  /\ copiedChars r1 = 30
  /\ CopyQuota.copyText CopyQuota.scenarioProps true (CopyQuota.chars 15) r1
    = Threw CopyLimitExceeded r1
  /\ CopyQuota.copyText CopyQuota.scenarioProps true (CopyQuota.chars 10) r1 = Returned r3
  /\ copiedChars r3 = 40
  /\ localStorage r3 !! "epub-copied-chars-book.epub" = Some (JNumber 40).
Proof. vm_compute. repeat split; reflexivity. Qed.

(** The numbers of the examples: the decimal 0.57 and the fraction of
    the double next to 0.6 denote the doubles 0x1.23d70a3d70a3dp-1 and
    0x1.3333333333333p-1; the allowances they give for 10000 and for 500
    characters are 56.99999999999999 and 3. *)
Lemma allowedChars_examples :
  Double.of_Q (57 # 100) = S754_finite false 5134103575202365 (-53)
  /\ Double.of_Q CopyQuota.double_0_6 = S754_finite false 5404319552844595 (-53)
  /\ Double.of_Q 10 = Double.of_Z 10
  /\ CopyQuota.allowedChars (CopyQuota.fractionalStart 10000 (57 # 100))
     = S754_finite false 8022036836253695 (-47)
  /\ CopyQuota.allowedChars (CopyQuota.fractionalStart 500 CopyQuota.double_0_6)
     = Double.of_Z 3
  /\ CopyQuota.allowedChars CopyQuota.scenarioStart = Double.of_Z 40.
Proof. repeat split; vm_compute; reflexivity. Qed.

(** What a protected call does, by its guard. *)
Lemma copyText_cases (p : Props) (writes : bool) (text : string) (r : Reader) :
  isCopyProtected p = true ->
  let o := CopyQuota.copyText p writes text r in
  (CopyQuota.exceeds r text = true /\ o = Threw CopyLimitExceeded r)
  \/ (CopyQuota.exceeds r text = false
      /\ o = andThen (CopyQuota.clipboard_writeText writes text r) (fun r1 =>
               let n := copiedChars r1 + Z.of_nat (String.length text) in
               Returned (setCopiedChars n
                           (setItem (STORAGE_KEY_COPIED_CHARS p) (JNumber n) r1)))).
Proof.
  intros Hprot. unfold CopyQuota.copyText, CopyQuota.copyTextFrom.
  rewrite Hprot. simpl negb. cbv iota.
  destruct (CopyQuota.exceeds r text); [left | right]; split; reflexivity.
Qed.

(** C1, as stated, fails when the allowance is not an integer: the guard
    is evaluated in double precision.  With 10000 characters and 0.57
    percent, a text of 57 characters is inside the exact allowance
    (57 = 10000 x 0.57 / 100) and is refused, because the product is
    rounded to 5699.999999999999.  With 500 characters and the double next
    to 0.6, which is a little less than 0.6, a text of 3 characters is
    above the exact allowance and is copied, because the product is
    rounded to 300. *)
Lemma copyText_not_the_exact_inequality :
  (inject_Z (copiedChars (CopyQuota.fractionalStart 10000 (57 # 100)) + 57)
   <= inject_Z (totalBookChars (CopyQuota.fractionalStart 10000 (57 # 100)))
      * copyAllowance (CopyQuota.fractionalStart 10000 (57 # 100)) / 100)%Q
  /\ CopyQuota.copyText (CopyQuota.fractionalProps (57 # 100)) true (CopyQuota.chars 57)
       (CopyQuota.fractionalStart 10000 (57 # 100))
     = Threw CopyLimitExceeded (CopyQuota.fractionalStart 10000 (57 # 100))
  /\ (inject_Z (totalBookChars (CopyQuota.fractionalStart 500 CopyQuota.double_0_6))
      * copyAllowance (CopyQuota.fractionalStart 500 CopyQuota.double_0_6) / 100
      < inject_Z (copiedChars (CopyQuota.fractionalStart 500 CopyQuota.double_0_6) + 3))%Q
  /\ (exists r',
        CopyQuota.copyText (CopyQuota.fractionalProps CopyQuota.double_0_6) true
          (CopyQuota.chars 3) (CopyQuota.fractionalStart 500 CopyQuota.double_0_6)
        = Returned r'
        /\ copiedChars r' = 3).
Proof.
  split; [vm_compute; discriminate|].
  split; [vm_compute; reflexivity|].
  split; [vm_compute; reflexivity|].
  eexists. split; [vm_compute; reflexivity | reflexivity].
Qed.

(** C1, amended.  In protected mode [copyText] is refused with "Copy
    limit exceeded" exactly when [copiedChars + text.length >
    (totalBookChars * copyAllowance) / 100] holds as the program evaluates
    it, in double precision, the product rounded first and then the
    quotient; a call that returns has added [text.length] to [copiedChars]
    and stored the new total under the copied-characters key; a call that
    is not refused returns as soon as the clipboard takes the text.  With
    400 characters and 10 percent the calls of 30, 15 and 10 characters
    give 30, a refusal, and 40. *)
Theorem copyText_authorizes (p : Props) (writes : bool) (text : string) (r : Reader) :
  isCopyProtected p = true ->
  let len := Z.of_nat (String.length text) in
  let allowedChars :=
    Double.div
      (Double.mul (Double.of_Z (totalBookChars r)) (Double.of_Q (copyAllowance r)))
      (Double.of_Z 100) in
  let refused := Double.gt (Double.of_Z (copiedChars r + len)) allowedChars = true in
  let o := CopyQuota.copyText p writes text r in
  (refused <-> o = Threw CopyLimitExceeded r)
  /\ (refused <-> exists r', o = Threw CopyLimitExceeded r')
  /\ (forall r', o = Returned r' ->
        ~ refused
        /\ copiedChars r' = copiedChars r + len
        /\ localStorage r' !! STORAGE_KEY_COPIED_CHARS p = Some (JNumber (copiedChars r + len)))
  /\ (~ refused -> writes = true -> exists r', o = Returned r')
  /\ (let r1 := stateOf (CopyQuota.copyText CopyQuota.scenarioProps true (CopyQuota.chars 30)
                           CopyQuota.scenarioStart) in
      let r3 := stateOf (CopyQuota.copyText CopyQuota.scenarioProps true
                           (CopyQuota.chars 10) r1) in
      CopyQuota.copyText CopyQuota.scenarioProps true (CopyQuota.chars 30)
        CopyQuota.scenarioStart = Returned r1
      /\ copiedChars r1 = 30
      /\ CopyQuota.copyText CopyQuota.scenarioProps true (CopyQuota.chars 15) r1
         = Threw CopyLimitExceeded r1
      /\ CopyQuota.copyText CopyQuota.scenarioProps true (CopyQuota.chars 10) r1
         = Returned r3
      /\ copiedChars r3 = 40).
Proof.
  intros Hprot len allowedChars refused o.
  assert (Hguard : refused <-> CopyQuota.exceeds r text = true) by (split; intros H; exact H).
  assert (Hscenario := copyText_scenario). cbv zeta in Hscenario.
  destruct Hscenario as (S1 & S2 & S3 & S4 & S5 & _).
  destruct (copyText_cases p writes text r Hprot) as [[He Ho] | [He Ho]]; fold o in Ho.
  - split; [|split; [|split; [|split]]].
    + split; [intros _; exact Ho | intros _; apply (proj2 Hguard), He].
    + split; [intros _; exists r; exact Ho | intros _; apply (proj2 Hguard), He].
    + intros r' Hr'. rewrite Ho in Hr'. discriminate.
    + intros Hnot. elim Hnot. apply (proj2 Hguard), He.
    + cbv zeta. auto.
  - assert (Hnot : ~ refused).
    { intros H. apply (proj1 Hguard) in H. rewrite He in H. discriminate. }
    assert (Hthrown : forall r', o <> Threw CopyLimitExceeded r').
    { intros r' Hr'. rewrite Ho in Hr'. destruct writes; simpl in Hr'; discriminate. }
    split; [|split; [|split; [|split]]].
    + split; [intros H; contradiction | intros H; elim (Hthrown r H)].
    + split; [intros H; contradiction | intros [r' H]; elim (Hthrown r' H)].
    + intros r' Hr'. split; [exact Hnot|].
      rewrite Ho in Hr'. destruct writes; simpl in Hr'; [|discriminate].
      injection Hr' as <-. simpl. split; [reflexivity|]. apply lookup_insert_eq.
    + intros _ Hw. rewrite Ho, Hw. simpl. eexists. reflexivity.
    + cbv zeta. auto.
Qed.

Lemma copyText_authorizes_witness :
  isCopyProtected CopyQuota.scenarioProps = true
  /\ exists r',
       CopyQuota.copyText CopyQuota.scenarioProps true (CopyQuota.chars 30)
         CopyQuota.scenarioStart = Returned r'.
Proof.
  split; [reflexivity|].
  destruct (copyText_authorizes CopyQuota.scenarioProps true (CopyQuota.chars 30)
              CopyQuota.scenarioStart eq_refl) as (_ & _ & _ & Hreturns & _).
  apply Hreturns; [|reflexivity].
  vm_compute. discriminate.
Defined.

(** C8. In protected mode a call that is denied, its text taking
    [copiedChars] above the allowance in the guard of line 244, throws
    "Copy limit exceeded" in the very state it was called in: nothing was
    written to the clipboard, and [copiedChars] and its stored value are
    what they were.  A call that throws "Copy limit exceeded" was denied
    by that guard, and left the state it was called in. *)
Theorem copyText_denied_leaves_state (p : Props) (writes : bool) (text : string) (r : Reader) :
  isCopyProtected p = true ->
  let o := CopyQuota.copyText p writes text r in
  let denied :=
    Double.gt (Double.of_Z (copiedChars r + Z.of_nat (String.length text)))
      (CopyQuota.allowedChars r) = true in
  (denied ->
     o = Threw CopyLimitExceeded r
     /\ clipboard (stateOf o) = clipboard r
     /\ copiedChars (stateOf o) = copiedChars r
     /\ localStorage (stateOf o) = localStorage r)
  /\ (forall r', o = Threw CopyLimitExceeded r' -> denied /\ r' = r).
Proof.
  intros Hprot o denied.
  destruct (copyText_cases p writes text r Hprot) as [[He Ho] | [He Ho]]; fold o in Ho.
  - split.
    + intros _. rewrite Ho. simpl. auto.
    + intros r' Hr'. rewrite Ho in Hr'. injection Hr' as <-. split; [exact He | reflexivity].
  - split.
    + intros H. assert (Hd : CopyQuota.exceeds r text = true) by exact H.
      rewrite He in Hd. discriminate.
    + intros r' Hr'. rewrite Ho in Hr'. destruct writes; simpl in Hr'; discriminate.
Qed.

Lemma copyText_denied_leaves_state_witness :
  CopyQuota.copyText CopyQuota.scenarioProps true (CopyQuota.chars 15)
    (setCopiedChars 30 CopyQuota.scenarioStart)
  = Threw CopyLimitExceeded (setCopiedChars 30 CopyQuota.scenarioStart).
Proof.
  destruct (copyText_denied_leaves_state CopyQuota.scenarioProps true (CopyQuota.chars 15)
              (setCopiedChars 30 CopyQuota.scenarioStart)) as [Hdenied _].
  - reflexivity.
  - destruct Hdenied as [Hthrown _]; [vm_compute; reflexivity | exact Hthrown].
Defined.


Lemma allowance_validated_aux (p : Props) (r : Reader) :
  let a := copyAllowancePercentage p in
  ((a < 0 \/ 100 < a)%Q ->
     CopyQuota.validateAllowance p r = Threw InvalidCopyAllowance r)
  /\ ((0 <= a /\ a <= 100)%Q ->
        CopyQuota.validateAllowance p r = Returned (setCopyAllowance a r)
        /\ copyAllowance (stateOf (CopyQuota.validateAllowance p r)) = a).
Proof.
  intros a. split.
  - intros Hout.
    assert (Hb : Qltb a 0 || Qgtb a 100 = true).
    { apply orb_true_iff. unfold Qgtb. destruct Hout as [H | H]; [left | right];
        apply Qltb_lt; exact H. }
    unfold CopyQuota.validateAllowance. fold a. rewrite Hb. reflexivity.
  - intros [Hlo Hhi].
    assert (Hb : Qltb a 0 || Qgtb a 100 = false).
    { apply orb_false_iff. unfold Qgtb. split; apply Qltb_ge; assumption. }
    unfold CopyQuota.validateAllowance. fold a. rewrite Hb. simpl. auto.
Qed.

(** C6. The validation effect throws "Invalid copyAllowancePercentage"
    for a percentage below 0 or above 100, and the session start stops
    there, in the initial state; a percentage from 0 to 100 is stored as
    the allowance. *)
Theorem allowance_validated (p : Props) (r : Reader) :
  let a := copyAllowancePercentage p in
  ((a < 0 \/ 100 < a)%Q ->
     CopyQuota.validateAllowance p r = Threw InvalidCopyAllowance r
     /\ forall now storage,
          Persistence.startSession p now storage
          = Threw InvalidCopyAllowance (initialReader storage))
  /\ ((0 <= a /\ a <= 100)%Q ->
        CopyQuota.validateAllowance p r = Returned (setCopyAllowance a r)
        /\ copyAllowance (stateOf (CopyQuota.validateAllowance p r)) = a).
Proof.
  intros a. split.
  - intros Hout.
    assert (Hv : forall r0, CopyQuota.validateAllowance p r0 = Threw InvalidCopyAllowance r0).
    { intros r0. apply (proj1 (allowance_validated_aux p r0)). exact Hout. }
    split; [apply Hv|].
    intros now storage. unfold Persistence.startSession. rewrite Hv. reflexivity.
  - apply (proj2 (allowance_validated_aux p r)).
Qed.

Lemma allowance_validated_witness :
  CopyQuota.validateAllowance (defaultProps "book.epub" None (Some 150%Q)) (initialReader ∅)
    = Threw InvalidCopyAllowance (initialReader ∅)
  /\ copyAllowance
       (stateOf (CopyQuota.validateAllowance (defaultProps "book.epub" None (Some 25%Q))
                   (initialReader ∅))) = 25%Q.
Proof.
  split.
  - apply (proj1 (allowance_validated (defaultProps "book.epub" None (Some 150%Q))
                    (initialReader ∅))).
    right. vm_compute. reflexivity.
  - apply (proj2 (allowance_validated (defaultProps "book.epub" None (Some 25%Q))
                    (initialReader ∅))).
    split; vm_compute; discriminate.
Defined.

(** ** Highlights *)

Lemma withRendition_highlights (p : Props) (f : Reader -> Reader) (r : Reader) :
  (forall x, highlights (f x) = highlights x) ->
  highlights (withRendition p f r) = highlights r.
Proof. intros Hf. unfold withRendition. destruct (hasRendition p); auto. Qed.

Lemma addHighlight_highlights (p : Props) (now : string) (args : Highlight) (r : Reader) :
  highlights (Annotations.addHighlight p now args r)
  = highlights r ++ [Annotations.newHighlightOf now args].
Proof.
  unfold Annotations.addHighlight. simpl.
  rewrite withRendition_highlights; [reflexivity|]. intros x. reflexivity.
Qed.

Lemma addHighlights_highlights (p : Props) (calls : list (string * Highlight)) (r : Reader) :
  highlights (Annotations.addHighlights p calls r)
  = highlights r ++ map (fun c => Annotations.newHighlightOf (fst c) (snd c)) calls.
Proof.
  unfold Annotations.addHighlights. revert r.
  induction calls as [|c calls IH]; intros r; simpl.
  - symmetry. apply app_nil_r.
  - rewrite IH, addHighlight_highlights, <- app_assoc. reflexivity.
Qed.

Lemma sameKey_newHighlightOf (k : string * HighlightType) (now : string) (args : Highlight) :
  Annotations.sameKey k (Annotations.newHighlightOf now args) = Annotations.sameKey k args.
Proof. reflexivity. Qed.

Lemma countKey_app (k : string * HighlightType) (l1 l2 : list Highlight) :
  Annotations.countKey k (l1 ++ l2)
  = (Annotations.countKey k l1 + Annotations.countKey k l2)%nat.
Proof. unfold Annotations.countKey. rewrite List.filter_app, length_app. reflexivity. Qed.

Lemma countKey_added (k : string * HighlightType) (calls : list (string * Highlight)) :
  Annotations.countKey k (map (fun c => Annotations.newHighlightOf (fst c) (snd c)) calls)
  = Annotations.countKey k (map snd calls).
Proof.
  unfold Annotations.countKey.
  induction calls as [|c calls IH]; simpl; [reflexivity|].
  rewrite sameKey_newHighlightOf. destruct (Annotations.sameKey k (snd c)); simpl; lia.
Qed.

(** C2, as stated, fails: highlighting the same selection twice leaves
    two entries with the same position and kind, the first one still
    there with its own time stamp. *)
Lemma addHighlight_duplicate_kept :
  map Annotations.keyOf (highlights Annotations.addedTwice)
    = [Annotations.keyOf Annotations.sampleHighlight;
       Annotations.keyOf Annotations.sampleHighlight]
  /\ map h_createdAt (highlights Annotations.addedTwice)
     = ["2025-01-01T10:00:00.000Z"; "2025-01-01T10:05:00.000Z"]
  /\ ~ List.NoDup (map Annotations.keyOf (highlights Annotations.addedTwice)).
Proof.
  split; [reflexivity|]. split; [reflexivity|].
  intros Hnd. change (map Annotations.keyOf (highlights Annotations.addedTwice))
    with [Annotations.keyOf Annotations.sampleHighlight;
          Annotations.keyOf Annotations.sampleHighlight] in Hnd.
  inversion Hnd as [|x l Hnotin _]. apply Hnotin. left. reflexivity.
Qed.

(** C2, amended. [addHighlight] appends: after any sequence of calls the
    collection is the old one followed by one new entry per call, in call
    order, so every earlier entry is kept and a position and kind occurs
    once more for each call made with it; each call stores the whole new
    collection under the highlights key. *)
Theorem addHighlight_appends (p : Props) (calls : list (string * Highlight)) (r : Reader) :
  highlights (Annotations.addHighlights p calls r)
    = highlights r ++ map (fun c => Annotations.newHighlightOf (fst c) (snd c)) calls
  /\ (forall k,
        Annotations.countKey k (highlights (Annotations.addHighlights p calls r))
        = (Annotations.countKey k (highlights r)
           + Annotations.countKey k (map snd calls))%nat)
  /\ (forall now args,
        localStorage (Annotations.addHighlight p now args r) !! STORAGE_KEY_HIGHLIGHTS p
        = Some (JHighlights (highlights r ++ [Annotations.newHighlightOf now args]))).
Proof.
  split; [apply addHighlights_highlights|]. split.
  - intros k. rewrite addHighlights_highlights, countKey_app, countKey_added. reflexivity.
  - intros now args. unfold Annotations.addHighlight. simpl.
    rewrite lookup_insert_eq, withRendition_highlights; [reflexivity|].
    intros x. reflexivity.
Qed.

(** C9. [removeHighlight(cfi, type)] keeps exactly the highlights whose
    position differs from [cfi], in their order, whatever their kind and
    whatever [type] is, and stores the result under the highlights key. *)
Theorem removeHighlight_by_position (p : Props) (cfi : string) (type : HighlightType)
    (r : Reader) :
  let r' := Annotations.removeHighlight p cfi type r in
  highlights r' = List.filter (fun h => negb (String.eqb (h_cfi h) cfi)) (highlights r)
  /\ (forall h, In h (highlights r') <-> In h (highlights r) /\ h_cfi h <> cfi)
  /\ (forall type', highlights (Annotations.removeHighlight p cfi type' r) = highlights r')
  /\ localStorage r' !! STORAGE_KEY_HIGHLIGHTS p = Some (JHighlights (highlights r')).
Proof.
  assert (Hkept : forall t,
            highlights (Annotations.removeHighlight p cfi t r)
            = List.filter (fun h => negb (String.eqb (h_cfi h) cfi)) (highlights r)).
  { intros t. unfold Annotations.removeHighlight. simpl.
    assert (H1 : highlights (withRendition p (annotate (AnnotRemove cfi t)) r) = highlights r).
    { apply withRendition_highlights. intros x. reflexivity. }
    destruct (location (withRendition p (annotate (AnnotRemove cfi t)) r)) as [loc|].
    - destruct (String.eqb loc EmptyString); [rewrite H1; reflexivity|].
      rewrite withRendition_highlights; [rewrite H1; reflexivity|].
      intros x. reflexivity.
    - rewrite H1. reflexivity. }
  intros r'. subst r'. split; [apply Hkept|]. split; [|split].
  - intros h. rewrite Hkept, List.filter_In. split; intros [Hin Hne]; split; try exact Hin.
    + intros Heq. apply String.eqb_eq in Heq. rewrite Heq in Hne. discriminate.
    + apply negb_true_iff. apply String.eqb_neq. exact Hne.
  - intros type'. rewrite !Hkept. reflexivity.
  - unfold Annotations.removeHighlight. simpl. apply lookup_insert_eq.
Qed.

(** ** Moving to a search result *)

(** C10. With [n] results, [goToSearchResult(i)] for [i < 0] or
    [i >= n] returns the state unchanged: no navigation, same selected
    position, same current index.  For [0 <= i < n] it navigates to
    result [i] (when there is a rendition), selects its position and
    makes [i] the current index. *)
Theorem goToSearchResult_bounds (p : Props) (index : Z) (r : Reader) :
  let n := Z.of_nat (length (searchResults r)) in
  let r' := Navigation.goToSearchResult p index r in
  ((index < 0 \/ n <= index) -> r' = r)
  /\ (0 <= index < n ->
        exists result,
          searchResults r !! Z.to_nat index = Some result
          /\ selectedCfi r' = sr_cfi result
          /\ currentSearchResultIndex r' = index
          /\ displayed r'
             = (if hasRendition p then displayed r ++ [sr_cfi result] else displayed r)
          /\ searchResults r' = searchResults r).
Proof.
  intros n r'. subst r'. unfold Navigation.goToSearchResult. fold n. split.
  - intros Hout.
    destruct (0 <=? index) eqn:H0; [|reflexivity].
    destruct (index <? n) eqn:H1; [|reflexivity].
    apply Z.leb_le in H0. apply Z.ltb_lt in H1. lia.
  - intros [H0 H1].
    assert (Hlt : (Z.to_nat index < length (searchResults r))%nat) by lia.
    destruct (lookup_lt_is_Some_2 _ _ Hlt) as [result Hres].
    exists result. split; [exact Hres|].
    apply Z.leb_le in H0. apply Z.ltb_lt in H1. rewrite H0, H1, Hres. simpl.
    unfold withRendition. destruct (hasRendition p); simpl; auto.
Qed.

Lemma goToSearchResult_bounds_witness :
  Navigation.goToSearchResult Annotations.sampleProps 2 Navigation.twoResults
    = Navigation.twoResults
  /\ Navigation.goToSearchResult Annotations.sampleProps (-1) Navigation.twoResults
     = Navigation.twoResults
  /\ selectedCfi (Navigation.goToSearchResult Annotations.sampleProps 1 Navigation.twoResults)
     = "epubcfi(/6/4!/4:7)".
Proof.
  split; [|split].
  - apply (proj1 (goToSearchResult_bounds Annotations.sampleProps 2 Navigation.twoResults)).
    right. simpl. lia.
  - apply (proj1 (goToSearchResult_bounds Annotations.sampleProps (-1) Navigation.twoResults)).
    left. lia.
  - destruct (proj2 (goToSearchResult_bounds Annotations.sampleProps 1 Navigation.twoResults))
      as (result & Hres & Hsel & _).
    + simpl. lia.
    + rewrite Hsel. simpl in Hres. injection Hres as <-. reflexivity.
Defined.

(** ** Loading the saved collections *)

Lemma truthy_malformed (raw : string) :
  raw <> EmptyString -> Persistence.truthy (Some (Malformed raw)) = Some (Malformed raw).
Proof. intros Hraw. destruct raw; [contradiction | reflexivity]. Qed.

(** Stored highlights that do not parse are logged and skipped: the
    collection keeps its initial, empty value. *)
Lemma loadSavedHighlights_malformed (p : Props) (now raw : string) (r : Reader) :
  localStorage r !! STORAGE_KEY_HIGHLIGHTS p = Some (Malformed raw) ->
  Persistence.loadSavedHighlights p now r = Returned r.
Proof.
  intros Hraw. unfold Persistence.loadSavedHighlights. rewrite Hraw.
  destruct raw; reflexivity.
Qed.

(** The same for the bookmarks. *)
Lemma loadSavedBookmarks_malformed (p : Props) (raw : string) (r : Reader) :
  localStorage r !! STORAGE_KEY_BOOKMARK p = Some (Malformed raw) ->
  Persistence.loadSavedBookmarks p r = Returned r.
Proof.
  intros Hraw. unfold Persistence.loadSavedBookmarks. rewrite Hraw.
  destruct raw; reflexivity.
Qed.

Lemma notes_key_not_highlights (p : Props) :
  STORAGE_KEY_HIGHLIGHTS p <> STORAGE_KEY_NOTES p.
Proof. unfold STORAGE_KEY_HIGHLIGHTS, STORAGE_KEY_NOTES. simpl. discriminate. Qed.

Lemma withRendition_storage (p : Props) (f : Reader -> Reader) (r : Reader) :
  (forall x, localStorage (f x) = localStorage x) ->
  localStorage (withRendition p f r) = localStorage r.
Proof. intros Hf. unfold withRendition. destruct (hasRendition p); auto. Qed.

Lemma addHighlight_notes_key (p : Props) (now : string) (args : Highlight) (r : Reader) :
  localStorage (Annotations.addHighlight p now args r) !! STORAGE_KEY_NOTES p
  = localStorage r !! STORAGE_KEY_NOTES p.
Proof.
  unfold Annotations.addHighlight. simpl.
  rewrite lookup_insert_ne by apply notes_key_not_highlights.
  rewrite withRendition_storage; [reflexivity|]. intros x. reflexivity.
Qed.

Lemma loadSavedHighlights_notes_key (p : Props) (now : string) (r r1 : Reader) :
  Persistence.loadSavedHighlights p now r = Returned r1 ->
  localStorage r1 !! STORAGE_KEY_NOTES p = localStorage r !! STORAGE_KEY_NOTES p.
Proof.
  unfold Persistence.loadSavedHighlights.
  destruct (Persistence.truthy (localStorage r !! STORAGE_KEY_HIGHLIGHTS p)) as [[]|];
    intros H; injection H as <-; try reflexivity.
  simpl. generalize hs at 1. intros parsed. revert r.
  induction parsed as [|h parsed IH]; intros r; simpl; [reflexivity|].
  rewrite IH. apply addHighlight_notes_key.
Qed.

Lemma loadSavedHighlights_returns (p : Props) (now : string) (r : Reader) :
  exists r1, Persistence.loadSavedHighlights p now r = Returned r1.
Proof.
  unfold Persistence.loadSavedHighlights.
  destruct (Persistence.truthy (localStorage r !! STORAGE_KEY_HIGHLIGHTS p)) as [[]|];
    eexists; reflexivity.
Qed.

Lemma loadSavedBookmarks_returns (p : Props) (r : Reader) :
  exists r2, Persistence.loadSavedBookmarks p r = Returned r2
             /\ localStorage r2 = localStorage r.
Proof.
  unfold Persistence.loadSavedBookmarks.
  destruct (Persistence.truthy (localStorage r !! STORAGE_KEY_BOOKMARK p)) as [[]|];
    eexists; split; reflexivity.
Qed.

(** What the claim asks for does hold for the two loaders that catch:
    with highlights and bookmarks that do not parse and no stored notes,
    the session starts, both collections empty. *)
Lemma startSession_malformed_caught (p : Props) (now rawH rawB : string)
    (storage : gmap string Json) :
  (0 <= copyAllowancePercentage p /\ copyAllowancePercentage p <= 100)%Q ->
  storage !! STORAGE_KEY_HIGHLIGHTS p = Some (Malformed rawH) ->
  storage !! STORAGE_KEY_BOOKMARK p = Some (Malformed rawB) ->
  storage !! STORAGE_KEY_NOTES p = None ->
  exists r,
    Persistence.startSession p now storage = Returned r
    /\ highlights r = [] /\ bookmarks r = [] /\ notes r = [].
Proof.
  intros Hvalid HH HB HN. unfold Persistence.startSession.
  destruct (proj2 (allowance_validated_aux p (initialReader storage)) Hvalid) as [Hv _].
  rewrite Hv. simpl andThen. unfold Persistence.loadSaved.
  set (r0 := setCopyAllowance (copyAllowancePercentage p) (initialReader storage)).
  rewrite (loadSavedHighlights_malformed p now rawH r0 HH). simpl andThen.
  rewrite (loadSavedBookmarks_malformed p rawB r0 HB). simpl andThen.
  exists r0. split; [|simpl; auto].
  unfold Persistence.loadSavedNotes.
  destruct (hasRendition p); simpl; [|reflexivity].
  change (localStorage r0) with storage. rewrite HN. reflexivity.
Qed.

(** C4, the code at the failing input.  With a valid allowance and a
    rendition, stored notes that do not parse make the notes effect
    throw the [SyntaxError] of [JSON.parse]; the session start ends with
    that exception, whatever the other keys hold. *)
Theorem startSession_malformed_notes (p : Props) (now raw : string)
    (storage : gmap string Json) :
  (0 <= copyAllowancePercentage p /\ copyAllowancePercentage p <= 100)%Q ->
  hasRendition p = true ->
  raw <> EmptyString ->
  storage !! STORAGE_KEY_NOTES p = Some (Malformed raw) ->
  (forall r, localStorage r !! STORAGE_KEY_NOTES p = Some (Malformed raw) ->
             Persistence.loadSavedNotes p r = Threw SyntaxError r)
  /\ exists r, Persistence.startSession p now storage = Threw SyntaxError r.
Proof.
  intros Hvalid Hrend Hraw Hstored.
  assert (Hnotes : forall r, localStorage r !! STORAGE_KEY_NOTES p = Some (Malformed raw) ->
                             Persistence.loadSavedNotes p r = Threw SyntaxError r).
  { intros r Hr. unfold Persistence.loadSavedNotes. rewrite Hrend, Hr. simpl negb. cbv iota.
    rewrite truthy_malformed by exact Hraw. reflexivity. }
  split; [exact Hnotes|].
  unfold Persistence.startSession.
  destruct (proj2 (allowance_validated_aux p (initialReader storage)) Hvalid) as [Hv _].
  rewrite Hv. simpl andThen. unfold Persistence.loadSaved.
  set (r0 := setCopyAllowance (copyAllowancePercentage p) (initialReader storage)).
  destruct (loadSavedHighlights_returns p now r0) as [r1 H1].
  destruct (loadSavedBookmarks_returns p r1) as (r2 & H2 & Hsame).
  rewrite H1. simpl andThen. rewrite H2. simpl andThen.
  exists r2. apply Hnotes.
  rewrite Hsame, (loadSavedHighlights_notes_key p now r0 r1 H1). exact Hstored.
Qed.

Lemma startSession_malformed_notes_witness :
  exists r,
    Persistence.startSession Annotations.sampleProps "2025-01-01T10:00:00.000Z"
      Persistence.corruptNotes = Threw SyntaxError r.
Proof.
  apply (startSession_malformed_notes Annotations.sampleProps "2025-01-01T10:00:00.000Z"
           "[{cfi:epubcfi(/6/4!/4/2" Persistence.corruptNotes).
  - split; vm_compute; discriminate.
  - reflexivity.
  - discriminate.
  - vm_compute. reflexivity.
Defined.

(** ** Page estimates for the table of contents *)

Lemma enhanceItem_eq (book : Toc.Book) (n : Z) (id href label : string)
    (subitems : list Toc.NavItem) (index : Z) (path : list nat) :
  Toc.enhanceItem book n (Toc.mkNavItem id href label subitems) index path
  = Toc.mkEnhancedNavItem id href label (Toc.estimatePage (book path) index n)
      (Toc.enhanceEach book n index path 0 subitems).
Proof.
  simpl. f_equal. generalize 0%nat.
  induction subitems as [|s rest IH]; intros k; simpl; [reflexivity|].
  rewrite IH. reflexivity.
Qed.

Lemma enhanceEach_lookup (book : Toc.Book) (n index : Z) (path : list nat)
    (l : list Toc.NavItem) (start k : nat) :
  Toc.enhanceEach book n index path start l !! k
  = option_map (fun s => Toc.enhanceItem book n s (index + Z.of_nat (start + k) + 1)
                           (path ++ [(start + k)%nat]))
      (l !! k).
Proof.
  revert start k. induction l as [|s rest IH]; intros start k; simpl.
  - destruct k; reflexivity.
  - destruct k as [|k]; simpl.
    + rewrite Nat.add_0_r. reflexivity.
    + rewrite IH. replace (S start + k)%nat with (start + S k)%nat by lia. reflexivity.
Qed.

Lemma enhanceItem_label (book : Toc.Book) (n : Z) (item : Toc.NavItem) (index : Z)
    (path : list nat) :
  Toc.enh_label (Toc.enhanceItem book n item index path) = Toc.nav_label item.
Proof. destruct item. reflexivity. Qed.

Lemma enhanceItem_page (book : Toc.Book) (n : Z) (item : Toc.NavItem) (index : Z)
    (path : list nat) :
  Toc.enh_page (Toc.enhanceItem book n item index path)
  = Toc.estimatePage (book path) index n.
Proof. destruct item. reflexivity. Qed.

Lemma enhanceItem_subitems (book : Toc.Book) (n : Z) (item : Toc.NavItem) (index : Z)
    (path : list nat) :
  Toc.enh_subitems (Toc.enhanceItem book n item index path)
  = Toc.enhanceEach book n index path 0 (Toc.nav_subitems item).
Proof. destruct item. rewrite enhanceItem_eq. reflexivity. Qed.

(** Below an entry: the entry reached by a further path is enhanced
    with the index grown by one plus the position at every step. *)
Lemma enhanceItem_below (book : Toc.Book) (n : Z) (deeper : list nat) :
  forall (item target : Toc.NavItem) (index : Z) (path : list nat),
    Toc.navAt (Toc.nav_subitems item) deeper = Some target ->
    Toc.enhancedAt (Toc.enh_subitems (Toc.enhanceItem book n item index path)) deeper
    = Some (Toc.enhanceItem book n target (index + Toc.pathOffset deeper) (path ++ deeper)).
Proof.
  induction deeper as [|k deeper IH]; intros item target index path Hnav;
    [discriminate|].
  rewrite enhanceItem_subitems. simpl in Hnav |- *.
  rewrite enhanceEach_lookup. simpl.
  destruct (Toc.nav_subitems item !! k) as [sub|] eqn:Hk; [|discriminate]. simpl.
  destruct deeper as [|k' deeper'].
  - injection Hnav as <-. f_equal. f_equal. simpl. lia.
  - rewrite (IH sub target _ _ Hnav). f_equal. f_equal.
    + simpl. lia.
    + rewrite <- app_assoc. reflexivity.
Qed.

Lemma enhanceToc_at (tocItems : list Toc.NavItem) (book : Toc.Book) (path : list nat)
    (item : Toc.NavItem) :
  Toc.navAt tocItems path = Some item ->
  Toc.enhancedAt (Toc.enhanceTocWithPages tocItems book) path
  = Some (Toc.enhanceItem book (Z.of_nat (length tocItems)) item (Toc.indexOfPath path) path).
Proof.
  destruct path as [|k deeper]; [discriminate|]. intros Hnav.
  unfold Toc.enhanceTocWithPages. simpl in Hnav |- *.
  rewrite list_lookup_imap.
  destruct (tocItems !! k) as [top|] eqn:Hk; [|discriminate]. simpl.
  destruct deeper as [|k' deeper'].
  - injection Hnav as <-. f_equal. f_equal. simpl. lia.
  - rewrite (enhanceItem_below book _ (k' :: deeper') top item _ _ Hnav). reflexivity.
Qed.

(** *** Double precision: the product is never [NaN] *)

Lemma digits2_pos_lower (p : positive) : 2 ^ (Zpos (digits2_pos p) - 1) <= Zpos p.
Proof.
  induction p as [p IH | p IH |]; simpl digits2_pos.
  - rewrite Pos2Z.inj_succ. replace (Z.succ (Zpos (digits2_pos p)) - 1)
      with (Z.succ (Zpos (digits2_pos p) - 1)) by lia.
    rewrite Z.pow_succ_r by lia. lia.
  - rewrite Pos2Z.inj_succ. replace (Z.succ (Zpos (digits2_pos p)) - 1)
      with (Z.succ (Zpos (digits2_pos p) - 1)) by lia.
    rewrite Z.pow_succ_r by lia. lia.
  - simpl. lia.
Qed.

Lemma digits2_pos_safe (p : positive) : Zpos p < 2 ^ 53 -> Zpos (digits2_pos p) <= 53.
Proof.
  intros Hp. destruct (Z_le_gt_dec (Zpos (digits2_pos p)) 53) as [H | H]; [exact H|].
  exfalso. assert (Hlow := digits2_pos_lower p).
  assert (2 ^ 53 <= 2 ^ (Zpos (digits2_pos p) - 1)) by (apply Z.pow_le_mono_r; lia).
  lia.
Qed.

Lemma digits2_pos_iter_xO (p k : positive) :
  Zpos (digits2_pos (Pos.iter xO p k)) = Zpos (digits2_pos p) + Zpos k.
Proof.
  induction k as [|k IH] using Pos.peano_ind.
  - simpl. lia.
  - rewrite Pos.iter_succ. simpl digits2_pos. rewrite Pos2Z.inj_succ, IH. lia.
Qed.

(** A mantissa that already sits at its exponent is kept as it is. *)
Lemma binary_round_aux_canonical (s : bool) (m : positive) (e : Z) :
  fexp 53 1024 (Zpos (digits2_pos m) + e) = e ->
  e <= 971 ->
  binary_round_aux 53 1024 s (Zpos m) e loc_Exact = S754_finite s m e.
Proof.
  intros Hcanon He. unfold binary_round_aux, shr_fexp. simpl Zdigits2.
  rewrite Hcanon, Z.sub_diag. simpl. rewrite Hcanon, Z.sub_diag. simpl.
  assert (Hle : (e <=? 1024 - 53) = true) by (apply Z.leb_le; lia).
  rewrite Hle. reflexivity.
Qed.

(** A safe positive integer is a finite number. *)
Lemma of_Z_finite (z : Z) :
  1 <= z < 2 ^ 53 -> exists m e, Toc.of_Z z = S754_finite false m e.
Proof.
  intros [Hlo Hhi]. destruct z as [|p|p]; try lia.
  unfold Toc.of_Z, binary_normalize, binary_round.
  assert (Hd := digits2_pos_safe p Hhi).
  assert (Hd1 : 1 <= Zpos (digits2_pos p)) by lia.
  rewrite Z.add_0_r.
  assert (Hfexp : fexp 53 1024 (Zpos (digits2_pos p)) = Zpos (digits2_pos p) - 53).
  { unfold fexp, emin. lia. }
  rewrite Hfexp. unfold shl_align. rewrite Z.sub_0_r.
  destruct (Zpos (digits2_pos p) - 53) as [|k|k] eqn:Hshift; try lia.
  - eexists. eexists. apply binary_round_aux_canonical; [|lia].
    rewrite Z.add_0_r. unfold fexp, emin. lia.
  - eexists. eexists. apply binary_round_aux_canonical; [|lia].
    rewrite digits2_pos_iter_xO. unfold fexp, emin. lia.
Qed.

Lemma shr_1_nonneg (mrs : shr_record) : 0 <= shr_m mrs -> 0 <= shr_m (shr_1 mrs).
Proof.
  destruct mrs as [m r s]. simpl. intros Hm.
  destruct m as [|[p|p|]|p]; simpl; lia.
Qed.

Lemma iter_shr_1_nonneg (k : positive) :
  forall mrs, 0 <= shr_m mrs -> 0 <= shr_m (SpecFloat.iter_pos shr_1 k mrs).
Proof.
  induction k as [k IH | k IH |]; intros mrs Hm; simpl.
  - apply IH, IH, shr_1_nonneg, Hm.
  - apply IH, IH, Hm.
  - apply shr_1_nonneg, Hm.
Qed.

Lemma shr_fexp_nonneg (m e : Z) (l : SpecFloat.location) :
  0 <= m -> 0 <= shr_m (fst (shr_fexp 53 1024 m e l)).
Proof.
  intros Hm. unfold shr_fexp, shr.
  assert (Hrec : 0 <= shr_m (shr_record_of_loc m l)).
  { destruct l as [|[]]; simpl; exact Hm. }
  destruct (fexp 53 1024 (Zdigits2 m + e) - e) as [|k|k]; simpl; try exact Hrec.
  apply iter_shr_1_nonneg, Hrec.
Qed.

Lemma round_nearest_even_nonneg (m : Z) (l : SpecFloat.location) :
  0 <= m -> 0 <= round_nearest_even m l.
Proof.
  intros Hm. destruct l as [|[]]; simpl; try lia. destruct (Z.even m); lia.
Qed.

(** Rounding a mantissa that is not negative never gives [NaN]. *)
Lemma binary_round_aux_not_nan (s : bool) (m e : Z) (l : SpecFloat.location) :
  0 <= m -> binary_round_aux 53 1024 s m e l <> S754_nan.
Proof.
  intros Hm. unfold binary_round_aux.
  assert (H1 := shr_fexp_nonneg m e l Hm).
  destruct (shr_fexp 53 1024 m e l) as [mrs' e']. simpl in H1.
  assert (H2 := shr_fexp_nonneg _ e' loc_Exact
                  (round_nearest_even_nonneg _ (loc_of_shr_record mrs') H1)).
  destruct (shr_fexp 53 1024 _ e' loc_Exact) as [mrs'' e'']. simpl in H2.
  destruct (shr_m mrs'') as [|k|k]; try discriminate; [|lia].
  destruct (e'' <=? 1024 - 53); discriminate.
Qed.

Lemma SFdiv_core_binary_nonneg (m1 m2 : positive) (e1 e2 : Z) :
  0 <= fst (fst (SFdiv_core_binary 53 1024 (Zpos m1) e1 (Zpos m2) e2)).
Proof.
  unfold SFdiv_core_binary.
  set (s := e1 - e2 - _).
  set (m' := match s with Z0 => Zpos m1 | Zpos _ => Z.shiftl (Zpos m1) s | Zneg _ => 0 end).
  assert (Hm' : 0 <= m').
  { subst m'. destruct s; try lia. apply Z.shiftl_nonneg. lia. }
  assert (Hdiv := Z_div_mod m' (Zpos m2) ltac:(lia)).
  destruct (Z.div_eucl m' (Zpos m2)) as [q r]. simpl.
  destruct Hdiv as [Heq Hr]. nia.
Qed.

Lemma div_not_nan (i n : Z) :
  0 <= i < 2 ^ 53 -> 1 <= n < 2 ^ 53 ->
  Toc.div (Toc.of_Z i) (Toc.of_Z n) <> S754_nan.
Proof.
  intros Hi Hn. destruct (of_Z_finite n Hn) as (mn & en & ->).
  destruct (Z.eq_dec i 0) as [-> | Hne].
  - discriminate.
  - destruct (of_Z_finite i ltac:(lia)) as (mi & ei & ->).
    unfold Toc.div, SFdiv.
    assert (Hq := SFdiv_core_binary_nonneg mi mn ei en).
    destruct (SFdiv_core_binary 53 1024 (Zpos mi) ei (Zpos mn) en) as [[mz ez] lz].
    simpl in Hq. apply binary_round_aux_not_nan. exact Hq.
Qed.

Lemma product_not_nan (i n total : Z) :
  0 <= i < 2 ^ 53 -> 1 <= n < 2 ^ 53 -> 1 <= total < 2 ^ 53 ->
  Toc.mul (Toc.div (Toc.of_Z i) (Toc.of_Z n)) (Toc.of_Z total) <> S754_nan.
Proof.
  intros Hi Hn Ht. assert (Hq := div_not_nan i n Hi Hn).
  destruct (of_Z_finite total Ht) as (mt & et & ->).
  destruct (Toc.div (Toc.of_Z i) (Toc.of_Z n)) as [sq | sq | | sq mq eq];
    try discriminate; try contradiction.
  unfold Toc.mul, SFmul. apply binary_round_aux_not_nan. lia.
Qed.

(** With safe integers every entry gets a page as soon as the book has
    locations. *)
Lemma estimatePage_defined (index n total : Z) :
  0 <= index < 2 ^ 53 -> 1 <= n < 2 ^ 53 -> 1 <= total < 2 ^ 53 ->
  exists pg, Toc.estimatePage (Toc.Length total) index n = Some pg.
Proof.
  intros Hi Hn Ht. assert (Hp := product_not_nan index n total Hi Hn Ht).
  unfold Toc.estimatePage. rewrite (proj2 (Z.ltb_lt 0 total)) by lia.
  destruct (Toc.mul _ _) as [s | [|] | | s m e]; simpl; try (eexists; reflexivity).
  contradiction.
Qed.

Lemma pathOffset_nonneg (deeper : list nat) : 0 <= Toc.pathOffset deeper.
Proof. induction deeper as [|k deeper IH]; simpl; lia. Qed.

Lemma indexOfPath_nonneg (path : list nat) : 0 <= Toc.indexOfPath path.
Proof.
  destruct path as [|k deeper]; simpl; [lia|].
  assert (H := pathOffset_nonneg deeper). lia.
Qed.

Lemma navAt_nonempty (tocItems : list Toc.NavItem) (path : list nat) (item : Toc.NavItem) :
  Toc.navAt tocItems path = Some item -> 1 <= Z.of_nat (length tocItems).
Proof.
  destruct path as [|k deeper]; [discriminate|]. simpl.
  destruct (tocItems !! k) eqn:Hk; [|discriminate]. intros _.
  apply lookup_lt_Some in Hk. lia.
Qed.

Lemma clamp_bounds (len page : Z) : 1 <= len -> 1 <= Toc.clamp len page <= len.
Proof.
  intros Hlen. unfold Toc.clamp.
  destruct (page <? 1) eqn:H1.
  - destruct (len <? 1) eqn:H2; [apply Z.ltb_lt in H2; lia | lia].
  - apply Z.ltb_ge in H1.
    destruct (len <? page) eqn:H2; [lia | apply Z.ltb_ge in H2; lia].
Qed.

Lemma estimatePage_bounds (len : Toc.LocationsLength) (index n pg : Z) :
  Toc.estimatePage len index n = Some pg ->
  exists total, len = Toc.Length total /\ 1 <= pg <= total.
Proof.
  destruct len as [| |total]; simpl; try discriminate.
  destruct (0 <? total) eqn:Hpos; [|discriminate].
  apply Z.ltb_lt in Hpos.
  destruct (Toc.Math_floor _) as [f| | |]; simpl; [| | |discriminate];
    intros H; injection H as <-; exists total; (split; [reflexivity|]).
  - apply clamp_bounds. lia.
  - lia.
  - destruct (total <? 1) eqn:Hone; [apply Z.ltb_lt in Hone|]; lia.
Qed.

(** C5, as stated, fails on a nested table of contents.  A chapter with
    one section followed by a second chapter has three entries; with 100
    locations the section and the second chapter both get page 51, where
    the formula out of three entries gives 34 and 67 on the pre-order
    index, and 34 twice on the index the code passes.  It also fails by
    rounding: with 49 chapters side by side and 49 locations,
    [1 / 49 * 49] is just below 1 in double precision, and the second
    chapter gets page 1 where the exact quotient gives 2. *)
Lemma enhanceToc_not_the_formula :
  map Toc.enh_label (Toc.flatten (Toc.enhanceTocWithPages Toc.nestedToc (Toc.located 100)))
    = ["One"; "One.1"; "Two"]
  /\ map Toc.enh_page (Toc.flatten (Toc.enhanceTocWithPages Toc.nestedToc (Toc.located 100)))
     = [Some 1; Some 51; Some 51]
  /\ map (fun i => Some (Toc.formulaPage i 3 100)) [0; 1; 2] = [Some 1; Some 34; Some 67]
  /\ map (fun i => Some (Toc.formulaPage i 3 100)) [0; 1; 1] = [Some 1; Some 34; Some 34]
  /\ (exists i e,
        Toc.flatten (Toc.enhanceTocWithPages Toc.nestedToc (Toc.located 100)) !! i = Some e
        /\ Toc.enh_page e
           <> Some (Toc.formulaPage (Z.of_nat i)
                      (Z.of_nat (length (Toc.flatten
                         (Toc.enhanceTocWithPages Toc.nestedToc (Toc.located 100))))) 100))
  /\ Toc.enh_page <$> (Toc.enhanceTocWithPages Toc.longToc (Toc.located 49) !! 1%nat)
     = Some (Some 1)
  /\ Toc.formulaPage 1 49 49 = 2.
Proof.
  split; [vm_compute; reflexivity|]. split; [vm_compute; reflexivity|].
  split; [vm_compute; reflexivity|]. split; [vm_compute; reflexivity|].
  split; [|split; vm_compute; reflexivity].
  exists 1%nat. eexists. split; [vm_compute; reflexivity|].
  vm_compute. discriminate.
Qed.

Lemma enhanceToc_flat_scenario :
  map Toc.enh_page (Toc.enhanceTocWithPages Toc.flatToc (Toc.located 100))
  = [Some 1; Some 26; Some 51; Some 76].
Proof. vm_compute. reflexivity. Qed.

(** C5, amended.  Every entry of the table of contents is kept, with its
    label, at its place.  Its page is [Math.floor(index / n * len) + 1] in
    double precision, clamped to [1, len], where [len] is the number of
    locations the book reports for it, [n] is the number of top-level
    entries, and [index] is the position of a top-level entry, and for a
    nested entry the index of its parent plus its position among its
    siblings plus one.  With a positive [len] (and all three numbers safe
    integers) the entry does get a page, between 1 and [len].  When the
    locations are missing, empty, or asking for them throws, the entry has
    no page and the others are not affected.  Four entries side by side
    and 100 locations give pages 1, 26, 51 and 76. *)
Theorem enhanceToc_pages (tocItems : list Toc.NavItem) (book : Toc.Book) (path : list nat)
    (item : Toc.NavItem) :
  Toc.navAt tocItems path = Some item ->
  (exists e,
     Toc.enhancedAt (Toc.enhanceTocWithPages tocItems book) path = Some e
     /\ Toc.enh_label e = Toc.nav_label item
     /\ Toc.enh_page e
        = Toc.estimatePage (book path) (Toc.indexOfPath path) (Z.of_nat (length tocItems))
     /\ (forall pg, Toc.enh_page e = Some pg ->
           exists total, book path = Toc.Length total /\ 1 <= pg <= total)
     /\ (forall total,
           book path = Toc.Length total -> 1 <= total < 2 ^ 53 ->
           Z.of_nat (length tocItems) < 2 ^ 53 -> Toc.indexOfPath path < 2 ^ 53 ->
           exists pg, Toc.enh_page e = Some pg /\ 1 <= pg <= total)
     /\ ((book path = Toc.LengthThrows \/ book path = Toc.NoLocations
          \/ exists total, book path = Toc.Length total /\ total <= 0) ->
         Toc.enh_page e = None))
  /\ map Toc.enh_page (Toc.enhanceTocWithPages Toc.flatToc (Toc.located 100))
     = [Some 1; Some 26; Some 51; Some 76].
Proof.
  intros Hnav. split; [|apply enhanceToc_flat_scenario].
  eexists. split; [apply (enhanceToc_at _ _ _ _ Hnav)|].
  rewrite enhanceItem_label, enhanceItem_page.
  split; [reflexivity|]. split; [reflexivity|]. split; [|split].
  - intros pg Hpg. apply (estimatePage_bounds _ _ _ _ Hpg).
  - intros total Hbook Htotal Hn Hindex. rewrite Hbook.
    destruct (estimatePage_defined (Toc.indexOfPath path) (Z.of_nat (length tocItems)) total)
      as [pg Hpg]; try assumption.
    + split; [apply indexOfPath_nonneg | exact Hindex].
    + split; [apply (navAt_nonempty _ _ _ Hnav) | exact Hn].
    + exists pg. split; [exact Hpg|].
      destruct (estimatePage_bounds _ _ _ _ Hpg) as (total' & Heq & Hb).
      injection Heq as <-. exact Hb.
  - intros [H | [H | (total & H & Hle)]]; rewrite H; simpl; try reflexivity.
    destruct (0 <? total) eqn:Hpos; [apply Z.ltb_lt in Hpos; lia | reflexivity].
Qed.

Lemma enhanceToc_pages_witness :
  exists e,
    Toc.enhancedAt (Toc.enhanceTocWithPages Toc.nestedToc (Toc.located 100)) [0%nat; 0%nat]
      = Some e
    /\ Toc.enh_label e = "One.1"
    /\ Toc.enh_page e = Some 51.
Proof.
  destruct (proj1 (enhanceToc_pages Toc.nestedToc (Toc.located 100) [0%nat; 0%nat]
                     (Toc.leaf "One.1") eq_refl)) as (e & Hat & Hlabel & Hpage & _).
  exists e. split; [exact Hat|]. split; [exact Hlabel|].
  rewrite Hpage. vm_compute. reflexivity.
Defined.

(** ** Full-text search *)

Lemma index_from (q s : string) (n m : nat) :
  String.index n q s = Some m -> (n <= m)%nat.
Proof.
  revert n m. induction s as [|c s IH]; intros n m; simpl.
  - destruct n; [|discriminate]. intros _. lia.
  - destruct n as [|n]; [intros _; lia|].
    destruct (String.index n q s) as [k|] eqn:Hk; [|discriminate].
    intros H. injection H as <-. apply IH in Hk. lia.
Qed.

Lemma substring_past_end (s : string) (p m : nat) :
  (String.length s <= p)%nat -> String.substring p m s = EmptyString.
Proof.
  revert p m. induction s as [|c s IH]; intros p m Hp; simpl in *.
  - destruct p, m; reflexivity.
  - destruct p as [|p]; [lia|]. apply IH. lia.
Qed.

Lemma substring_length (s : string) (p m : nat) :
  String.length (String.substring p m s) = Nat.min m (String.length s - p).
Proof.
  revert p m. induction s as [|c s IH]; intros p m; simpl.
  - destruct p, m; simpl; lia.
  - destruct p as [|p].
    + destruct m as [|m]; simpl; [reflexivity|]. rewrite IH. simpl. lia.
    + rewrite IH. reflexivity.
Qed.

Lemma occursAt_spec (s q : string) (pos : nat) :
  Search.occursAt s q pos = true <-> String.substring pos (String.length q) s = q.
Proof. unfold Search.occursAt. apply String.eqb_eq. Qed.

Lemma occursAt_inside (s q : string) (pos : nat) :
  q <> EmptyString -> Search.occursAt s q pos = true ->
  (pos + String.length q <= String.length s)%nat.
Proof.
  intros Hq Hocc. apply occursAt_spec in Hocc.
  assert (Hlen := substring_length s pos (String.length q)). rewrite Hocc in Hlen.
  assert (Hpos : (0 < String.length q)%nat).
  { destruct q; [contradiction | simpl; lia]. }
  lia.
Qed.

Lemma filter_none {A} (f : A -> bool) (l : list A) :
  (forall x, In x l -> f x = false) -> List.filter f l = [].
Proof.
  induction l as [|x l IH]; intros Hf; simpl; [reflexivity|].
  rewrite (Hf x) by (left; reflexivity). apply IH. intros y Hy. apply Hf. right. exact Hy.
Qed.

Lemma occursAt_false (s q : string) (pos : nat) :
  String.substring pos (String.length q) s <> q -> Search.occursAt s q pos = false.
Proof. intros H. unfold Search.occursAt. apply String.eqb_neq. exact H. Qed.

(** The loop visits the occurrences from [n] on, one after the other. *)
Lemma whileFound_occurrences {A} (body : nat -> list A) (s q : string) :
  q <> EmptyString ->
  forall (fuel n : nat),
    (String.length s - n < fuel)%nat ->
    Search.whileFound fuel s q body (Search.indexOf s q n)
    = List.flat_map body
        (List.filter (Search.occursAt s q) (seq n (String.length s - n))).
Proof.
  intros Hq. induction fuel as [|fuel IH]; intros n Hfuel; [lia|].
  unfold Search.indexOf in *. simpl.
  destruct (String.index n q s) as [m|] eqn:Hidx.
  - assert (Hnm := index_from _ _ _ _ Hidx).
    assert (Hocc : Search.occursAt s q m = true).
    { apply occursAt_spec. apply (index_correct1 _ _ _ _ Hidx). }
    assert (Hin := occursAt_inside s q m Hq Hocc).
    assert (Hqlen : (0 < String.length q)%nat).
    { destruct q; [contradiction | simpl; lia]. }
    replace (String.length s - n)%nat
      with ((m - n) + S (String.length s - S m))%nat by lia.
    rewrite seq_app, List.filter_app.
    rewrite filter_none.
    2:{ intros x Hx. apply in_seq in Hx. apply occursAt_false.
        apply (index_correct2 _ _ _ _ Hidx); lia. }
    replace (n + (m - n))%nat with m by lia.
    simpl. rewrite Hocc. simpl. f_equal.
    rewrite Nat.add_1_r. apply IH. lia.
  - rewrite filter_none; [reflexivity|].
    intros x Hx. apply in_seq in Hx. apply occursAt_false.
    apply (index_correct3 _ _ _ _ Hidx Hq). lia.
Qed.

Lemma forEachMatch_occurrences {A} (body : nat -> list A) (s q : string) :
  q <> EmptyString ->
  Search.forEachMatch s q body = List.flat_map body (Search.occurrences s q).
Proof.
  intros Hq. unfold Search.forEachMatch, Search.occurrences.
  rewrite (whileFound_occurrences body s q Hq); [|lia].
  rewrite Nat.sub_0_r. reflexivity.
Qed.

Lemma flat_map_singleton {A} (l : list A) : List.flat_map (fun x => [x]) l = l.
Proof. induction l as [|x l IH]; simpl; [reflexivity | rewrite IH; reflexivity]. Qed.

Lemma matchPositions_occurrences (s q : string) :
  q <> EmptyString -> Search.matchPositions s q = Search.occurrences s q.
Proof.
  intros Hq. unfold Search.matchPositions.
  rewrite forEachMatch_occurrences by exact Hq. apply flat_map_singleton.
Qed.

Lemma pushAt_outside (book : Search.Book) (item : Search.SpineItem) (chapterIndex : nat)
    (textNodes : list string) (fullText q : string) (pos : nat) :
  Search.fitsInNode textNodes (String.length q) pos = false ->
  Search.pushAt book item chapterIndex textNodes fullText q pos = [].
Proof.
  unfold Search.fitsInNode, Search.pushAt.
  destruct (Search.locate textNodes 0 pos) as [nodeIndex offset].
  destruct (textNodes !! nodeIndex) as [nodeText|]; [|reflexivity].
  intros Hfit. unfold Search.createRange. rewrite Hfit, andb_false_r. reflexivity.
Qed.

Lemma pushAt_inside (book : Search.Book) (item : Search.SpineItem) (chapterIndex : nat)
    (textNodes : list string) (fullText q : string) (pos : nat) :
  (forall range, Search.cfiFromRange item range <> None) ->
  (forall cfi, Search.getChapterFromCfi book cfi <> Search.LookupRejects) ->
  Search.fitsInNode textNodes (String.length q) pos = true ->
  exists res,
    Search.pushAt book item chapterIndex textNodes fullText q pos = [res]
    /\ sr_chapterIndex res = chapterIndex
    /\ sr_href res = Search.href item
    /\ sr_excerpt res
       = "..." +:+ Search.substring fullText (pos - 30) (pos + String.length q + 30)
         +:+ "...".
Proof.
  intros Hcfi Htitle. unfold Search.fitsInNode, Search.pushAt.
  destruct (Search.locate textNodes 0 pos) as [nodeIndex offset].
  destruct (textNodes !! nodeIndex) as [nodeText|]; [|discriminate].
  intros Hfit. unfold Search.createRange. rewrite Hfit, andb_true_r.
  assert (Hstart : (offset <=? String.length nodeText)%nat = true).
  { apply Nat.leb_le. apply Nat.leb_le in Hfit. lia. }
  rewrite Hstart.
  destruct (Search.cfiFromRange item _) as [cfi|] eqn:Hc; [|elim (Hcfi _ Hc)].
  destruct (Search.getChapterFromCfi book cfi) as [|title] eqn:Ht; [elim (Htitle _ Ht)|].
  eexists. split; [reflexivity|]. simpl. auto.
Qed.

(** In a chapter that is one text node whose lower case is as long as
    the node, every occurrence lies inside the node. *)
Lemma single_node_fits {engine : Search.Engine} (text q : string) (pos : nat) :
  q <> EmptyString ->
  String.length (Search.toLowerCase text) = String.length text ->
  Search.occursAt (Search.fullTextOf [text]) q pos = true ->
  Search.fitsInNode [text] (String.length q) pos = true.
Proof.
  intros Hq Hsame Hocc. apply (occursAt_inside _ _ _ Hq) in Hocc.
  unfold Search.fullTextOf in Hocc. simpl in Hocc. rewrite Hsame in Hocc.
  assert (Hpos : (0 < String.length q)%nat).
  { destruct q; [contradiction | simpl; lia]. }
  unfold Search.fitsInNode. simpl.
  destruct (pos <? String.length text)%nat eqn:Hlt; [|apply Nat.ltb_ge in Hlt; lia].
  simpl. apply Nat.leb_le. exact Hocc.
Qed.

Lemma flat_map_ones {A B} (f : A -> list B) (l : list A) :
  (forall x, In x l -> length (f x) = 1%nat) ->
  length (List.flat_map f l) = length l.
Proof.
  induction l as [|x l IH]; intros Hone; simpl; [reflexivity|].
  rewrite length_app, (Hone x) by (left; reflexivity).
  rewrite IH; [reflexivity|]. intros y Hy. apply Hone. right. exact Hy.
Qed.

Lemma scanChapter_scenario :
  Search.matchPositions "the cats category" "cat" = [4%nat; 9%nat]
  /\ map sr_cfi
       (@Search.scanChapter Search.asciiEngine Search.sampleBook "cat" 0 Search.oneNode)
     = ["epubcfi(0:4,7)"; "epubcfi(0:9,12)"].
Proof. split; vm_compute; reflexivity. Qed.

(** C7, as stated, fails when a match crosses a text-node boundary.
    The text nodes "the ", "c" and "ats category" make the buffer
    "the cats category"; the loop finds "cat" at 4 and 9, but the range
    for the match at 4 ends past its one-character node, the exception is
    caught, and only the match at 9 is reported. *)
Lemma scanChapter_split_match_skipped :
  @Search.fullTextOf Search.asciiEngine ["the "; "c"; "ats category"] = "the cats category"
  /\ Search.matchPositions "the cats category" "cat" = [4%nat; 9%nat]
  /\ map sr_cfi
       (@Search.scanChapter Search.asciiEngine Search.sampleBook "cat" 0 Search.splitNodes)
     = ["epubcfi(2:4,7)"]
  /\ length
       (@Search.scanChapter Search.asciiEngine Search.sampleBook "cat" 0 Search.splitNodes)
     <> length (Search.matchPositions "the cats category" "cat").
Proof.
  split; [vm_compute; reflexivity|]. split; [vm_compute; reflexivity|].
  split; [vm_compute; reflexivity|]. vm_compute. discriminate.
Qed.

(** When the lower case of the text is longer than the text, the
    positions found in the lower-cased buffer no longer are the positions
    in the node.  In the one node of a capital dotted I followed by
    " cat cat" the buffer has one character more than the node: "cat" is
    found at 3 and 7; the range made for 3 covers "at " and the range for 7
    would end past the node, so that match is skipped. *)
Lemma scanChapter_lengthened_text :
  String.length (@Search.fullTextOf Search.dottedEngine
                   [String (ascii_of_nat 221) " cat cat"]) = 10%nat
  /\ String.length (String (ascii_of_nat 221) " cat cat") = 9%nat
  /\ Search.matchPositions
       (@Search.fullTextOf Search.dottedEngine [String (ascii_of_nat 221) " cat cat"]) "cat"
     = [3%nat; 7%nat]
  /\ map sr_cfi (@Search.scanChapter Search.dottedEngine Search.sampleBook "cat" 0
                   Search.dottedNode)
     = ["epubcfi(0:3,6)"]
  /\ Search.substring (String (ascii_of_nat 221) " cat cat") 3 6 = "at ".
Proof. repeat split; vm_compute; reflexivity. Qed.

(** C7, amended.  For a non-empty query the loop of a chapter visits
    every start position at which the query occurs in the lower-cased
    buffer, in increasing order, overlapping occurrences included.  For a
    visited position it builds a range of the query's length at the offset
    the walk over the text nodes leaves, counted in the node's own
    characters: it reports a result when that range lies inside the node,
    provided the host resolves its position, and none when the range runs
    past the end of the node.  In a chapter that is one text node whose
    lower case is as long as the node, every occurrence is reported.
    "cat" in the one-node buffer "the cats category" gives exactly the
    matches at 4 and 9. *)
Theorem scanChapter_reports {engine : Search.Engine} (book : Search.Book)
    (item : Search.SpineItem) (chapterIndex : nat) (q : string) (textNodes : list string) :
  q <> EmptyString ->
  Search.document item = Search.Document textNodes ->
  let fullText := Search.fullTextOf textNodes in
  let push := Search.pushAt book item chapterIndex textNodes fullText q in
  let hostResolves :=
    (forall range, Search.cfiFromRange item range <> None)
    /\ (forall cfi, Search.getChapterFromCfi book cfi <> Search.LookupRejects) in
  Search.matchPositions fullText q = Search.occurrences fullText q
  /\ Search.scanChapter book q chapterIndex item
     = List.flat_map push (Search.occurrences fullText q)
  /\ (forall pos, Search.fitsInNode textNodes (String.length q) pos = false ->
                  push pos = [])
  /\ (hostResolves ->
      forall pos, Search.fitsInNode textNodes (String.length q) pos = true ->
                  exists res, push pos = [res] /\ sr_chapterIndex res = chapterIndex)
  /\ (hostResolves ->
      forall text, textNodes = [text] ->
        String.length (Search.toLowerCase text) = String.length text ->
        length (Search.scanChapter book q chapterIndex item)
        = length (Search.occurrences fullText q))
  /\ Search.matchPositions "the cats category" "cat" = [4%nat; 9%nat]
  /\ map sr_cfi
       (@Search.scanChapter Search.asciiEngine Search.sampleBook "cat" 0 Search.oneNode)
     = ["epubcfi(0:4,7)"; "epubcfi(0:9,12)"].
Proof.
  intros Hq Hdoc fullText push hostResolves.
  assert (Hscan : Search.scanChapter book q chapterIndex item
                  = List.flat_map push (Search.occurrences fullText q)).
  { unfold Search.scanChapter. rewrite Hdoc.
    apply forEachMatch_occurrences. exact Hq. }
  split; [apply matchPositions_occurrences; exact Hq|].
  split; [exact Hscan|].
  split; [intros pos Hout; apply pushAt_outside; exact Hout|].
  split.
  { intros [Hcfi Htitle] pos Hfit.
    destruct (pushAt_inside book item chapterIndex textNodes fullText q pos Hcfi Htitle Hfit)
      as (res & Hres & Hidx & _).
    exists res. split; assumption. }
  split; [|apply scanChapter_scenario].
  intros [Hcfi Htitle] text Hone Hsame. rewrite Hscan. apply flat_map_ones.
  intros pos Hpos. apply List.filter_In in Hpos. destruct Hpos as [_ Hocc].
  subst fullText push. subst textNodes.
  destruct (pushAt_inside book item chapterIndex [text] (Search.fullTextOf [text]) q pos
              Hcfi Htitle (single_node_fits text q pos Hq Hsame Hocc)) as (res & Hres & _).
  rewrite Hres. reflexivity.
Qed.

Lemma scanChapter_reports_witness :
  @Search.scanChapter Search.asciiEngine Search.sampleBook "cat" 0 Search.oneNode
  = List.flat_map
      (Search.pushAt Search.sampleBook Search.oneNode 0 ["the cats category"]
         (@Search.fullTextOf Search.asciiEngine ["the cats category"]) "cat")
      (Search.occurrences (@Search.fullTextOf Search.asciiEngine ["the cats category"]) "cat").
Proof.
  apply (@scanChapter_reports Search.asciiEngine Search.sampleBook Search.oneNode 0 "cat"
           ["the cats category"]).
  - discriminate.
  - reflexivity.
Defined.

(** ** Concurrent chapter tasks *)

Lemma whileFound_In {A} (body : nat -> list A) (s q : string) (x : A) :
  forall fuel pos, In x (Search.whileFound fuel s q body pos) -> exists p, In x (body p).
Proof.
  induction fuel as [|fuel IH]; intros pos Hin; simpl in Hin; [contradiction|].
  destruct pos as [p|]; [|contradiction].
  apply in_app_or in Hin. destruct Hin as [Hin | Hin]; [exists p; exact Hin|].
  apply (IH _ Hin).
Qed.

(** Every result a task pushes carries the index of its chapter. *)
Lemma scanChapter_chapterIndex {engine : Search.Engine} (book : Search.Book) (q : string)
    (c : nat) (item : Search.SpineItem) (res : SearchResult) :
  In res (Search.scanChapter book q c item) -> sr_chapterIndex res = c.
Proof.
  unfold Search.scanChapter. destruct (Search.document item) as [| |textNodes];
    try contradiction.
  intros Hin. apply whileFound_In in Hin. destruct Hin as [p Hin].
  unfold Search.pushAt in Hin.
  destruct (Search.locate textNodes 0 p) as [nodeIndex offset].
  destruct (textNodes !! nodeIndex); [|contradiction].
  destruct (Search.createRange _ _ _ _); [|contradiction].
  destruct (Search.cfiFromRange item _); [|contradiction].
  destruct (Search.getChapterFromCfi book _); [contradiction|].
  destruct Hin as [<- | []]. reflexivity.
Qed.

Lemma tagged_tail (base : nat) (l : list SearchResult) (pending : list (list SearchResult)) :
  Search.tagged base (l :: pending) -> Search.tagged (S base) pending.
Proof.
  intros Ht i l' res Hl Hin. rewrite (Ht (S i) l' res Hl Hin). lia.
Qed.

Lemma ofChapter_app (c : nat) (l1 l2 : list SearchResult) :
  Search.ofChapter c (l1 ++ l2) = Search.ofChapter c l1 ++ Search.ofChapter c l2.
Proof. apply List.filter_app. Qed.

Lemma ofChapter_all (c : nat) (l : list SearchResult) :
  (forall res, In res l -> sr_chapterIndex res = c) -> Search.ofChapter c l = l.
Proof.
  induction l as [|x l IH]; intros Hall; simpl; [reflexivity|].
  rewrite (Hall x) by (left; reflexivity). rewrite Nat.eqb_refl, IH; [reflexivity|].
  intros y Hy. apply Hall. right. exact Hy.
Qed.

Lemma ofChapter_other (c : nat) (l : list SearchResult) :
  (forall res, In res l -> sr_chapterIndex res <> c) -> Search.ofChapter c l = [].
Proof.
  intros Hall. apply filter_none. intros res Hin. apply Nat.eqb_neq. apply Hall. exact Hin.
Qed.

Lemma ofChapter_concat (c : nat) (pending : list (list SearchResult)) :
  forall base, Search.tagged base pending ->
    Search.ofChapter c (List.concat pending)
    = if (c <? base)%nat then [] else default [] (pending !! (c - base)%nat).
Proof.
  induction pending as [|l pending IH]; intros base Ht; simpl.
  - destruct (c <? base)%nat; [reflexivity|]. destruct (c - base)%nat; reflexivity.
  - rewrite ofChapter_app, (IH (S base) (tagged_tail _ _ _ Ht)).
    destruct (Nat.lt_trichotomy c base) as [Hlt | [Heq | Hgt]].
    + rewrite (proj2 (Nat.ltb_lt c base)) by lia.
      rewrite (proj2 (Nat.ltb_lt c (S base))) by lia.
      rewrite ofChapter_other; [reflexivity|].
      intros res Hin. rewrite (Ht 0%nat l res eq_refl Hin). lia.
    + subst c. rewrite Nat.ltb_irrefl, (proj2 (Nat.ltb_lt base (S base))) by lia.
      rewrite Nat.sub_diag. simpl. rewrite app_nil_r. apply ofChapter_all.
      intros res Hin. rewrite (Ht 0%nat l res eq_refl Hin). lia.
    + rewrite (proj2 (Nat.ltb_ge c base)) by lia.
      rewrite (proj2 (Nat.ltb_ge c (S base))) by lia.
      rewrite ofChapter_other.
      2:{ intros res Hin. rewrite (Ht 0%nat l res eq_refl Hin). lia. }
      replace (c - base)%nat with (S (c - S base)) by lia. reflexivity.
Qed.

(** Whatever the schedule, the results of chapter [c] come out in the
    order task [c] pushes them. *)
Lemma interleave_ofChapter (c : nat) (schedule : list nat) :
  forall pending results, Search.tagged 0 pending ->
    Search.ofChapter c (Search.interleave schedule pending results)
    = Search.ofChapter c results ++ default [] (pending !! c).
Proof.
  induction schedule as [|task later IH]; intros pending results Ht; simpl.
  - rewrite ofChapter_app, (ofChapter_concat c pending 0 Ht). simpl.
    rewrite Nat.sub_0_r. reflexivity.
  - destruct (pending !! task) as [[|res more]|] eqn:Htask; try (apply IH; exact Ht).
    assert (Hidx : sr_chapterIndex res = task).
    { apply (Ht task (res :: more) res Htask). left. reflexivity. }
    rewrite IH.
    + rewrite ofChapter_app. simpl. rewrite Hidx.
      destruct (Nat.eq_dec task c) as [-> | Hne].
      * rewrite Nat.eqb_refl, list_lookup_insert_eq, Htask
          by (apply lookup_lt_is_Some; eauto).
        simpl. rewrite <- app_assoc. reflexivity.
      * rewrite (proj2 (Nat.eqb_neq task c) Hne), list_lookup_insert_ne by exact Hne.
        rewrite app_nil_r. reflexivity.
    + intros i l x Hl Hin. destruct (Nat.eq_dec task i) as [-> | Hne].
      * rewrite list_lookup_insert_eq in Hl by (apply lookup_lt_is_Some; eauto).
        injection Hl as <-. apply (Ht i (res :: more) x Htask). right. exact Hin.
      * rewrite list_lookup_insert_ne in Hl by exact Hne. apply (Ht i l x Hl Hin).
Qed.

Lemma tasks_tagged {engine : Search.Engine} (book : Search.Book) (q : string)
    (spineItems : list Search.SpineItem) :
  Search.tagged 0 (imap (Search.scanChapter book q) spineItems).
Proof.
  intros i l res Hl Hin. rewrite list_lookup_imap in Hl.
  destruct (spineItems !! i) as [item|]; [|discriminate].
  simpl in Hl. injection Hl as <-. apply (scanChapter_chapterIndex _ _ _ _ _ Hin).
Qed.

Lemma concat_sorted (pending : list (list SearchResult)) :
  forall base, Search.tagged base pending ->
    Search.sortedByChapter (List.concat pending)
    /\ Forall (fun res => (base <= sr_chapterIndex res)%nat) (List.concat pending).
Proof.
  unfold Search.sortedByChapter.
  induction pending as [|l pending IH]; intros base Ht; simpl.
  - split; constructor.
  - destruct (IH (S base) (tagged_tail _ _ _ Ht)) as [Hsorted Hge].
    assert (Hl : forall res, In res l -> sr_chapterIndex res = base).
    { intros res Hin. rewrite (Ht 0%nat l res eq_refl Hin). lia. }
    clear Ht IH. induction l as [|x l IHl]; simpl.
    + split; [exact Hsorted|]. eapply List.Forall_impl; [|exact Hge]. simpl. intros a Ha. lia.
    + destruct IHl as [Hs Hf]; [intros res Hin; apply Hl; right; exact Hin|].
      assert (Hx : sr_chapterIndex x = base) by (apply Hl; left; reflexivity).
      split.
      * constructor; [exact Hs|]. eapply List.Forall_impl; [|exact Hf].
        simpl. intros a Ha. lia.
      * constructor; [lia | exact Hf].
Qed.

Lemma toLowerCase_trim_empty {engine : Search.Engine} :
  Search.toLowerCase (Search.trim EmptyString) = EmptyString.
Proof. apply Search.toLowerCase_empty. reflexivity. Qed.

Lemma searchBook_results {engine : Search.Engine} (book : Search.Book)
    (spineItems : list Search.SpineItem) (schedule : list nat) (query : string) (r : Reader) :
  Search.toLowerCase (Search.trim query) <> EmptyString ->
  searchResults (Search.searchBook (Some book) (Some spineItems) schedule query r)
  = Search.interleave schedule
      (imap (Search.scanChapter book (Search.toLowerCase (Search.trim query))) spineItems) [].
Proof.
  intros Hq. unfold Search.searchBook.
  destruct (String.eqb_spec query EmptyString) as [-> | _];
    [elim Hq; apply toLowerCase_trim_empty|].
  destruct (String.eqb_spec (Search.toLowerCase (Search.trim query)) EmptyString)
    as [He | _]; [contradiction|].
  destruct spineItems as [|item rest]; [|reflexivity].
  simpl. destruct schedule as [|task later]; [reflexivity|].
  simpl. induction later as [|t later IH]; [reflexivity|].
  simpl. destruct t; exact IH.
Qed.

(** As long as no task overtakes an earlier chapter, the pushes build
    the concatenation of the chapters' results. *)
Lemma concat_nothingLeft (pending : list (list SearchResult)) :
  forallb Search.nothingLeft pending = true -> List.concat pending = [].
Proof.
  induction pending as [|l pending IH]; [reflexivity|].
  simpl. destruct l; [|discriminate]. exact IH.
Qed.

Lemma concat_pop (pending : list (list SearchResult)) (task : nat) (res : SearchResult)
    (more : list SearchResult) :
  pending !! task = Some (res :: more) ->
  forallb Search.nothingLeft (take task pending) = true ->
  List.concat pending = res :: List.concat (<[task := more]> pending).
Proof.
  intros Htask Hnone.
  assert (Hlt : (task < length pending)%nat) by (apply lookup_lt_is_Some; eauto).
  rewrite (insert_take_drop pending task more Hlt).
  rewrite <- (take_drop_middle pending task (res :: more) Htask) at 1.
  rewrite !List.concat_app, (concat_nothingLeft _ Hnone). reflexivity.
Qed.

Lemma interleave_inOrder (schedule : list nat) :
  forall pending results,
    Search.inOrder schedule pending = true ->
    Search.interleave schedule pending results = results ++ List.concat pending.
Proof.
  induction schedule as [|task later IH]; intros pending results Hin; [reflexivity|].
  simpl in Hin |- *.
  destruct (pending !! task) as [[|res more]|] eqn:Htask; try (apply IH; exact Hin).
  apply andb_true_iff in Hin. destruct Hin as [Hnone Hlater].
  rewrite (IH _ _ Hlater), (concat_pop pending task res more Htask Hnone), <- app_assoc.
  reflexivity.
Qed.

(** C3, as stated, fails: the order across chapters is the order in
    which the tasks get to push.  With two chapters, the second answering
    first, the published chapter indices are 1, 0, 1.  It is not enough
    that the tasks end in spine order: with two matches in each of two
    chapters and the tasks pushing in turn, the indices are 0, 1, 0, 1. *)
Lemma searchBook_completion_order :
  map sr_chapterIndex (searchResults Search.secondFirst) = [1%nat; 0%nat; 1%nat]
  /\ map sr_chapterIndex (searchResults Search.inTurn) = [0%nat; 1%nat; 0%nat; 1%nat]
  /\ ~ Search.sortedByChapter (searchResults Search.secondFirst).
Proof.
  split; [vm_compute; reflexivity|]. split; [vm_compute; reflexivity|].
  assert (Heq : exists a b c,
             searchResults Search.secondFirst = [a; b; c]
             /\ sr_chapterIndex a = 1%nat /\ sr_chapterIndex b = 0%nat).
  { eexists. eexists. eexists. split; [vm_compute; reflexivity|]. split; reflexivity. }
  destruct Heq as (a & b & c & -> & Ha & Hb).
  unfold Search.sortedByChapter. intros Hsorted.
  apply StronglySorted_inv in Hsorted. destruct Hsorted as [_ Hall].
  apply List.Forall_inv in Hall. lia.
Qed.

(** C3, amended.  For every schedule of the chapter tasks, the
    published results of one chapter are exactly what its task pushes, in
    the order of the occurrences in that chapter's text, and nothing else
    is published.  The order across chapters is the order of the pushes.
    Whenever no task pushes a result while the task of an earlier chapter
    still has one to push, the sequence is the concatenation of the
    chapters' results and is sorted by [chapterIndex]; so it is when the
    tasks run one after the other in spine order. *)
Theorem searchBook_order {engine : Search.Engine} (book : Search.Book)
    (spineItems : list Search.SpineItem) (schedule : list nat) (query : string)
    (r : Reader) :
  let q := Search.toLowerCase (Search.trim query) in
  q <> EmptyString ->
  let tasks := imap (Search.scanChapter book q) spineItems in
  let published :=
    searchResults (Search.searchBook (Some book) (Some spineItems) schedule query r) in
  let inSpineOrder :=
    searchResults (Search.searchBook (Some book) (Some spineItems) [] query r) in
  (forall c item, spineItems !! c = Some item ->
     Search.ofChapter c published = Search.scanChapter book q c item
     /\ forall textNodes, Search.document item = Search.Document textNodes ->
          Search.ofChapter c published
          = List.flat_map
              (Search.pushAt book item c textNodes (Search.fullTextOf textNodes) q)
              (Search.occurrences (Search.fullTextOf textNodes) q))
  /\ (forall c, (length spineItems <= c)%nat -> Search.ofChapter c published = [])
  /\ (forall res,
        In res published <->
        exists c item, spineItems !! c = Some item
                       /\ In res (Search.scanChapter book q c item))
  /\ published = Search.interleave schedule tasks []
  /\ (Search.inOrder schedule tasks = true ->
      published = List.concat tasks /\ Search.sortedByChapter published)
  /\ inSpineOrder = List.concat tasks
  /\ Search.sortedByChapter inSpineOrder.
Proof.
  intros q Hq tasks published inSpineOrder. subst published inSpineOrder.
  rewrite !searchBook_results by exact Hq. fold q. fold tasks.
  assert (Ht : Search.tagged 0 tasks) by apply tasks_tagged.
  assert (Hof : forall c,
            Search.ofChapter c (Search.interleave schedule tasks [])
            = default [] (Search.scanChapter book q c <$> spineItems !! c)).
  { intros c. rewrite (interleave_ofChapter c schedule _ _ Ht). unfold tasks.
    rewrite list_lookup_imap. reflexivity. }
  split; [|split; [|split; [|split; [|split; [|split]]]]].
  3:{ intros res. split.
      - intros Hin.
        assert (Hc : In res (Search.ofChapter (sr_chapterIndex res)
                      (Search.interleave schedule tasks []))).
        { apply List.filter_In. split; [exact Hin | apply Nat.eqb_refl]. }
        rewrite Hof in Hc.
        destruct (spineItems !! sr_chapterIndex res) as [item|] eqn:Hitem;
          [|contradiction].
        exists (sr_chapterIndex res), item. split; [exact Hitem | exact Hc].
      - intros (c & item & Hitem & Hin).
        assert (Hc : In res (Search.ofChapter c (Search.interleave schedule tasks []))).
        { rewrite Hof, Hitem. exact Hin. }
        apply List.filter_In in Hc. apply Hc. }
  - intros c item Hitem.
    assert (Hc : Search.ofChapter c (Search.interleave schedule tasks [])
                 = Search.scanChapter book q c item).
    { rewrite Hof, Hitem. reflexivity. }
    split; [exact Hc|].
    intros textNodes Hdoc. rewrite Hc. unfold Search.scanChapter. rewrite Hdoc.
    apply forEachMatch_occurrences. exact Hq.
  - intros c Hc. rewrite Hof.
    rewrite (lookup_ge_None_2 spineItems c Hc). reflexivity.
  - reflexivity.
  - intros Hin. rewrite (interleave_inOrder schedule tasks [] Hin). simpl.
    split; [reflexivity | apply (concat_sorted _ 0%nat Ht)].
  - reflexivity.
  - simpl. apply (concat_sorted _ 0%nat Ht).
Qed.

Lemma searchBook_order_witness :
  Search.ofChapter 1
    (searchResults
       (@Search.searchBook Search.asciiEngine (Some Search.sampleBook)
          (Some Search.twoChapters) [1%nat] "cat" (initialReader ∅)))
  = @Search.scanChapter Search.asciiEngine Search.sampleBook "cat" 1
      (Search.chapterOf "two.xhtml" ["cat cat"]).
Proof.
  destruct (@searchBook_order Search.asciiEngine Search.sampleBook Search.twoChapters
              [1%nat] "cat" (initialReader ∅)) as [Hchapter _].
  - discriminate.
  - apply (Hchapter 1%nat (Search.chapterOf "two.xhtml" ["cat cat"]) eq_refl).
Defined.

(** * The stores, the quota over a session, and the reader events *)
(** ** The annotation store as a whole *)

Lemma key_highlights_bookmarks (p : Props) : STORAGE_KEY_HIGHLIGHTS p <> STORAGE_KEY_BOOKMARK p.
Proof. unfold STORAGE_KEY_HIGHLIGHTS, STORAGE_KEY_BOOKMARK. simpl. discriminate. Qed.

Lemma key_bookmarks_notes (p : Props) : STORAGE_KEY_BOOKMARK p <> STORAGE_KEY_NOTES p.
Proof. unfold STORAGE_KEY_BOOKMARK, STORAGE_KEY_NOTES. simpl. discriminate. Qed.

Lemma key_highlights_notes (p : Props) : STORAGE_KEY_HIGHLIGHTS p <> STORAGE_KEY_NOTES p.
Proof. unfold STORAGE_KEY_HIGHLIGHTS, STORAGE_KEY_NOTES. simpl. discriminate. Qed.

Lemma sameData_refl (r : Reader) : Store.sameData r r.
Proof. unfold Store.sameData. auto. Qed.

Lemma sameData_trans (r1 r2 r3 : Reader) :
  Store.sameData r1 r2 -> Store.sameData r2 r3 -> Store.sameData r1 r3.
Proof.
  unfold Store.sameData. intros (A1 & A2 & A3 & A4 & A5) (B1 & B2 & B3 & B4 & B5).
  repeat split; congruence.
Qed.

Lemma withRendition_sameData (p : Props) (f : Reader -> Reader) (r : Reader) :
  (forall x, Store.sameData x (f x)) -> Store.sameData r (withRendition p f r).
Proof.
  intros Hf. unfold withRendition. destruct (hasRendition p); [apply Hf | apply sameData_refl].
Qed.

Lemma annotate_sameData (c : OverlayCmd) (r : Reader) : Store.sameData r (annotate c r).
Proof. unfold Store.sameData. simpl. auto. Qed.

Lemma display_sameData (target : string) (r : Reader) : Store.sameData r (display target r).
Proof. unfold Store.sameData. simpl. auto. Qed.

Lemma fold_sameData {A} (f : Reader -> A -> Reader) (l : list A) :
  (forall acc x, Store.sameData acc (f acc x)) ->
  forall r, Store.sameData r (fold_left f l r).
Proof.
  intros Hf. induction l as [|x l IH]; intros r; simpl; [apply sameData_refl|].
  apply (sameData_trans _ (f r x)); [apply Hf | apply IH].
Qed.

Lemma redisplay_sameData (p : Props) (r : Reader) : Store.sameData r (Store.redisplay p r).
Proof.
  unfold Store.redisplay. destruct (location r) as [loc|]; [|apply sameData_refl].
  destruct (String.eqb loc EmptyString); [apply sameData_refl|].
  apply withRendition_sameData. intros x. apply display_sameData.
Qed.

(** What each operation of the store does to the data. *)
Lemma addHighlight_data (p : Props) (now : string) (args : Highlight) (r : Reader) :
  let r' := Annotations.addHighlight p now args r in
  let updated := highlights r ++ [Annotations.newHighlightOf now args] in
  highlights r' = updated /\ bookmarks r' = bookmarks r /\ notes r' = notes r
  /\ localStorage r' = <[STORAGE_KEY_HIGHLIGHTS p := JHighlights updated]> (localStorage r).
Proof.
  unfold Annotations.addHighlight. cbv zeta.
  set (r1 := withRendition p _ r).
  assert (H : Store.sameData r r1).
  { apply withRendition_sameData. intros x. apply annotate_sameData. }
  destruct H as (H1 & H2 & H3 & H4 & _). simpl. rewrite H1, H2, H3, H4. auto.
Qed.

Lemma removeHighlight_data (p : Props) (cfi : string) (type : HighlightType) (r : Reader) :
  let r' := Annotations.removeHighlight p cfi type r in
  let updated := List.filter (fun h => negb (String.eqb (h_cfi h) cfi)) (highlights r) in
  highlights r' = updated /\ bookmarks r' = bookmarks r /\ notes r' = notes r
  /\ localStorage r' = <[STORAGE_KEY_HIGHLIGHTS p := JHighlights updated]> (localStorage r).
Proof.
  unfold Annotations.removeHighlight. cbv zeta.
  set (r1 := withRendition p _ r).
  assert (H : Store.sameData r r1).
  { apply withRendition_sameData. intros x. apply annotate_sameData. }
  assert (H' := redisplay_sameData p r1). unfold Store.redisplay in H'.
  set (r2 := match location r1 with Some _ => _ | None => _ end) in *.
  destruct (sameData_trans _ _ _ H H') as (H1 & H2 & H3 & H4 & _).
  simpl. rewrite H1, H2, H3, H4. auto.
Qed.

Lemma updateHighlightColor_data (p : Props) (cfi newColor : string) (r : Reader) :
  let r' := Store.updateHighlightColor p cfi newColor r in
  let updated :=
    map (fun h => if String.eqb (h_cfi h) cfi then Store.recolored newColor h else h)
        (highlights r) in
  highlights r' = updated /\ bookmarks r' = bookmarks r /\ notes r' = notes r
  /\ localStorage r' = <[STORAGE_KEY_HIGHLIGHTS p := JHighlights updated]> (localStorage r).
Proof.
  unfold Store.updateHighlightColor. cbv zeta.
  set (r1 := fold_left _ (highlights r) r).
  assert (H : Store.sameData r r1).
  { apply fold_sameData. intros acc h. destruct (String.eqb (h_cfi h) cfi);
      [|apply sameData_refl].
    apply withRendition_sameData. intros x.
    apply (sameData_trans _ (annotate (AnnotRemove cfi (default highlight (h_type h))) x));
      apply annotate_sameData. }
  destruct H as (H1 & H2 & H3 & H4 & _). simpl. rewrite H2, H3, H4. auto.
Qed.

Lemma removeAllHighlights_data (p : Props) (r : Reader) :
  let r' := Store.removeAllHighlights p r in
  highlights r' = [] /\ bookmarks r' = bookmarks r /\ notes r' = notes r
  /\ localStorage r' = delete (STORAGE_KEY_HIGHLIGHTS p) (localStorage r).
Proof.
  unfold Store.removeAllHighlights. cbv zeta.
  set (r1 := fold_left _ (highlights r) r).
  assert (H : Store.sameData r r1).
  { apply fold_sameData. intros acc h. apply withRendition_sameData.
    intros x. apply annotate_sameData. }
  destruct (sameData_trans _ _ _ H (redisplay_sameData p r1)) as (H1 & H2 & H3 & H4 & _).
  simpl. rewrite H2, H3, H4. auto.
Qed.

Lemma addBookmark_data (p : Props) (now : string) (hasBook : bool)
    (chapter : Search.ChapterLookup) (page : option Z) (r : Reader) :
  let r' := Store.settledState (Store.addBookmark p now hasBook chapter page r) in
  Store.sameData r r'
  \/ exists b,
       b_cfi b <> EmptyString /\ location r = Some (b_cfi b)
       /\ highlights r' = highlights r /\ notes r' = notes r
       /\ bookmarks r' = bookmarks r ++ [b]
       /\ localStorage r'
          = <[STORAGE_KEY_BOOKMARK p := JBookmarks (bookmarks r ++ [b])]> (localStorage r).
Proof.
  unfold Store.addBookmark. destruct (location r) as [loc|] eqn:Hloc;
    [|left; apply sameData_refl].
  destruct (String.eqb_spec loc EmptyString) as [-> | Hne]; [left; apply sameData_refl|].
  simpl orb. destruct hasBook; simpl; [|left; apply sameData_refl].
  destruct chapter as [|title]; [left; apply sameData_refl|].
  right. eexists. simpl. repeat split; try reflexivity. exact Hne.
Qed.

Lemma addNote_data (p : Props) (now : string) (args : Note) (r : Reader) :
  let r' := Store.addNote p now args r in
  let updated :=
    notes r ++ [ {| n_cfi := n_cfi args; n_text := n_text args; n_note := n_note args;
                    n_createdAt := now |} ] in
  notes r' = updated /\ highlights r' = highlights r /\ bookmarks r' = bookmarks r
  /\ localStorage r' = <[STORAGE_KEY_NOTES p := JNotes updated]> (localStorage r).
Proof.
  unfold Store.addNote. cbv zeta.
  set (r1 := withRendition p _ r).
  assert (H : Store.sameData r r1).
  { apply withRendition_sameData. intros x. apply annotate_sameData. }
  destruct H as (H1 & H2 & H3 & H4 & _). simpl. rewrite H1, H2, H3, H4. auto.
Qed.

Lemma removeNote_data (p : Props) (cfi : string) (r : Reader) :
  let r' := Store.removeNote p cfi r in
  let updated := List.filter (fun n => negb (String.eqb (n_cfi n) cfi)) (notes r) in
  notes r' = updated /\ highlights r' = highlights r /\ bookmarks r' = bookmarks r
  /\ localStorage r' = <[STORAGE_KEY_NOTES p := JNotes updated]> (localStorage r).
Proof.
  unfold Store.removeNote. cbv zeta.
  set (r1 := withRendition p _ r).
  assert (H : Store.sameData r r1).
  { apply withRendition_sameData. intros x. apply annotate_sameData. }
  destruct H as (H1 & H2 & H3 & H4 & _). simpl. rewrite H1, H2, H3, H4. auto.
Qed.

Lemma removeAllNotes_data (p : Props) (r : Reader) :
  let r' := Store.removeAllNotes p r in
  notes r' = [] /\ highlights r' = highlights r /\ bookmarks r' = bookmarks r
  /\ localStorage r' = delete (STORAGE_KEY_NOTES p) (localStorage r).
Proof.
  unfold Store.removeAllNotes. cbv zeta.
  set (r1 := fold_left _ (notes r) r).
  assert (H : Store.sameData r r1).
  { apply fold_sameData. intros acc h. apply withRendition_sameData.
    intros x. apply annotate_sameData. }
  destruct H as (H1 & H2 & H3 & H4 & _). simpl. rewrite H1, H2, H4. auto.
Qed.

Lemma stored_written (r : Reader) (key : string) (v : Json) (b : bool) :
  localStorage r !! key = Some v -> Store.stored r key v b.
Proof. intros H. left. exact H. Qed.

Lemma stored_frame (r r' : Reader) (key : string) (v : Json) (b : bool) :
  localStorage r' !! key = localStorage r !! key ->
  Store.stored r key v b -> Store.stored r' key v b.
Proof. unfold Store.stored. intros ->. auto. Qed.

(** Every action keeps the three stored collections in step with the
    cells. *)
Lemma act_mirrored (p : Props) (a : Store.Action) (r : Reader) :
  Store.mirrored p r -> Store.mirrored p (Store.act p r a).
Proof.
  intros (MH & MB & MN).
  assert (KHB := key_highlights_bookmarks p). assert (KBN := key_bookmarks_notes p).
  assert (KHN := key_highlights_notes p).
  destruct a as [now args | cfi type | cfi newColor | | at_ now hasBook chapter page
                 | cfi | | now args | cfi | cfi newNote | ]; simpl Store.act.
  - destruct (addHighlight_data p now args r) as (H1 & H2 & H3 & H4).
    unfold Store.mirrored. rewrite H1, H2, H3. repeat split.
    + left. rewrite H4. apply lookup_insert_eq.
    + eapply stored_frame; [|exact MB]. rewrite H4. apply lookup_insert_ne. exact KHB.
    + eapply stored_frame; [|exact MN]. rewrite H4. apply lookup_insert_ne. exact KHN.
  - destruct (removeHighlight_data p cfi type r) as (H1 & H2 & H3 & H4).
    unfold Store.mirrored. rewrite H1, H2, H3. repeat split.
    + left. rewrite H4. apply lookup_insert_eq.
    + eapply stored_frame; [|exact MB]. rewrite H4. apply lookup_insert_ne. exact KHB.
    + eapply stored_frame; [|exact MN]. rewrite H4. apply lookup_insert_ne. exact KHN.
  - destruct (updateHighlightColor_data p cfi newColor r) as (H1 & H2 & H3 & H4).
    unfold Store.mirrored. rewrite H1, H2, H3. repeat split.
    + left. rewrite H4. apply lookup_insert_eq.
    + eapply stored_frame; [|exact MB]. rewrite H4. apply lookup_insert_ne. exact KHB.
    + eapply stored_frame; [|exact MN]. rewrite H4. apply lookup_insert_ne. exact KHN.
  - destruct (removeAllHighlights_data p r) as (H1 & H2 & H3 & H4).
    unfold Store.mirrored. rewrite H1, H2, H3. repeat split.
    + right. rewrite H4. split; [apply lookup_delete_eq | reflexivity].
    + eapply stored_frame; [|exact MB]. rewrite H4. apply lookup_delete_ne. exact KHB.
    + eapply stored_frame; [|exact MN]. rewrite H4. apply lookup_delete_ne. exact KHN.
  - destruct (addBookmark_data p now hasBook chapter page (setLocation at_ r))
      as [(H1 & H2 & H3 & H4 & _) | (b & _ & _ & H1 & H3 & H2 & H4)];
      unfold Store.mirrored; rewrite H1, H2, H3; simpl in *.
    + repeat split; (eapply stored_frame; [rewrite H4; reflexivity|]); assumption.
    + repeat split.
      * eapply stored_frame; [|exact MH]. rewrite H4. apply lookup_insert_ne. auto.
      * left. rewrite H4. apply lookup_insert_eq.
      * eapply stored_frame; [|exact MN]. rewrite H4. apply lookup_insert_ne. exact KBN.
  - unfold Store.mirrored, Store.removeBookmark. simpl. repeat split.
    + eapply stored_frame; [|exact MH]. simpl. apply lookup_insert_ne. auto.
    + left. simpl. apply lookup_insert_eq.
    + eapply stored_frame; [|exact MN]. simpl. apply lookup_insert_ne. exact KBN.
  - unfold Store.mirrored, Store.removeAllBookmarks. simpl. repeat split.
    + eapply stored_frame; [|exact MH]. simpl. apply lookup_delete_ne. auto.
    + right. simpl. split; [apply lookup_delete_eq | reflexivity].
    + eapply stored_frame; [|exact MN]. simpl. apply lookup_delete_ne. exact KBN.
  - destruct (addNote_data p now args r) as (H1 & H2 & H3 & H4).
    unfold Store.mirrored. rewrite H1, H2, H3. repeat split.
    + eapply stored_frame; [|exact MH]. rewrite H4. apply lookup_insert_ne. auto.
    + eapply stored_frame; [|exact MB]. rewrite H4. apply lookup_insert_ne. auto.
    + left. rewrite H4. apply lookup_insert_eq.
  - destruct (removeNote_data p cfi r) as (H1 & H2 & H3 & H4).
    unfold Store.mirrored. rewrite H1, H2, H3. repeat split.
    + eapply stored_frame; [|exact MH]. rewrite H4. apply lookup_insert_ne. auto.
    + eapply stored_frame; [|exact MB]. rewrite H4. apply lookup_insert_ne. auto.
    + left. rewrite H4. apply lookup_insert_eq.
  - unfold Store.mirrored, Store.editNote. simpl. repeat split.
    + eapply stored_frame; [|exact MH]. simpl. apply lookup_insert_ne. auto.
    + eapply stored_frame; [|exact MB]. simpl. apply lookup_insert_ne. auto.
    + left. simpl. apply lookup_insert_eq.
  - destruct (removeAllNotes_data p r) as (H1 & H2 & H3 & H4).
    unfold Store.mirrored. rewrite H1, H2, H3. repeat split.
    + eapply stored_frame; [|exact MH]. rewrite H4. apply lookup_delete_ne. auto.
    + eapply stored_frame; [|exact MB]. rewrite H4. apply lookup_delete_ne. auto.
    + right. rewrite H4. split; [apply lookup_delete_eq | reflexivity].
Qed.

Lemma perform_mirrored (p : Props) (actions : list Store.Action) :
  forall r, Store.mirrored p r -> Store.mirrored p (Store.perform p actions r).
Proof.
  unfold Store.perform. induction actions as [|a actions IH]; intros r Hm; simpl;
    [exact Hm|].
  apply IH, act_mirrored, Hm.
Qed.

Lemma initial_mirrored (p : Props) : Store.mirrored p (initialReader ∅).
Proof.
  unfold Store.mirrored, Store.stored. simpl.
  repeat split; right; (split; [apply lookup_empty | reflexivity]).
Qed.

(** What re-adding the parsed highlights leaves behind. *)
Lemma readd_fold (p : Props) (now : string) (parsed : list Highlight) :
  forall r,
    let readd acc h :=
      Annotations.addHighlight p now
        {| h_id := None; h_cfi := h_cfi h; h_text := h_text h; h_type := None;
           h_color := h_color h; h_createdAt := h_createdAt h |} acc in
    let r' := fold_left readd parsed r in
    highlights r' = highlights r ++ map (Store.reAdded now) parsed
    /\ bookmarks r' = bookmarks r /\ notes r' = notes r
    /\ (forall key, key <> STORAGE_KEY_HIGHLIGHTS p ->
                    localStorage r' !! key = localStorage r !! key)
    /\ (localStorage r !! STORAGE_KEY_HIGHLIGHTS p = Some (JHighlights (highlights r)) ->
        localStorage r' !! STORAGE_KEY_HIGHLIGHTS p = Some (JHighlights (highlights r'))).
Proof.
  induction parsed as [|h parsed IH]; intros r; cbv zeta; simpl.
  - rewrite app_nil_r. auto.
  - match goal with |- context [fold_left _ parsed ?x] => set (r1 := x) end.
    destruct (addHighlight_data p now
                {| h_id := None; h_cfi := h_cfi h; h_text := h_text h; h_type := None;
                   h_color := h_color h; h_createdAt := h_createdAt h |} r)
      as (H1 & H2 & H3 & H4). fold r1 in H1, H2, H3, H4.
    destruct (IH r1) as (I1 & I2 & I3 & I4 & I5). cbv zeta in I1, I2, I3, I4, I5.
    rewrite I1, I2, I3, H1, H2, H3, <- app_assoc. simpl.
    split; [reflexivity|]. split; [reflexivity|]. split; [reflexivity|]. split.
    + intros key Hkey. rewrite (I4 key Hkey), H4. apply lookup_insert_ne. auto.
    + intros _. rewrite I5.
      * rewrite I1, H1, <- app_assoc. reflexivity.
      * rewrite H4, H1. apply lookup_insert_eq.
Qed.

Lemma loadSavedHighlights_parsed (p : Props) (now : string) (parsed : list Highlight)
    (r : Reader) :
  localStorage r !! STORAGE_KEY_HIGHLIGHTS p = Some (JHighlights parsed) ->
  exists r',
    Persistence.loadSavedHighlights p now r = Returned r'
    /\ highlights r' = parsed /\ bookmarks r' = bookmarks r /\ notes r' = notes r
    /\ (forall key, key <> STORAGE_KEY_HIGHLIGHTS p ->
                    localStorage r' !! key = localStorage r !! key).
Proof.
  intros Hstored. unfold Persistence.loadSavedHighlights. rewrite Hstored. simpl.
  eexists. split; [reflexivity|].
  destruct (readd_fold p now parsed r) as (_ & I2 & I3 & I4 & _). cbv zeta in I2, I3, I4.
  simpl. auto.
Qed.

Lemma loadSavedHighlights_absent (p : Props) (now : string) (r : Reader) :
  localStorage r !! STORAGE_KEY_HIGHLIGHTS p = None ->
  Persistence.loadSavedHighlights p now r = Returned r.
Proof. intros H. unfold Persistence.loadSavedHighlights. rewrite H. reflexivity. Qed.

(** X1. Whatever the user did to highlights, bookmarks and notes, the
    highlights of a session are what the next session loads: the stored
    copy is rewritten by every change and dropped by "remove all". *)
Theorem highlights_survive_reload (p : Props) (now : string) (actions : list Store.Action)
    (r : Reader) :
  Store.mirrored p r ->
  let r' := Store.perform p actions r in
  exists r'',
    Persistence.loadSavedHighlights p now (Store.reopened r') = Returned r''
    /\ highlights r'' = highlights r'.
Proof.
  intros Hm r'. destruct (perform_mirrored p actions r Hm) as ([Hs | [Hs He]] & _ & _);
    fold r' in Hs.
  - destruct (loadSavedHighlights_parsed p now (highlights r') (Store.reopened r') Hs)
      as (r'' & Hload & Hh & _).
    exists r''. split; assumption.
  - fold r' in He. exists (Store.reopened r'). split.
    + apply loadSavedHighlights_absent. exact Hs.
    + destruct (highlights r'); [reflexivity | discriminate].
Qed.

Lemma highlights_survive_reload_witness :
  exists r'',
    Persistence.loadSavedHighlights Annotations.sampleProps "2025-01-02T08:00:00.000Z"
      (Store.reopened
         (Store.perform Annotations.sampleProps
            [Store.AddHighlight "2025-01-01T10:00:00.000Z" Store.underlined;
             Store.UpdateHighlightColor "epubcfi(/6/4!/4/2,/1:0,/1:5)" "pink"]
            (initialReader ∅)))
    = Returned r''
    /\ highlights r''
       = highlights
           (Store.perform Annotations.sampleProps
              [Store.AddHighlight "2025-01-01T10:00:00.000Z" Store.underlined;
               Store.UpdateHighlightColor "epubcfi(/6/4!/4/2,/1:0,/1:5)" "pink"]
              (initialReader ∅)).
Proof.
  apply (highlights_survive_reload Annotations.sampleProps "2025-01-02T08:00:00.000Z"
           [Store.AddHighlight "2025-01-01T10:00:00.000Z" Store.underlined;
            Store.UpdateHighlightColor "epubcfi(/6/4!/4/2,/1:0,/1:5)" "pink"]
           (initialReader ∅)).
  unfold Store.mirrored, Store.stored. simpl.
  repeat split; right; (split; [reflexivity | reflexivity]).
Defined.

(** X2. Whatever the user did to highlights, bookmarks and notes, the
    bookmarks of a session are what the bookmark loader of the next
    session restores from storage: every change of the bookmarks rewrites
    the stored copy and [removeAllBookmarks] deletes it. *)
Theorem bookmarks_survive_reload (p : Props) (actions : list Store.Action) (r : Reader) :
  Store.mirrored p r ->
  let r' := Store.perform p actions r in
  exists r'',
    Persistence.loadSavedBookmarks p (Store.reopened r') = Returned r''
    /\ bookmarks r'' = bookmarks r'.
Proof.
  intros Hm r'. destruct (perform_mirrored p actions r Hm) as (_ & [Hs | [Hs He]] & _);
    fold r' in Hs; unfold Persistence.loadSavedBookmarks, Store.reopened; simpl; rewrite Hs;
    simpl; eexists; (split; [reflexivity|]); simpl; [reflexivity|].
  fold r' in He. destruct (bookmarks r'); [reflexivity | discriminate].
Qed.

Lemma bookmarks_survive_reload_witness :
  exists r'',
    Persistence.loadSavedBookmarks Annotations.sampleProps
      (Store.reopened
         (Store.perform Annotations.sampleProps
            [Store.AddBookmark (Some "epubcfi(/6/4!/4/2)") "2025-01-01T10:00:00.000Z" true
               (Search.Resolved (Some "One")) (Some 12);
             Store.AddHighlight "2025-01-01T10:01:00.000Z" Store.underlined]
            (initialReader ∅)))
    = Returned r''
    /\ bookmarks r''
       = bookmarks
           (Store.perform Annotations.sampleProps
              [Store.AddBookmark (Some "epubcfi(/6/4!/4/2)") "2025-01-01T10:00:00.000Z" true
                 (Search.Resolved (Some "One")) (Some 12);
               Store.AddHighlight "2025-01-01T10:01:00.000Z" Store.underlined]
              (initialReader ∅)).
Proof.
  apply (bookmarks_survive_reload Annotations.sampleProps
           [Store.AddBookmark (Some "epubcfi(/6/4!/4/2)") "2025-01-01T10:00:00.000Z" true
              (Search.Resolved (Some "One")) (Some 12);
            Store.AddHighlight "2025-01-01T10:01:00.000Z" Store.underlined]
           (initialReader ∅)).
  unfold Store.mirrored, Store.stored. simpl.
  repeat split; right; (split; [reflexivity | reflexivity]).
Defined.

Lemma mark_fold (parsed : list Note) :
  forall r,
    let mark acc (n : Note) :=
      annotate (AnnotAdd highlight (n_cfi n) (Some "epub-note") "lightblue") acc in
    overlay (fold_left mark parsed r)
    = overlay r
      ++ map (fun n => AnnotAdd highlight (n_cfi n) (Some "epub-note") "lightblue") parsed.
Proof.
  induction parsed as [|n parsed IH]; intros r; cbv zeta; simpl.
  - symmetry. apply app_nil_r.
  - cbv zeta in IH. rewrite IH. simpl. rewrite <- app_assoc. reflexivity.
Qed.

(** X3. With the rendition in place the notes of a session are what the
    next session loads, each drawn once on the page; without the rendition
    the loading effect returns at once and the notes stay empty, stored or
    not. *)
Theorem notes_survive_reload (p : Props) (actions : list Store.Action) (r : Reader) :
  Store.mirrored p r ->
  let r' := Store.perform p actions r in
  (hasRendition p = true ->
     exists r'',
       Persistence.loadSavedNotes p (Store.reopened r') = Returned r''
       /\ notes r'' = notes r'
       /\ overlay r''
          = map (fun n => AnnotAdd highlight (n_cfi n) (Some "epub-note") "lightblue")
              (notes r'))
  /\ (hasRendition p = false ->
        Persistence.loadSavedNotes p (Store.reopened r') = Returned (Store.reopened r')
        /\ notes (Store.reopened r') = []).
Proof.
  intros Hm r'. split.
  - intros Hrend.
    destruct (perform_mirrored p actions r Hm) as (_ & _ & [Hs | [Hs He]]);
      fold r' in Hs; unfold Persistence.loadSavedNotes, Store.reopened; rewrite Hrend;
      simpl; rewrite Hs; simpl; eexists; (split; [reflexivity|]); simpl.
    + split; [reflexivity|]. apply (mark_fold (notes r') (initialReader (localStorage r'))).
    + fold r' in He. destruct (notes r'); [split; reflexivity | discriminate].
  - intros Hrend. unfold Persistence.loadSavedNotes. rewrite Hrend. split; reflexivity.
Qed.

Lemma notes_survive_reload_witness :
  exists r'',
    Persistence.loadSavedNotes Annotations.sampleProps
      (Store.reopened
         (Store.perform Annotations.sampleProps
            [Store.AddNote "2025-01-01T10:00:00.000Z"
               (mkNote "epubcfi(/6/4!/4/2)" "Hello" "check this" EmptyString);
             Store.EditNote "epubcfi(/6/4!/4/2)" "checked"]
            (initialReader ∅)))
    = Returned r''
    /\ map n_note (notes r'') = ["checked"].
Proof.
  destruct (proj1 (notes_survive_reload Annotations.sampleProps
             [Store.AddNote "2025-01-01T10:00:00.000Z"
                (mkNote "epubcfi(/6/4!/4/2)" "Hello" "check this" EmptyString);
              Store.EditNote "epubcfi(/6/4!/4/2)" "checked"]
             (initialReader ∅)
             ltac:(unfold Store.mirrored, Store.stored; simpl;
                   repeat split; right; (split; reflexivity)))
             eq_refl) as (r'' & Hload & Hnotes & _).
  exists r''. split; [exact Hload|]. rewrite Hnotes. reflexivity.
Defined.

Lemma reAdded_kind (now : string) (h : Highlight) :
  h_type (Store.reAdded now h) = Some highlight
  /\ h_cfi (Store.reAdded now h) = h_cfi h
  /\ h_text (Store.reAdded now h) = h_text h
  /\ h_createdAt (Store.reAdded now h) = now.
Proof. unfold Store.reAdded. simpl. auto. Qed.

(** X4. Loading the saved highlights shows them as they were stored, but
    rewrites the stored copy: every highlight is stored again as kind
    "highlight" with the time of loading (when there is at least one).  So
    after a second reload no underline is left: every highlight has kind
    "highlight", at the same positions and with the same texts. *)
Theorem reload_drops_the_kind (p : Props) (now later : string) (saved : list Highlight)
    (storage : gmap string Json) :
  storage !! STORAGE_KEY_HIGHLIGHTS p = Some (JHighlights saved) ->
  let first := stateOf (Persistence.loadSavedHighlights p now (initialReader storage)) in
  let second := stateOf (Persistence.loadSavedHighlights p later (Store.reopened first)) in
  highlights first = saved
  /\ localStorage first !! STORAGE_KEY_HIGHLIGHTS p
     = Some (JHighlights (map (Store.reAdded now) saved))
  /\ highlights second = map (Store.reAdded now) saved
  /\ Forall (fun h => h_type h = Some highlight /\ h_createdAt h = now) (highlights second)
  /\ map h_cfi (highlights second) = map h_cfi saved
  /\ map h_text (highlights second) = map h_text saved.
Proof.
  intros Hstored first second.
  assert (Hfirst : highlights first = saved
                   /\ localStorage first !! STORAGE_KEY_HIGHLIGHTS p
                      = Some (JHighlights (map (Store.reAdded now) saved))).
  { subst first. unfold Persistence.loadSavedHighlights. simpl. rewrite Hstored. simpl.
    split; [reflexivity|].
    destruct saved as [|h saved]; [exact Hstored|].
    simpl fold_left.
    match goal with |- context [fold_left ?f saved ?x] => set (r1 := x) end.
    destruct (addHighlight_data p now
                {| h_id := None; h_cfi := h_cfi h; h_text := h_text h; h_type := None;
                   h_color := h_color h; h_createdAt := h_createdAt h |}
                (initialReader storage)) as (H1 & _ & _ & H4). fold r1 in H1, H4.
    destruct (readd_fold p now saved r1) as (I1 & _ & _ & _ & I5).
    cbv zeta in I1, I5. rewrite I5.
    - rewrite I1, H1. reflexivity.
    - rewrite H4, H1. apply lookup_insert_eq. }
  destruct Hfirst as [Hf1 Hf2].
  assert (Hsecond : highlights second = map (Store.reAdded now) saved).
  { subst second.
    destruct (loadSavedHighlights_parsed p later _ (Store.reopened first) Hf2)
      as (r'' & Hload & Hh & _).
    rewrite Hload. exact Hh. }
  rewrite Hsecond. repeat split; try assumption.
  - apply List.Forall_forall. intros h Hin. apply in_map_iff in Hin.
    destruct Hin as (h0 & <- & _). split; apply reAdded_kind.
  - rewrite map_map. apply map_ext. intros h. apply reAdded_kind.
  - rewrite map_map. apply map_ext. intros h. apply reAdded_kind.
Qed.

Lemma reload_drops_the_kind_witness :
  map h_type
    (highlights
       (stateOf (Persistence.loadSavedHighlights Annotations.sampleProps
                   "2025-01-03T08:00:00.000Z"
                   (Store.reopened
                      (stateOf (Persistence.loadSavedHighlights Annotations.sampleProps
                                  "2025-01-02T08:00:00.000Z"
                                  (initialReader
                                     {[ "epub-highlights-book.epub"
                                        := JHighlights [Store.underlined] ]})))))))
  = [Some highlight].
Proof.
  destruct (reload_drops_the_kind Annotations.sampleProps "2025-01-02T08:00:00.000Z"
              "2025-01-03T08:00:00.000Z" [Store.underlined]
              {[ "epub-highlights-book.epub" := JHighlights [Store.underlined] ]})
    as (_ & _ & Hsecond & _).
  - vm_compute. reflexivity.
  - rewrite Hsecond. reflexivity.
Defined.

Lemma filter_keeps_all {A} (f : A -> bool) (l : list A) :
  (forall x, In x l -> f x = true) -> List.filter f l = l.
Proof.
  induction l as [|x l IH]; intros Hf; simpl; [reflexivity|].
  rewrite (Hf x) by (left; reflexivity). rewrite IH; [reflexivity|].
  intros y Hy. apply Hf. right. exact Hy.
Qed.

Lemma filter_twice {A} (f : A -> bool) (l : list A) :
  List.filter f (List.filter f l) = List.filter f l.
Proof.
  apply filter_keeps_all. intros x Hx. apply List.filter_In in Hx. apply Hx.
Qed.

Lemma differs_true (a b : string) : a <> b -> negb (String.eqb a b) = true.
Proof. intros H. apply negb_true_iff, String.eqb_neq, H. Qed.

(** X5. Removing a highlight right after adding it gives back the
    collection as it was, provided no highlight sat at that position
    before; removing at a position that holds no highlight changes
    nothing, and removing twice is removing once. *)
Theorem highlight_add_then_remove (p : Props) (now : string) (args : Highlight)
    (type : HighlightType) (r : Reader) :
  (forall h, In h (highlights r) -> h_cfi h <> h_cfi args) ->
  highlights (Annotations.removeHighlight p (h_cfi args) type
                (Annotations.addHighlight p now args r)) = highlights r
  /\ highlights (Annotations.removeHighlight p (h_cfi args) type r) = highlights r
  /\ forall cfi, highlights (Annotations.removeHighlight p cfi type
                               (Annotations.removeHighlight p cfi type r))
                 = highlights (Annotations.removeHighlight p cfi type r).
Proof.
  intros Hfree.
  assert (Hkeep : List.filter (fun h => negb (String.eqb (h_cfi h) (h_cfi args)))
                    (highlights r) = highlights r).
  { apply filter_keeps_all. intros h Hin. apply differs_true, Hfree, Hin. }
  split; [|split].
  - destruct (removeHighlight_data p (h_cfi args) type
                (Annotations.addHighlight p now args r)) as (H1 & _).
    destruct (addHighlight_data p now args r) as (A1 & _).
    rewrite H1, A1, List.filter_app, Hkeep. simpl. rewrite String.eqb_refl. simpl.
    apply app_nil_r.
  - destruct (removeHighlight_data p (h_cfi args) type r) as (H1 & _).
    rewrite H1. exact Hkeep.
  - intros cfi.
    destruct (removeHighlight_data p cfi type (Annotations.removeHighlight p cfi type r))
      as (H1 & _).
    destruct (removeHighlight_data p cfi type r) as (H2 & _).
    rewrite H1, H2. apply filter_twice.
Qed.

Lemma highlight_add_then_remove_witness :
  highlights
    (Annotations.removeHighlight Annotations.sampleProps (h_cfi Store.underlined) underline
       (Annotations.addHighlight Annotations.sampleProps "2025-01-01T10:00:00.000Z"
          Store.underlined
          (setHighlights
             [mkHighlight None "epubcfi(/6/4!/4/6,/1:0,/1:9)" "Good night" (Some highlight)
                (Some "yellow") "2025-01-01T11:00:00.000Z"]
             (initialReader ∅))))
  = [mkHighlight None "epubcfi(/6/4!/4/6,/1:0,/1:9)" "Good night" (Some highlight)
       (Some "yellow") "2025-01-01T11:00:00.000Z"].
Proof.
  destruct (highlight_add_then_remove Annotations.sampleProps "2025-01-01T10:00:00.000Z"
              Store.underlined underline
              (setHighlights
                 [mkHighlight None "epubcfi(/6/4!/4/6,/1:0,/1:9)" "Good night"
                    (Some highlight) (Some "yellow") "2025-01-01T11:00:00.000Z"]
                 (initialReader ∅)))
    as [Hback _].
  - intros h [<- | []]. discriminate.
  - exact Hback.
Defined.

Lemma redraw_fold (p : Props) (cfi newColor : string) (hs : list Highlight) :
  forall r,
    let redraw acc (h : Highlight) :=
      if String.eqb (h_cfi h) cfi then
        let type := default highlight (h_type h) in
        withRendition p
          (fun x => annotate (AnnotAdd type cfi (Some (Annotations.className type)) newColor)
                      (annotate (AnnotRemove cfi type) x)) acc
      else acc in
    overlay (fold_left redraw hs r)
    = overlay r ++ (if hasRendition p then List.flat_map (Store.redrawn cfi newColor) hs else []).
Proof.
  induction hs as [|h hs IH]; intros r; cbv zeta; simpl.
  - destruct (hasRendition p); symmetry; apply app_nil_r.
  - cbv zeta in IH. rewrite IH. unfold Store.redrawn at 2, withRendition.
    destruct (String.eqb (h_cfi h) cfi); destruct (hasRendition p); simpl;
      rewrite <- ?app_assoc; reflexivity.
Qed.

(** X6. [updateHighlightColor(cfi, c)] gives colour [c] to every stored
    highlight at [cfi] and changes nothing else: the highlights keep their
    number, order, positions, kinds, texts and dates, those at other
    positions are untouched, and with no highlight at [cfi] the collection
    is unchanged.  On the page each highlight at [cfi] is removed and
    drawn again under its own kind. *)
Theorem updateHighlightColor_recolors (p : Props) (cfi newColor : string) (r : Reader) :
  let r' := Store.updateHighlightColor p cfi newColor r in
  map h_cfi (highlights r') = map h_cfi (highlights r)
  /\ map h_type (highlights r') = map h_type (highlights r)
  /\ map h_text (highlights r') = map h_text (highlights r)
  /\ map h_createdAt (highlights r') = map h_createdAt (highlights r)
  /\ (forall h, In h (highlights r') -> h_cfi h = cfi -> h_color h = Some newColor)
  /\ (forall i h, highlights r !! i = Some h -> h_cfi h <> cfi ->
                  highlights r' !! i = Some h)
  /\ ((forall h, In h (highlights r) -> h_cfi h <> cfi) -> highlights r' = highlights r)
  /\ overlay r'
     = overlay r
       ++ (if hasRendition p
           then List.flat_map (Store.redrawn cfi newColor) (highlights r) else []).
Proof.
  intros r'. destruct (updateHighlightColor_data p cfi newColor r) as (H1 & _).
  fold r' in H1. rewrite H1.
  set (f := fun h => if String.eqb (h_cfi h) cfi then Store.recolored newColor h else h).
  assert (Hproj : forall h, h_cfi (f h) = h_cfi h /\ h_type (f h) = h_type h
                            /\ h_text (f h) = h_text h
                            /\ h_createdAt (f h) = h_createdAt h).
  { intros h. unfold f. destruct (String.eqb (h_cfi h) cfi); simpl; auto. }
  split; [rewrite map_map; apply map_ext; intros h; apply Hproj|].
  split; [rewrite map_map; apply map_ext; intros h; apply Hproj|].
  split; [rewrite map_map; apply map_ext; intros h; apply Hproj|].
  split; [rewrite map_map; apply map_ext; intros h; apply Hproj|].
  split; [|split; [|split]].
  - intros h Hin Hcfi. apply in_map_iff in Hin. destruct Hin as (h0 & <- & _).
    unfold f in *. destruct (String.eqb_spec (h_cfi h0) cfi) as [_ | Hne];
      [reflexivity | contradiction].
  - intros i h Hi Hne. rewrite list_lookup_fmap, Hi. simpl. unfold f.
    rewrite (proj2 (String.eqb_neq _ _) Hne). reflexivity.
  - intros Hfree. rewrite <- (map_id (highlights r)) at 2. apply map_ext_in.
    intros h Hin. unfold f. rewrite (proj2 (String.eqb_neq _ _) (Hfree h Hin)). reflexivity.
  - subst r'. unfold Store.updateHighlightColor. cbv zeta. simpl.
    apply (redraw_fold p cfi newColor (highlights r) r).
Qed.

Lemma updateHighlightColor_recolors_witness :
  map h_color
    (highlights
       (Store.updateHighlightColor Annotations.sampleProps
          "epubcfi(/6/4!/4/2,/1:0,/1:5)" "pink"
          (setHighlights [Store.underlined] (initialReader ∅))))
  = [Some "pink"].
Proof.
  destruct (updateHighlightColor_recolors Annotations.sampleProps
              "epubcfi(/6/4!/4/2,/1:0,/1:5)" "pink"
              (setHighlights [Store.underlined] (initialReader ∅)))
    as (_ & _ & _ & _ & Hc & _).
  exact (f_equal (fun c => [c])
           (Hc (Store.recolored "pink" Store.underlined) (or_introl eq_refl) eq_refl)).
Defined.

Lemma unmark_fold (p : Props) (hs : list Highlight) :
  forall r,
    let unmark acc (h : Highlight) :=
      withRendition p (annotate (AnnotRemove (h_cfi h) highlight)) acc in
    overlay (fold_left unmark hs r)
    = overlay r
      ++ (if hasRendition p then map (fun h => AnnotRemove (h_cfi h) highlight) hs else [])
    /\ displayed (fold_left unmark hs r) = displayed r
    /\ location (fold_left unmark hs r) = location r.
Proof.
  induction hs as [|h hs IH]; intros r; cbv zeta; simpl.
  - destruct (hasRendition p); rewrite app_nil_r; auto.
  - cbv zeta in IH. destruct (IH (withRendition p
                                    (annotate (AnnotRemove (h_cfi h) highlight)) r))
      as (I1 & I2 & I3).
    rewrite I1, I2, I3. unfold withRendition.
    destruct (hasRendition p); simpl; rewrite <- ?app_assoc; auto.
Qed.

(** X7. [removeAllHighlights] empties the collection and deletes its
    stored copy, leaving bookmarks and notes alone.  On the page it asks
    for one removal per stored highlight, always of kind "highlight": no
    removal of kind "underline" is ever sent, also not for a stored
    underline. *)
Theorem removeAllHighlights_clears (p : Props) (r : Reader) :
  let r' := Store.removeAllHighlights p r in
  highlights r' = []
  /\ localStorage r' !! STORAGE_KEY_HIGHLIGHTS p = None
  /\ bookmarks r' = bookmarks r /\ notes r' = notes r
  /\ (forall key, key <> STORAGE_KEY_HIGHLIGHTS p ->
                  localStorage r' !! key = localStorage r !! key)
  /\ overlay r'
     = overlay r
       ++ (if hasRendition p
           then map (fun h => AnnotRemove (h_cfi h) highlight) (highlights r) else [])
  /\ (forall cfi, In (AnnotRemove cfi underline) (overlay r') ->
                  In (AnnotRemove cfi underline) (overlay r)).
Proof.
  intros r'. destruct (removeAllHighlights_data p r) as (H1 & H2 & H3 & H4).
  fold r' in H1, H2, H3, H4.
  assert (Ho : overlay r'
               = overlay r
                 ++ (if hasRendition p
                     then map (fun h => AnnotRemove (h_cfi h) highlight) (highlights r)
                     else [])).
  { subst r'. unfold Store.removeAllHighlights. cbv zeta. simpl.
    destruct (unmark_fold p (highlights r) r) as (U1 & _ & _). cbv zeta in U1.
    rewrite <- U1. unfold Store.redisplay.
    match goal with |- context [location ?x] => destruct (location x) as [loc|] end;
      [|reflexivity].
    destruct (String.eqb loc EmptyString); [reflexivity|].
    unfold withRendition. destruct (hasRendition p); reflexivity. }
  repeat split; try assumption.
  - rewrite H4. apply lookup_delete_eq.
  - intros key Hkey. rewrite H4. apply lookup_delete_ne. auto.
  - intros cfi Hin. rewrite Ho in Hin. apply in_app_or in Hin.
    destruct Hin as [Hin | Hin]; [exact Hin|].
    destruct (hasRendition p); [|destruct Hin].
    apply in_map_iff in Hin. destruct Hin as (h & Heq & _). discriminate.
Qed.

Lemma removeAllHighlights_clears_witness :
  overlay (Store.removeAllHighlights Annotations.sampleProps
             (setHighlights [Store.underlined] (initialReader ∅)))
  = [AnnotRemove "epubcfi(/6/4!/4/2,/1:0,/1:5)" highlight].
Proof.
  destruct (removeAllHighlights_clears Annotations.sampleProps
              (setHighlights [Store.underlined] (initialReader ∅)))
    as (_ & _ & _ & _ & _ & Ho & _).
  rewrite Ho. reflexivity.
Defined.

(** X8. [editNote(cfi, text)] sets the note text of every stored note at
    [cfi] and changes nothing else: number, order, positions, quoted texts
    and dates stay, notes at other positions are untouched, nothing is sent
    to the page, and editing twice with the same text is editing once. *)
Theorem editNote_rewrites (p : Props) (cfi newNote : string) (r : Reader) :
  let r' := Store.editNote p cfi newNote r in
  map n_cfi (notes r') = map n_cfi (notes r)
  /\ map n_text (notes r') = map n_text (notes r)
  /\ map n_createdAt (notes r') = map n_createdAt (notes r)
  /\ (forall n, In n (notes r') -> n_cfi n = cfi -> n_note n = newNote)
  /\ (forall i n, notes r !! i = Some n -> n_cfi n <> cfi -> notes r' !! i = Some n)
  /\ overlay r' = overlay r
  /\ highlights r' = highlights r /\ bookmarks r' = bookmarks r
  /\ notes (Store.editNote p cfi newNote r') = notes r'.
Proof.
  intros r'. subst r'. unfold Store.editNote. simpl.
  set (f := fun n => if String.eqb (n_cfi n) cfi then Store.renoted newNote n else n).
  assert (Hproj : forall n, n_cfi (f n) = n_cfi n /\ n_text (f n) = n_text n
                            /\ n_createdAt (f n) = n_createdAt n).
  { intros n. unfold f. destruct (String.eqb (n_cfi n) cfi); simpl; auto. }
  split; [rewrite map_map; apply map_ext; intros n; apply Hproj|].
  split; [rewrite map_map; apply map_ext; intros n; apply Hproj|].
  split; [rewrite map_map; apply map_ext; intros n; apply Hproj|].
  split; [|split; [|repeat split]].
  - intros n Hin Hcfi. apply in_map_iff in Hin. destruct Hin as (n0 & <- & _).
    unfold f in *. destruct (String.eqb_spec (n_cfi n0) cfi) as [_ | Hne];
      [reflexivity | contradiction].
  - intros i n Hi Hne. rewrite list_lookup_fmap, Hi. simpl. unfold f.
    rewrite (proj2 (String.eqb_neq _ _) Hne). reflexivity.
  - rewrite map_map. apply map_ext. intros n. unfold f.
    destruct (String.eqb (n_cfi n) cfi) eqn:He; simpl; rewrite He; reflexivity.
Qed.

Lemma editNote_rewrites_witness :
  map n_note
    (notes (Store.editNote Annotations.sampleProps "epubcfi(/6/4!/4/2)" "checked"
              (setNotes [mkNote "epubcfi(/6/4!/4/2)" "Hello" "check this" EmptyString]
                 (initialReader ∅))))
  = ["checked"].
Proof.
  destruct (editNote_rewrites Annotations.sampleProps "epubcfi(/6/4!/4/2)" "checked"
              (setNotes [mkNote "epubcfi(/6/4!/4/2)" "Hello" "check this" EmptyString]
                 (initialReader ∅)))
    as (_ & _ & _ & Hn & _).
  exact (f_equal (fun c => [c])
           (Hn (Store.renoted "checked"
                  (mkNote "epubcfi(/6/4!/4/2)" "Hello" "check this" EmptyString))
               (or_introl eq_refl) eq_refl)).
Defined.

(** X9. [addBookmark] appends one bookmark for the current location,
    with the chapter and page the host gives and no label, whether or not
    the location is bookmarked already; [removeBookmark] of that location
    right after leaves the earlier bookmarks of other positions, and none
    at that location.  Without a location or without a book the call
    changes nothing, and when the chapter lookup is rejected the call is
    rejected and nothing is stored. *)
Theorem addBookmark_then_remove (p : Props) (now loc : string) (title : option string)
    (page : option Z) (r : Reader) :
  loc <> EmptyString ->
  location r = Some loc ->
  let b := {| b_cfi := loc; b_label := None; b_createdAt := now;
              b_chapter := title; b_page := page |} in
  let added := Store.settledState
                 (Store.addBookmark p now true (Search.Resolved title) page r) in
  Store.addBookmark p now true (Search.Resolved title) page r = Store.Fulfilled added
  /\ bookmarks added = bookmarks r ++ [b]
  /\ localStorage added !! STORAGE_KEY_BOOKMARK p = Some (JBookmarks (bookmarks r ++ [b]))
  /\ bookmarks (Store.removeBookmark p loc added)
     = List.filter (fun x => negb (String.eqb (b_cfi x) loc)) (bookmarks r)
  /\ (forall x, In x (bookmarks (Store.removeBookmark p loc added)) -> b_cfi x <> loc)
  /\ Store.addBookmark p now false (Search.Resolved title) page r = Store.Fulfilled r
  /\ Store.addBookmark p now true Search.LookupRejects page r = Store.Rejected r
  /\ (forall chapter hasBook,
        Store.addBookmark p now hasBook chapter page (setLocation None r)
        = Store.Fulfilled (setLocation None r)).
Proof.
  intros Hloc Hat b added. subst added. unfold Store.addBookmark. rewrite Hat.
  rewrite (proj2 (String.eqb_neq _ _) Hloc). simpl.
  split; [reflexivity|]. split; [reflexivity|]. split; [apply lookup_insert_eq|].
  assert (Hf : List.filter (fun x => negb (String.eqb (b_cfi x) loc)) (bookmarks r ++ [b])
               = List.filter (fun x => negb (String.eqb (b_cfi x) loc)) (bookmarks r)).
  { rewrite List.filter_app. simpl. rewrite String.eqb_refl. simpl. apply app_nil_r. }
  split; [exact Hf|]. split; [|auto].
  intros x Hin. fold b in Hin. rewrite Hf in Hin. apply List.filter_In in Hin.
  destruct Hin as [_ Hne]. apply negb_true_iff in Hne. apply String.eqb_neq. exact Hne.
Qed.

Lemma addBookmark_then_remove_witness :
  bookmarks
    (Store.removeBookmark Annotations.sampleProps "epubcfi(/6/4!/4/2)"
       (Store.settledState
          (Store.addBookmark Annotations.sampleProps "2025-01-01T10:00:00.000Z" true
             (Search.Resolved (Some "One")) (Some 12)
             (setLocation (Some "epubcfi(/6/4!/4/2)") (initialReader ∅)))))
  = [].
Proof.
  destruct (addBookmark_then_remove Annotations.sampleProps "2025-01-01T10:00:00.000Z"
              "epubcfi(/6/4!/4/2)" (Some "One") (Some 12)
              (setLocation (Some "epubcfi(/6/4!/4/2)") (initialReader ∅)))
    as (_ & _ & _ & Hrem & _).
  - discriminate.
  - reflexivity.
  - rewrite Hrem. reflexivity.
Defined.

(** ** Copying over a whole session *)

(** *** The numbers of the guard *)

Lemma Qltb_compat (a b b' : Q) : (b == b')%Q -> Qltb a b = Qltb a b'.
Proof.
  intros Hb. destruct (Qltb a b) eqn:H1; symmetry.
  - apply Qltb_lt. apply Qltb_lt in H1. rewrite <- Hb. exact H1.
  - apply Qltb_ge. apply Qltb_ge in H1. rewrite <- Hb. exact H1.
Qed.

Lemma Qltb_compat_l (a a' b : Q) : (a == a')%Q -> Qltb a b = Qltb a' b.
Proof.
  intros Ha. destruct (Qltb a b) eqn:H1; symmetry.
  - apply Qltb_lt. apply Qltb_lt in H1. rewrite <- Ha. exact H1.
  - apply Qltb_ge. apply Qltb_ge in H1. rewrite <- Ha. exact H1.
Qed.

Lemma iter_xO_value (p k : positive) : Zpos (Pos.iter xO p k) = Zpos p * 2 ^ Zpos k.
Proof.
  induction k as [|k IH] using Pos.peano_ind.
  - simpl. lia.
  - rewrite Pos.iter_succ, Pos2Z.inj_xO, IH, Pos2Z.inj_succ, Z.pow_succ_r by lia. lia.
Qed.

(** A safe positive integer is the number it denotes. *)
Lemma of_Z_exact (z : Z) :
  1 <= z < 2 ^ 53 ->
  exists m e, Double.of_Z z = S754_finite false m e
              /\ (Double.real (S754_finite false m e) == inject_Z z)%Q.
Proof.
  intros [Hlo Hhi]. destruct z as [|p|p]; try lia.
  unfold Double.of_Z, binary_normalize, binary_round.
  assert (Hd := digits2_pos_safe p Hhi).
  assert (Hd1 : 1 <= Zpos (digits2_pos p)) by lia.
  rewrite Z.add_0_r.
  assert (Hfexp : fexp 53 1024 (Zpos (digits2_pos p)) = Zpos (digits2_pos p) - 53).
  { unfold fexp, emin. lia. }
  rewrite Hfexp. unfold shl_align. rewrite Z.sub_0_r.
  destruct (Zpos (digits2_pos p) - 53) as [|k|k] eqn:Hshift; try lia.
  - exists p, 0. split.
    + apply binary_round_aux_canonical; [|lia].
      rewrite Z.add_0_r. unfold fexp, emin. lia.
    + simpl. ring.
  - exists (shift_pos k p), (Zneg k). split.
    + apply binary_round_aux_canonical; [|lia].
      unfold shift_pos. rewrite digits2_pos_iter_xO. unfold fexp, emin. lia.
    + unfold Double.real, shift_pos. rewrite iter_xO_value.
      change (Zneg k) with (- Zpos k). rewrite Qpower_opp, inject_Z_mult.
      rewrite (Zpower_Qpower 2 (Zpos k)) by lia.
      change (inject_Z 2) with 2%Q.
      assert (Hx : ~ (2 ^ Zpos k == 0)%Q) by (apply Qpower_not_0; discriminate).
      revert Hx. generalize (2 ^ Zpos k)%Q. intros x Hx. field. exact Hx.
Qed.

Lemma of_Z_not_nan (z : Z) : Double.of_Z z <> S754_nan.
Proof.
  destruct z as [|p|p]; [discriminate| |];
    unfold Double.of_Z, binary_normalize, binary_round;
    destruct (shl_align _ _ _) as [m e]; apply binary_round_aux_not_nan; lia.
Qed.

(** Comparing a number with a safe integer that is not negative. *)
Lemma lt_of_Z (x : Double.number) (z : Z) :
  0 <= z < 2 ^ 53 ->
  Double.lt x (Double.of_Z z)
  = match x with
    | S754_nan => false
    | S754_infinity s => s
    | _ => Qltb (Double.real x) (inject_Z z)
    end.
Proof.
  intros Hz. destruct (Z.eq_dec z 0) as [-> | Hne].
  - change (Double.of_Z 0) with (S754_zero false). destruct x; reflexivity.
  - destruct (of_Z_exact z ltac:(lia)) as (m & e & -> & Hreal).
    destruct x as [s | s | | s mx ex]; try reflexivity;
      unfold Double.lt; apply Qltb_compat; exact Hreal.
Qed.

Lemma of_Z_lt (x : Double.number) (z : Z) :
  0 <= z < 2 ^ 53 ->
  Double.lt (Double.of_Z z) x
  = match x with
    | S754_nan => false
    | S754_infinity s => negb s
    | _ => Qltb (inject_Z z) (Double.real x)
    end.
Proof.
  intros Hz. destruct (Z.eq_dec z 0) as [-> | Hne].
  - change (Double.of_Z 0) with (S754_zero false). destruct x; reflexivity.
  - destruct (of_Z_exact z ltac:(lia)) as (m & e & -> & Hreal).
    destruct x as [s | s | | s mx ex]; try reflexivity;
      unfold Double.lt; apply Qltb_compat_l; exact Hreal.
Qed.

Lemma le_of_Z (x : Double.number) (z : Z) :
  Double.le x (Double.of_Z z)
  = match x with
    | S754_nan => false
    | _ => negb (Double.lt (Double.of_Z z) x)
    end.
Proof.
  assert (Hn := of_Z_not_nan z). unfold Double.le.
  destruct x; destruct (Double.of_Z z); try reflexivity; elim Hn; reflexivity.
Qed.

(** Where the allowance is at most the counter, every longer count is
    above it. *)
Lemma above_exhausted (allowed : Double.number) (copied len : Z) :
  0 <= copied -> 0 < len -> copied + len < 2 ^ 53 ->
  Double.le allowed (Double.of_Z copied) = true ->
  Double.gt (Double.of_Z (copied + len)) allowed = true.
Proof.
  intros Hc Hl Hs Hle. unfold Double.gt. rewrite lt_of_Z by lia.
  rewrite le_of_Z, of_Z_lt in Hle by lia.
  assert (Hq : forall x : Q,
            negb (Qltb (inject_Z copied) x) = true ->
            Qltb x (inject_Z (copied + len)) = true).
  { intros x Hx. apply negb_true_iff in Hx. apply Qltb_ge in Hx. apply Qltb_lt.
    eapply Qle_lt_trans; [exact Hx|]. rewrite <- Zlt_Qlt. lia. }
  destruct allowed as [s | s | | s m e]; try discriminate.
  - apply Hq, Hle.
  - destruct s; [reflexivity | discriminate].
  - apply Hq, Hle.
Qed.

(** A count that the guard lets through is within the allowance, as soon
    as the allowance is a number. *)
Lemma within_after (allowed : Double.number) (count : Z) :
  allowed <> S754_nan ->
  Double.gt (Double.of_Z count) allowed = false ->
  Double.le (Double.of_Z count) allowed = true.
Proof.
  intros Ha Hgt. unfold Double.gt in Hgt. unfold Double.le.
  assert (Hn := of_Z_not_nan count).
  destruct (Double.of_Z count) eqn:Hc; try contradiction;
    destruct allowed; try contradiction; rewrite Hgt; reflexivity.
Qed.

Lemma le_not_nan (x y : Double.number) : Double.le x y = true -> y <> S754_nan.
Proof. intros H ->. destruct x; discriminate. Qed.

(** *** Calls and renders *)

(** One protected call made with the callback of a render either leaves
    the state, or puts the text on the clipboard and counts it. *)
Lemma copyText_step (p : Props) (rendered : Reader) (writes : bool) (text : string)
    (r : Reader) :
  isCopyProtected p = true ->
  let r' := stateOf (CopyQuota.copyTextFrom p rendered writes text r) in
  (r' = r /\ (writes = false \/ CopyQuota.exceeds rendered text = true))
  \/ (writes = true /\ CopyQuota.exceeds rendered text = false
      /\ clipboard r' = clipboard r ++ [text]
      /\ copiedChars r' = copiedChars r + Z.of_nat (String.length text)
      /\ totalBookChars r' = totalBookChars r /\ copyAllowance r' = copyAllowance r
      /\ localStorage r'
         = <[STORAGE_KEY_COPIED_CHARS p := JNumber (copiedChars r')]> (localStorage r)).
Proof.
  intros Hprot. unfold CopyQuota.copyTextFrom. rewrite Hprot. simpl negb. cbv iota.
  destruct (CopyQuota.exceeds rendered text) eqn:He; [left; simpl; auto|].
  destruct writes; simpl; [|left; auto].
  right. repeat split; reflexivity.
Qed.

Lemma charsOf_app (l1 l2 : list string) :
  Session.charsOf (l1 ++ l2) = Session.charsOf l1 + Session.charsOf l2.
Proof. unfold Session.charsOf. rewrite map_app, list_sum_app. lia. Qed.

Lemma charsOf_nonneg (l : list string) : 0 <= Session.charsOf l.
Proof. unfold Session.charsOf. lia. Qed.

(** What the calls of one render add up to. *)
Lemma copyFrom_counts (p : Props) (rendered : Reader) (calls : list (bool * string)) :
  isCopyProtected p = true ->
  forall r,
    let r' := Session.copyFrom p rendered calls r in
    exists copied : list string,
      clipboard r' = clipboard r ++ copied
      /\ copiedChars r' = copiedChars r + Session.charsOf copied
      /\ totalBookChars r' = totalBookChars r /\ copyAllowance r' = copyAllowance r.
Proof.
  intros Hprot. unfold Session.copyFrom.
  induction calls as [|[writes text] calls IH]; intros r; simpl.
  - exists []. rewrite app_nil_r. unfold Session.charsOf. simpl.
    repeat split; try reflexivity; lia.
  - set (r1 := stateOf (CopyQuota.copyTextFrom p rendered writes text r)).
    destruct (IH r1) as (copied & I1 & I2 & I3 & I4).
    destruct (copyText_step p rendered writes text r Hprot)
      as [[Heq _] | (_ & _ & S1 & S2 & S3 & S4 & _)];
      fold r1 in Heq || fold r1 in S1, S2, S3, S4.
    + rewrite Heq in *. exists copied. auto.
    + exists (text :: copied).
      assert (Hc : Session.charsOf (text :: copied)
                   = Z.of_nat (String.length text) + Session.charsOf copied).
      { change (text :: copied) with ([text] ++ copied). rewrite charsOf_app.
        unfold Session.charsOf at 1. simpl. lia. }
      split; [rewrite I1, S1, <- app_assoc; reflexivity|].
      split; [lia|]. split; congruence.
Qed.

Lemma within_same (r r' : Reader) :
  copiedChars r' = copiedChars r -> totalBookChars r' = totalBookChars r ->
  copyAllowance r' = copyAllowance r ->
  CopyQuota.within r' = CopyQuota.within r.
Proof.
  intros H1 H2 H3. unfold CopyQuota.within, CopyQuota.allowedChars.
  rewrite H1, H2, H3. reflexivity.
Qed.

(** A call made with the callback of the latest render keeps the counter
    within the allowance. *)
Lemma copyText_within (p : Props) (writes : bool) (text : string) (r : Reader) :
  isCopyProtected p = true ->
  CopyQuota.within r = true ->
  CopyQuota.within (stateOf (CopyQuota.copyTextFrom p r writes text r)) = true.
Proof.
  intros Hprot Hin.
  destruct (copyText_step p r writes text r Hprot)
    as [[Heq _] | (_ & He & _ & S2 & S3 & S4 & _)].
  - rewrite Heq. exact Hin.
  - unfold CopyQuota.within, CopyQuota.allowedChars. rewrite S2, S3, S4.
    apply within_after; [|exact He].
    apply (le_not_nan _ _ Hin).
Qed.

(** X10. In protected mode, over any series of [copyText] calls, made
    with the callbacks of any renders: the counter grows by exactly the
    characters of the texts that reached the clipboard; it never goes
    down; the total and the allowance are not touched.  A counter within
    the allowance stays within it as long as every call is made with the
    callback of the latest render, one call a render.  The calls made with
    the callback of one render all read the counter that render saw: with
    40 characters allowed, two calls of 30 characters from one render both
    pass and leave the counter at 60. *)
Theorem copyAll_counts_the_clipboard (p : Props) (renders : list (list (bool * string)))
    (r : Reader) :
  isCopyProtected p = true ->
  let r' := Session.copyAll p renders r in
  (exists copied : list string,
     clipboard r' = clipboard r ++ copied
     /\ copiedChars r' = copiedChars r + Session.charsOf copied
     /\ copiedChars r <= copiedChars r'
     /\ totalBookChars r' = totalBookChars r /\ copyAllowance r' = copyAllowance r)
  /\ (List.Forall (fun calls => (length calls <= 1)%nat) renders ->
      CopyQuota.within r = true -> CopyQuota.within r' = true)
  /\ CopyQuota.within CopyQuota.scenarioStart = true
  /\ copiedChars
       (Session.copyAll CopyQuota.scenarioProps
          [[(true, CopyQuota.chars 30); (true, CopyQuota.chars 30)]] CopyQuota.scenarioStart)
     = 60
  /\ CopyQuota.within
       (Session.copyAll CopyQuota.scenarioProps
          [[(true, CopyQuota.chars 30); (true, CopyQuota.chars 30)]] CopyQuota.scenarioStart)
     = false.
Proof.
  intros Hprot. cbv zeta. split; [|split; [|repeat split; vm_compute; reflexivity]].
  - unfold Session.copyAll. revert r.
    induction renders as [|calls renders IH]; intros r; simpl.
    + exists []. rewrite app_nil_r. unfold Session.charsOf. simpl.
      repeat split; try reflexivity; lia.
    + destruct (copyFrom_counts p r calls Hprot r) as (c1 & A1 & A2 & A3 & A4).
      cbv zeta in A1, A2, A3, A4.
      destruct (IH (Session.copyFrom p r calls r)) as (c2 & B1 & B2 & B3 & B4 & B5).
      exists (c1 ++ c2). rewrite charsOf_app.
      assert (H1 := charsOf_nonneg c1). assert (H2 := charsOf_nonneg c2).
      split; [rewrite B1, A1, <- app_assoc; reflexivity|].
      split; [lia|]. split; [lia|]. split; congruence.
  - unfold Session.copyAll. intros Hone. revert r.
    induction Hone as [|calls renders Hlen _ IH]; intros r Hin; simpl; [exact Hin|].
    apply IH. destruct calls as [|[writes text] [|c calls]]; simpl in Hlen; try lia.
    + exact Hin.
    + unfold Session.copyFrom. simpl. apply copyText_within; assumption.
Qed.

Lemma copyAll_counts_the_clipboard_witness :
  CopyQuota.within
    (Session.copyAll CopyQuota.scenarioProps
       [[(true, CopyQuota.chars 30)]; [(true, CopyQuota.chars 30)]; [(false, CopyQuota.chars 5)]]
       CopyQuota.scenarioStart)
  = true.
Proof.
  destruct (copyAll_counts_the_clipboard CopyQuota.scenarioProps
              [[(true, CopyQuota.chars 30)]; [(true, CopyQuota.chars 30)];
               [(false, CopyQuota.chars 5)]]
              CopyQuota.scenarioStart) as (_ & Hwithin & _).
  - reflexivity.
  - apply Hwithin; [|vm_compute; reflexivity].
    repeat constructor.
Defined.

Lemma length_positive (text : string) : text <> EmptyString -> (0 < String.length text)%nat.
Proof. destruct text; [congruence | simpl; lia]. Qed.

(** X11. In protected mode, once the counter has reached the allowance
    ([allowedChars <= copiedChars]), every call of [copyText] with a
    non-empty text throws 'Copy limit exceeded', and any series of such
    calls, from whatever renders, leaves the whole state as it was:
    nothing reaches the clipboard, the counter or the storage.  The counts
    are safe integers. *)
Theorem copyText_exhausted (p : Props) (renders : list (list (bool * string))) (r : Reader) :
  isCopyProtected p = true ->
  Double.le (CopyQuota.allowedChars r) (Double.of_Z (copiedChars r)) = true ->
  0 <= copiedChars r ->
  List.Forall
    (fun c => snd c <> EmptyString
              /\ copiedChars r + Z.of_nat (String.length (snd c)) < 2 ^ 53)
    (List.concat renders) ->
  (forall c, In c (List.concat renders) ->
     CopyQuota.copyText p (fst c) (snd c) r = Threw CopyLimitExceeded r)
  /\ Session.copyAll p renders r = r.
Proof.
  intros Hprot Hfull Hpos Hne.
  assert (Hone : forall c,
            snd c <> EmptyString
            /\ copiedChars r + Z.of_nat (String.length (snd c)) < 2 ^ 53 ->
            forall r0, CopyQuota.copyTextFrom p r (fst c) (snd c) r0
                       = Threw CopyLimitExceeded r0).
  { intros c [Hc Hsafe] r0. unfold CopyQuota.copyTextFrom. rewrite Hprot. simpl negb.
    cbv iota.
    assert (He : CopyQuota.exceeds r (snd c) = true).
    { unfold CopyQuota.exceeds. apply above_exhausted; try assumption.
      pose proof (length_positive (snd c) Hc). lia. }
    rewrite He. reflexivity. }
  split.
  - intros c Hin. apply Hone. rewrite List.Forall_forall in Hne. apply Hne. exact Hin.
  - unfold Session.copyAll. induction renders as [|calls renders IH]; [reflexivity|].
    simpl in Hne |- *. apply List.Forall_app in Hne. destruct Hne as [Hcalls Hrest].
    assert (Hsame : Session.copyFrom p r calls r = r).
    { unfold Session.copyFrom. clear IH Hrest.
      induction Hcalls as [|c calls Hc _ IHc]; simpl; [reflexivity|].
      rewrite (Hone c Hc r). simpl. exact IHc. }
    rewrite Hsame. apply IH. exact Hrest.
Qed.

Lemma copyText_exhausted_witness :
  Session.copyAll CopyQuota.scenarioProps
    [[(true, CopyQuota.chars 1); (true, CopyQuota.chars 15)]; [(true, CopyQuota.chars 2)]]
    (setCopiedChars 40 CopyQuota.scenarioStart)
  = setCopiedChars 40 CopyQuota.scenarioStart.
Proof.
  destruct (copyText_exhausted CopyQuota.scenarioProps
              [[(true, CopyQuota.chars 1); (true, CopyQuota.chars 15)];
               [(true, CopyQuota.chars 2)]]
              (setCopiedChars 40 CopyQuota.scenarioStart)) as [_ Hsame].
  - reflexivity.
  - vm_compute. reflexivity.
  - simpl. lia.
  - repeat constructor; try discriminate; simpl; lia.
  - exact Hsame.
Defined.

Lemma accepted_app (l1 l2 : list (bool * string)) :
  Session.accepted (l1 ++ l2) = Session.accepted l1 ++ Session.accepted l2.
Proof. unfold Session.accepted. rewrite List.filter_app, map_app. reflexivity. Qed.

Lemma accepted_cons (c : bool * string) (calls : list (bool * string)) :
  Session.accepted (c :: calls)
  = (if fst c then [snd c] else []) ++ Session.accepted calls.
Proof. unfold Session.accepted. simpl. destruct (fst c); reflexivity. Qed.

(** X12. Without copy protection [copyText] never throws, whatever the
    clipboard answers and whichever render made the callback, and over any
    series of calls the clipboard receives exactly the texts it accepted,
    in call order, while the counter, the total, the allowance and the
    storage are never touched. *)
Theorem copyText_unprotected (p : Props) (renders : list (list (bool * string)))
    (r : Reader) :
  isCopyProtected p = false ->
  let r' := Session.copyAll p renders r in
  (forall writes text r0, exists r1, CopyQuota.copyText p writes text r0 = Returned r1)
  /\ (forall rendered writes text r0,
        exists r1, CopyQuota.copyTextFrom p rendered writes text r0 = Returned r1)
  /\ clipboard r' = clipboard r ++ Session.accepted (List.concat renders)
  /\ copiedChars r' = copiedChars r
  /\ totalBookChars r' = totalBookChars r
  /\ copyAllowance r' = copyAllowance r
  /\ localStorage r' = localStorage r.
Proof.
  intros Hprot.
  assert (Hret : forall rendered writes text r0,
            exists r1, CopyQuota.copyTextFrom p rendered writes text r0 = Returned r1).
  { intros rendered writes text r0. unfold CopyQuota.copyTextFrom. rewrite Hprot. simpl.
    destruct writes; simpl; eexists; reflexivity. }
  split; [intros writes text r0; apply Hret|]. split; [exact Hret|].
  assert (Hfrom : forall rendered calls r0,
            let r1 := Session.copyFrom p rendered calls r0 in
            clipboard r1 = clipboard r0 ++ Session.accepted calls
            /\ copiedChars r1 = copiedChars r0 /\ totalBookChars r1 = totalBookChars r0
            /\ copyAllowance r1 = copyAllowance r0 /\ localStorage r1 = localStorage r0).
  { intros rendered calls. unfold Session.copyFrom.
    induction calls as [|[writes text] calls IH]; intros r0.
    - simpl. rewrite app_nil_r. auto.
    - simpl fold_left.
      destruct (IH (stateOf (CopyQuota.copyTextFrom p rendered writes text r0)))
        as (I1 & I2 & I3 & I4 & I5).
      cbv zeta. rewrite I1, I2, I3, I4, I5, accepted_cons. unfold CopyQuota.copyTextFrom.
      rewrite Hprot. destruct writes; simpl; rewrite <- ?app_assoc; auto. }
  unfold Session.copyAll. revert r.
  induction renders as [|calls renders IH]; intros r.
  - simpl. rewrite app_nil_r. auto.
  - simpl fold_left. simpl List.concat.
    destruct (Hfrom r calls r) as (F1 & F2 & F3 & F4 & F5). cbv zeta in F1, F2, F3, F4, F5.
    destruct (IH (Session.copyFrom p r calls r)) as (I1 & I2 & I3 & I4 & I5).
    rewrite I1, I2, I3, I4, I5, F1, F2, F3, F4, F5, accepted_app, <- app_assoc. auto.
Qed.

Lemma copyText_unprotected_witness :
  clipboard
    (Session.copyAll Annotations.sampleProps [[(true, "one"); (false, "two")]; [(true, "three")]]
       (initialReader ∅))
  = ["one"; "three"].
Proof.
  destruct (copyText_unprotected Annotations.sampleProps
              [[(true, "one"); (false, "two")]; [(true, "three")]] (initialReader ∅))
    as (_ & _ & Hclip & _).
  - reflexivity.
  - exact Hclip.
Defined.

(** ** The counters at the start of a session *)

Lemma key_total_copied (p : Props) :
  Session.STORAGE_KEY_TOTAL_CHARS p <> STORAGE_KEY_COPIED_CHARS p.
Proof. unfold Session.STORAGE_KEY_TOTAL_CHARS, STORAGE_KEY_COPIED_CHARS. simpl. discriminate. Qed.

Lemma length_append (s1 s2 : string) :
  String.length (s1 ++ s2) = (String.length s1 + String.length s2)%nat.
Proof. induction s1 as [|c s1 IH]; simpl; [reflexivity | rewrite IH; reflexivity]. Qed.

Lemma length_join (texts : list string) :
  String.length (String.concat EmptyString texts) = list_sum (map String.length texts).
Proof.
  induction texts as [|t texts IH]; [reflexivity|].
  destruct texts as [|t' texts].
  - simpl. lia.
  - change (String.concat EmptyString (t :: t' :: texts))
      with (t ++ EmptyString ++ String.concat EmptyString (t' :: texts))%string.
    rewrite !length_append, IH. reflexivity.
Qed.

(** X13. In protected mode the first session on a book (no total stored)
    loads every chapter, takes as total the sum of the lengths of the
    chapter texts and stores it; when a chapter does not load the
    initialisation fails there and neither counter is set.  A session
    that finds a stored total uses it and loads no chapter: the result is
    the same whatever the chapters hold or whether they load, and the
    stored total is not rewritten. *)
Theorem restoreCounters_total (p : Props) (bodies : list (option string)) (r : Reader) :
  isCopyProtected p = true ->
  (localStorage r !! Session.STORAGE_KEY_TOTAL_CHARS p = None ->
     (forall texts, Session.allLoaded bodies = Some texts ->
        let r' := Session.startedState (Session.restoreCounters p bodies r) in
        totalBookChars r' = Session.charsOf texts
        /\ localStorage r' !! Session.STORAGE_KEY_TOTAL_CHARS p
           = Some (JNumber (Session.charsOf texts)))
     /\ (Session.allLoaded bodies = None ->
           Session.restoreCounters p bodies r = Session.Failed Session.LoadFailed r))
  /\ (forall n, localStorage r !! Session.STORAGE_KEY_TOTAL_CHARS p = Some (JNumber n) ->
        let r' := Session.startedState (Session.restoreCounters p bodies r) in
        totalBookChars r' = n /\ localStorage r' = localStorage r
        /\ forall bodies',
             Session.restoreCounters p bodies' r = Session.restoreCounters p bodies r).
Proof.
  intros Hprot. unfold Session.restoreCounters. rewrite Hprot. simpl negb. cbv iota.
  split.
  - intros Hnone. rewrite Hnone. simpl Persistence.truthy. cbv iota. split.
    + intros texts Hall. rewrite Hall. cbv iota beta zeta.
      set (total := Z.of_nat (String.length (String.concat EmptyString texts))).
      assert (Ht : total = Session.charsOf texts)
        by (unfold total, Session.charsOf; rewrite length_join; reflexivity).
      destruct (Persistence.truthy _) as [[n| | | |raw]|]; simpl; rewrite <- Ht;
        (split; [reflexivity | apply lookup_insert_eq]).
    + intros Hall. rewrite Hall. reflexivity.
  - intros n Hn. rewrite Hn. simpl Persistence.truthy. cbv iota. simpl localStorage.
    destruct (Persistence.truthy _) as [[m| | | |raw]|]; simpl; auto.
Qed.

Lemma restoreCounters_total_witness :
  totalBookChars
    (Session.startedState
       (Session.restoreCounters CopyQuota.scenarioProps
          [Some (CopyQuota.chars 100); Some (CopyQuota.chars 300)] (initialReader ∅)))
  = 400.
Proof.
  destruct (restoreCounters_total CopyQuota.scenarioProps
              [Some (CopyQuota.chars 100); Some (CopyQuota.chars 300)] (initialReader ∅))
    as [Hfirst _].
  - reflexivity.
  - destruct Hfirst as [Hsum _]; [vm_compute; reflexivity|].
    destruct (Hsum [CopyQuota.chars 100; CopyQuota.chars 300]) as [Htotal _];
      [reflexivity|].
    rewrite Htotal. vm_compute. reflexivity.
Defined.

(** The storage keeps the counters: the total under its key, and the
    copied characters under theirs once a copy was counted. *)
Lemma copyFrom_storage (p : Props) (rendered : Reader) (calls : list (bool * string))
    (r : Reader) :
  isCopyProtected p = true ->
  let r' := Session.copyFrom p rendered calls r in
  localStorage r' !! Session.STORAGE_KEY_TOTAL_CHARS p
  = localStorage r !! Session.STORAGE_KEY_TOTAL_CHARS p
  /\ totalBookChars r' = totalBookChars r
  /\ ((localStorage r' !! STORAGE_KEY_COPIED_CHARS p
       = localStorage r !! STORAGE_KEY_COPIED_CHARS p /\ copiedChars r' = copiedChars r)
      \/ localStorage r' !! STORAGE_KEY_COPIED_CHARS p = Some (JNumber (copiedChars r'))).
Proof.
  intros Hprot. unfold Session.copyFrom. revert r.
  induction calls as [|[writes text] calls IH]; intros r; simpl.
  - auto.
  - set (r1 := stateOf (CopyQuota.copyTextFrom p rendered writes text r)).
    destruct (IH r1) as (I1 & I2 & I3). rewrite I1, I2.
    assert (Hstep : localStorage r1 !! Session.STORAGE_KEY_TOTAL_CHARS p
                    = localStorage r !! Session.STORAGE_KEY_TOTAL_CHARS p
                    /\ totalBookChars r1 = totalBookChars r
                    /\ ((localStorage r1 = localStorage r /\ copiedChars r1 = copiedChars r)
                        \/ localStorage r1 !! STORAGE_KEY_COPIED_CHARS p
                           = Some (JNumber (copiedChars r1)))).
    { unfold r1, CopyQuota.copyTextFrom. rewrite Hprot. simpl negb. cbv iota.
      destruct (CopyQuota.exceeds rendered text); [simpl; auto|].
      destruct writes; simpl; [|auto].
      split; [|split; [reflexivity|right; apply lookup_insert_eq]].
      apply lookup_insert_ne. intros E. symmetry in E. exact (key_total_copied p E). }
    destruct Hstep as (S1 & S2 & S3). split; [exact S1|]. split; [exact S2|].
    destruct I3 as [[I3 I4] | I3]; [|right; exact I3].
    destruct S3 as [[S3 S4] | S3].
    + left. rewrite I3, I4, S3, S4. auto.
    + right. rewrite I3, I4. exact S3.
Qed.

Lemma copyAll_storage (p : Props) (renders : list (list (bool * string))) (r : Reader) :
  isCopyProtected p = true ->
  let r' := Session.copyAll p renders r in
  localStorage r' !! Session.STORAGE_KEY_TOTAL_CHARS p
  = localStorage r !! Session.STORAGE_KEY_TOTAL_CHARS p
  /\ totalBookChars r' = totalBookChars r
  /\ ((localStorage r' !! STORAGE_KEY_COPIED_CHARS p
       = localStorage r !! STORAGE_KEY_COPIED_CHARS p /\ copiedChars r' = copiedChars r)
      \/ localStorage r' !! STORAGE_KEY_COPIED_CHARS p = Some (JNumber (copiedChars r'))).
Proof.
  intros Hprot. unfold Session.copyAll. revert r.
  induction renders as [|calls renders IH]; intros r; simpl; [auto|].
  destruct (copyFrom_storage p r calls r Hprot) as (S1 & S2 & S3).
  cbv zeta in S1, S2, S3.
  destruct (IH (Session.copyFrom p r calls r)) as (I1 & I2 & I3).
  rewrite I1, I2. split; [exact S1|]. split; [exact S2|].
  destruct I3 as [[I3 I4] | I3]; [|right; exact I3].
  destruct S3 as [[S3 S4] | S3].
  - left. rewrite I3, I4, S3, S4. auto.
  - right. rewrite I3, I4. exact S3.
Qed.

(** X14. The quota outlives the session.  A protected session that starts
    on a storage without counters, counts the book and serves any series
    of [copyText] calls, from whatever renders, leaves a storage from which
    the next session restores the same total and the same number of copied
    characters, whatever the chapters hold then and whether or not they
    load. *)
Theorem counters_survive_reload (p : Props) (bodies bodies' : list (option string))
    (texts : list string) (renders : list (list (bool * string)))
    (storage : gmap string Json) :
  isCopyProtected p = true ->
  storage !! Session.STORAGE_KEY_TOTAL_CHARS p = None ->
  storage !! STORAGE_KEY_COPIED_CHARS p = None ->
  Session.allLoaded bodies = Some texts ->
  exists r1 r3,
    Session.restoreCounters p bodies (initialReader storage) = Session.Ready r1
    /\ Session.restoreCounters p bodies'
         (Store.reopened (Session.copyAll p renders r1)) = Session.Ready r3
    /\ totalBookChars r3 = Session.charsOf texts
    /\ totalBookChars r3 = totalBookChars (Session.copyAll p renders r1)
    /\ copiedChars r3 = copiedChars (Session.copyAll p renders r1).
Proof.
  intros Hprot Htotal Hcopied Hall.
  set (total := Session.charsOf texts).
  set (r1 := setItem (Session.STORAGE_KEY_TOTAL_CHARS p) (JNumber total)
               (setTotalBookChars total (initialReader storage))).
  assert (H1 : Session.restoreCounters p bodies (initialReader storage) = Session.Ready r1).
  { unfold Session.restoreCounters. rewrite Hprot. simpl negb. cbv iota.
    simpl localStorage at 1. rewrite Htotal. simpl Persistence.truthy. cbv iota.
    rewrite Hall. cbv iota beta zeta. rewrite length_join. fold (Session.charsOf texts).
    fold total. fold r1.
    assert (Hc : localStorage r1 !! STORAGE_KEY_COPIED_CHARS p = None).
    { unfold r1. simpl. rewrite lookup_insert_ne; [exact Hcopied | apply key_total_copied]. }
    rewrite Hc. reflexivity. }
  exists r1.
  destruct (copyAll_storage p renders r1 Hprot) as (K1 & K2 & K3).
  set (r2 := Session.copyAll p renders r1) in *.
  assert (Kt : localStorage r2 !! Session.STORAGE_KEY_TOTAL_CHARS p = Some (JNumber total)).
  { rewrite K1. unfold r1. simpl. apply lookup_insert_eq. }
  assert (K2' : totalBookChars r2 = total) by (rewrite K2; reflexivity).
  assert (H3 : exists r3,
            Session.restoreCounters p bodies' (Store.reopened r2) = Session.Ready r3
            /\ totalBookChars r3 = total /\ copiedChars r3 = copiedChars r2).
  { unfold Session.restoreCounters. rewrite Hprot. simpl negb. cbv iota.
    unfold Store.reopened. simpl localStorage at 1. rewrite Kt. simpl Persistence.truthy.
    cbv iota. simpl localStorage.
    destruct K3 as [[K3 K4] | K3].
    - assert (Hc : localStorage r2 !! STORAGE_KEY_COPIED_CHARS p = None).
      { rewrite K3. unfold r1. simpl.
        rewrite lookup_insert_ne; [exact Hcopied | apply key_total_copied]. }
      rewrite Hc. simpl. eexists. split; [reflexivity|]. simpl. rewrite K4. auto.
    - rewrite K3. simpl. eexists. split; [reflexivity|]. simpl. auto. }
  destruct H3 as (r3 & H3 & H4 & H5). exists r3.
  split; [exact H1|]. split; [exact H3|]. split; [exact H4|]. split; [congruence|exact H5].
Qed.

Lemma counters_survive_reload_witness :
  exists r1 r3,
    Session.restoreCounters CopyQuota.scenarioProps
      [Some (CopyQuota.chars 100); Some (CopyQuota.chars 300)] (initialReader ∅)
    = Session.Ready r1
    /\ Session.restoreCounters CopyQuota.scenarioProps [None]
         (Store.reopened
            (Session.copyAll CopyQuota.scenarioProps [[(true, CopyQuota.chars 30); (true, CopyQuota.chars 30)]] r1))
       = Session.Ready r3
    /\ totalBookChars r3
       = Session.charsOf [CopyQuota.chars 100; CopyQuota.chars 300]
    /\ totalBookChars r3
       = totalBookChars
           (Session.copyAll CopyQuota.scenarioProps [[(true, CopyQuota.chars 30); (true, CopyQuota.chars 30)]] r1)
    /\ copiedChars r3
       = copiedChars
           (Session.copyAll CopyQuota.scenarioProps [[(true, CopyQuota.chars 30); (true, CopyQuota.chars 30)]] r1).
Proof.
  apply (counters_survive_reload CopyQuota.scenarioProps
           [Some (CopyQuota.chars 100); Some (CopyQuota.chars 300)] [None]
           [CopyQuota.chars 100; CopyQuota.chars 300]
           [[(true, CopyQuota.chars 30); (true, CopyQuota.chars 30)]] ∅).
  - reflexivity.
  - vm_compute. reflexivity.
  - vm_compute. reflexivity.
  - reflexivity.
Defined.

(** ** What a search result points at *)

Lemma append_empty (t : string) : (t ++ EmptyString)%string = t.
Proof.
  induction t as [|c t IH]; [reflexivity|].
  change (String c (t ++ EmptyString)%string = String c t). rewrite IH. reflexivity.
Qed.


Lemma join_cons (t : string) (texts : list string) :
  String.concat EmptyString (t :: texts) = (t ++ String.concat EmptyString texts)%string.
Proof.
  destruct texts as [|t' texts]; [|reflexivity].
  simpl. symmetry. apply append_empty.
Qed.





(** On texts in ASCII the lower case keeps every character in place. *)
Lemma asciiLowerCase_substring (s : string) (n m : nat) :
  Search.asciiLowerCase (String.substring n m s)
  = String.substring n m (Search.asciiLowerCase s).
Proof.
  revert n m. induction s as [|c s IH]; intros n m.
  - destruct n, m; reflexivity.
  - destruct n as [|n]; simpl.
    + destruct m as [|m]; [reflexivity|]. simpl. rewrite IH. reflexivity.
    + apply IH.
Qed.

(** The walk of lines 570-579, started at any node index. *)
Lemma locate_from (textNodes : list string) (k pos : nat) :
  exists i offset,
    Search.locate textNodes k pos = ((k + i)%nat, offset)
    /\ pos = (String.length (String.concat EmptyString (take i textNodes)) + offset)%nat
    /\ (forall nodeText, textNodes !! i = Some nodeText ->
          (offset < String.length nodeText)%nat
          /\ String.get offset nodeText
             = String.get pos (String.concat EmptyString textNodes))
    /\ (textNodes !! i = None <->
        (String.length (String.concat EmptyString textNodes) <= pos)%nat).
Proof.
  revert k pos. induction textNodes as [|t rest IH]; intros k pos.
  - exists 0%nat, pos. simpl. rewrite Nat.add_0_r. split; [reflexivity|].
    split; [reflexivity|]. split; [intros nodeText H; discriminate|]. split; [lia|reflexivity].
  - simpl Search.locate. destruct (pos <? String.length t)%nat eqn:Hlt.
    + apply Nat.ltb_lt in Hlt. exists 0%nat, pos. rewrite Nat.add_0_r.
      split; [reflexivity|]. split; [reflexivity|]. split.
      * intros nodeText H. injection H as <-. split; [exact Hlt|].
        rewrite join_cons. apply String.append_correct1. exact Hlt.
      * rewrite join_cons, length_append. split; [discriminate | lia].
    + apply Nat.ltb_ge in Hlt.
      destruct (IH (S k) (pos - String.length t)%nat) as (i & offset & H1 & H2 & H3 & H4).
      exists (S i), offset. rewrite H1, Nat.add_succ_r. split; [reflexivity|].
      split; [|split].
      * change (take (S i) (t :: rest)) with (t :: take i rest).
        rewrite join_cons, length_append. lia.
      * intros nodeText H. destruct (H3 nodeText H) as [H5 H6]. split; [exact H5|].
        rewrite H6, join_cons.
        rewrite (String.append_correct2 t (String.concat EmptyString rest)
                   (pos - String.length t)).
        f_equal. lia.
      * change ((t :: rest) !! S i) with (rest !! i). rewrite H4, join_cons, length_append.
        lia.
Qed.

(** X15. The walk over the text nodes finds the node that holds
    character [pos] of the joined text: the offset it leaves is the
    position minus the lengths of the nodes before; when the walk stops
    at a node the offset lies inside it and names the same character as
    [pos] in the joined text; and it runs off the end exactly when the
    position is not inside the text. *)
Theorem locate_finds (textNodes : list string) (pos : nat) :
  let nodeIndex := fst (Search.locate textNodes 0 pos) in
  let offset := snd (Search.locate textNodes 0 pos) in
  pos = (String.length (String.concat EmptyString (take nodeIndex textNodes)) + offset)%nat
  /\ (forall nodeText, textNodes !! nodeIndex = Some nodeText ->
        (offset < String.length nodeText)%nat
        /\ String.get offset nodeText
           = String.get pos (String.concat EmptyString textNodes))
  /\ (textNodes !! nodeIndex = None <->
      (String.length (String.concat EmptyString textNodes) <= pos)%nat).
Proof.
  destruct (locate_from textNodes 0 pos) as (i & offset & H1 & H2 & H3 & H4).
  rewrite H1. simpl. auto.
Qed.




(** ** The search box *)

Lemma withRendition_results (p : Props) (f : Reader -> Reader) (r : Reader) :
  (forall r0, searchResults (f r0) = searchResults r0) ->
  searchResults (withRendition p f r) = searchResults r.
Proof. intros Hf. unfold withRendition. destruct (hasRendition p); auto. Qed.

Lemma goToSearchResult_indexed (p : Props) (index : Z) (r : Reader) :
  SearchBox.wellIndexed r -> SearchBox.wellIndexed (Navigation.goToSearchResult p index r).
Proof.
  intros Hr. unfold Navigation.goToSearchResult.
  destruct ((0 <=? index) && (index <? Z.of_nat (length (searchResults r)))) eqn:Hb;
    [|exact Hr].
  destruct (searchResults r !! Z.to_nat index) as [result|]; [|exact Hr].
  right. simpl. rewrite withRendition_results by reflexivity.
  apply andb_true_iff in Hb. destruct Hb as [H0 H1]. lia.
Qed.

Lemma searchBook_indexed {engine : Search.Engine} (book : option Search.Book)
    (spine : option (list Search.SpineItem))
    (schedule : list nat) (query : string) (r : Reader) :
  SearchBox.wellIndexed (Search.searchBook book spine schedule query r).
Proof.
  unfold Search.searchBook.
  destruct book as [b|]; [|left; split; reflexivity].
  destruct spine as [items|]; [|left; split; reflexivity].
  destruct (String.eqb query EmptyString); [left; split; reflexivity|].
  destruct (String.eqb (Search.toLowerCase (Search.trim query)) EmptyString);
    [left; split; reflexivity|].
  destruct (length items =? 0)%nat; [left; split; reflexivity|].
  cbv zeta. set (results := Search.interleave _ _ _).
  destruct results as [|res results]; [left; split; reflexivity|].
  right. cbn. lia.
Qed.

Lemma handle_indexed {engine : Search.Engine} (p : Props) (r : Reader)
    (e : SearchBox.Event) :
  SearchBox.wellIndexed r -> SearchBox.wellIndexed (SearchBox.handle p r e).
Proof.
  intros Hr. destruct e as [book spine schedule query | index]; simpl.
  - unfold SearchBox.searchEffect.
    destruct (String.length (Search.trim query) =? 0)%nat; [left; split; reflexivity|].
    destruct (3 <=? String.length query)%nat; [apply searchBook_indexed | exact Hr].
  - apply goToSearchResult_indexed. exact Hr.
Qed.

(** X17. Whatever is typed in the search box and whichever results are
    picked, with whatever index, the current index stays in step with the
    result list: it is [-1] exactly when the list is empty, and otherwise
    it is the index of a result of the list. *)
Theorem search_index_in_step {engine : Search.Engine} (p : Props)
    (events : list SearchBox.Event) (r : Reader) :
  SearchBox.wellIndexed r ->
  let r' := SearchBox.run p events r in
  SearchBox.wellIndexed r'
  /\ (currentSearchResultIndex r' = -1 <-> searchResults r' = [])
  /\ (searchResults r' <> [] ->
      exists result,
        searchResults r' !! Z.to_nat (currentSearchResultIndex r') = Some result
        /\ 0 <= currentSearchResultIndex r').
Proof.
  intros Hr r'.
  assert (Hw : SearchBox.wellIndexed r').
  { subst r'. unfold SearchBox.run. revert r Hr.
    induction events as [|e events IH]; intros r Hr; simpl; [exact Hr|].
    apply IH, handle_indexed, Hr. }
  split; [exact Hw|]. destruct Hw as [[Hnil Hidx] | Hin].
  - split; [split; auto|]. intros Hne. contradiction.
  - split.
    + split; [lia|]. intros Hnil. rewrite Hnil in Hin. simpl in Hin. lia.
    + intros _.
      destruct (lookup_lt_is_Some_2 (searchResults r') (Z.to_nat (currentSearchResultIndex r')))
        as [result Hres]; [lia|].
      exists result. split; [exact Hres | lia].
Qed.

Lemma search_index_in_step_witness :
  SearchBox.wellIndexed
    (@SearchBox.run Search.asciiEngine Annotations.sampleProps
       [SearchBox.Typed (Some Search.sampleBook) (Some Search.twoChapters) [1%nat] "cat";
        SearchBox.Picked 2; SearchBox.Picked 7;
        SearchBox.Typed (Some Search.sampleBook) (Some Search.twoChapters) [] "ca"]
       (initialReader ∅)).
Proof.
  apply (@search_index_in_step Search.asciiEngine Annotations.sampleProps
           [SearchBox.Typed (Some Search.sampleBook) (Some Search.twoChapters) [1%nat] "cat";
            SearchBox.Picked 2; SearchBox.Picked 7;
            SearchBox.Typed (Some Search.sampleBook) (Some Search.twoChapters) [] "ca"]
           (initialReader ∅)).
  left. split; reflexivity.
Defined.

Lemma length_zero (s : string) : (String.length s =? 0)%nat = String.eqb s EmptyString.
Proof. destruct s; reflexivity. Qed.

(** X18. [searchBook] raises the searching flag first and lowers it only
    at the end of a search that ran: called without a book, without a
    spine, on an empty spine or with a query that is empty or blank, it
    publishes no results and index [-1] and leaves the flag raised.  The
    search-box effect clears the results of a blank query itself, without
    touching the flag, keeps the results of a query shorter than three
    characters as they are, and otherwise calls [searchBook]; with a book
    and a non-empty spine it never leaves the flag raised. *)
Theorem searchBook_flag {engine : Search.Engine} (book : option Search.Book)
    (spine : option (list Search.SpineItem)) (schedule : list nat) (query : string)
    (r : Reader) :
  let r' := Search.searchBook book spine schedule query r in
  let viaEffect := SearchBox.searchEffect book spine schedule query r in
  (book = None \/ spine = None \/ spine = Some [] \/ Search.trim query = EmptyString ->
     isSearching r' = true /\ searchResults r' = [] /\ currentSearchResultIndex r' = -1)
  /\ (forall b items,
        book = Some b -> spine = Some items -> items <> [] ->
        Search.trim query <> EmptyString ->
        isSearching r' = false
        /\ searchResults r'
           = Search.interleave schedule
               (imap (Search.scanChapter b (Search.toLowerCase (Search.trim query))) items) []
        /\ (viaEffect = r' \/ viaEffect = r)
        /\ ((3 <= String.length query)%nat -> viaEffect = r')
        /\ ((String.length query < 3)%nat -> viaEffect = r))
  /\ (Search.trim query = EmptyString ->
        isSearching viaEffect = isSearching r
        /\ searchResults viaEffect = [] /\ currentSearchResultIndex viaEffect = -1).
Proof.
  intros r' viaEffect. subst r' viaEffect. split; [|split].
  - unfold Search.searchBook.
    intros [-> | [-> | [-> | Hblank]]].
    + destruct spine; simpl; auto.
    + destruct book; simpl; auto.
    + destruct book; [|simpl; auto].
      destruct (String.eqb query EmptyString); [simpl; auto|].
      destruct (String.eqb (Search.toLowerCase (Search.trim query)) EmptyString);
        simpl; auto.
    + destruct book; [|simpl; auto]. destruct spine; [|simpl; auto].
      destruct (String.eqb query EmptyString); [simpl; auto|].
      rewrite Hblank, (proj2 (Search.toLowerCase_empty EmptyString) eq_refl). simpl. auto.
  - intros b items -> -> Hitems Hquery.
    assert (Hq : String.eqb query EmptyString = false).
    { apply String.eqb_neq. intros ->. apply Hquery. reflexivity. }
    assert (Ht : String.eqb (Search.toLowerCase (Search.trim query)) EmptyString = false).
    { apply String.eqb_neq. intros H. exact (Hquery (proj1 (Search.toLowerCase_empty _) H)). }
    assert (Hl : (length items =? 0)%nat = false).
    { destruct items; [contradiction | reflexivity]. }
    assert (Hn : (String.length (Search.trim query) =? 0)%nat = false).
    { rewrite length_zero. apply String.eqb_neq. exact Hquery. }
    unfold SearchBox.searchEffect. rewrite Hn.
    unfold Search.searchBook. rewrite Hq, Ht, Hl. cbv zeta.
    split; [reflexivity|]. split; [reflexivity|].
    destruct (3 <=? String.length query)%nat eqn:H3.
    + split; [left; reflexivity|]. split; [reflexivity|].
      apply Nat.leb_le in H3. lia.
    + split; [right; reflexivity|]. split; [|reflexivity].
      apply Nat.leb_gt in H3. lia.
  - intros Hblank. unfold SearchBox.searchEffect. rewrite Hblank. simpl. auto.
Qed.

Lemma searchBook_flag_witness :
  isSearching
    (@Search.searchBook Search.asciiEngine (Some Search.sampleBook)
       (Some Search.twoChapters) [] "   " (initialReader ∅))
  = true.
Proof.
  destruct (@searchBook_flag Search.asciiEngine (Some Search.sampleBook)
              (Some Search.twoChapters) [] "   " (initialReader ∅)) as [Hstuck _].
  destruct Hstuck as [Hflag _]; [right; right; right; reflexivity|].
  exact Hflag.
Defined.

(** ** The overlays of the search results *)

Lemma annotate_fold {A} (cmd : A -> OverlayCmd) (l : list A) (r : Reader) :
  overlay (fold_left (fun acc x => annotate (cmd x) acc) l r) = overlay r ++ map cmd l
  /\ searchResults (fold_left (fun acc x => annotate (cmd x) acc) l r) = searchResults r.
Proof.
  revert r. induction l as [|x l IH]; intros r; simpl.
  - rewrite app_nil_r. auto.
  - destruct (IH (annotate (cmd x) r)) as [I1 I2]. rewrite I1, I2. simpl.
    rewrite <- app_assoc. auto.
Qed.

Lemma drawn_app (cfi : string) (l1 l2 : list OverlayCmd) :
  SearchOverlay.drawn cfi (l1 ++ l2)
  = (SearchOverlay.drawn cfi l1 + SearchOverlay.drawn cfi l2)%nat.
Proof. unfold SearchOverlay.drawn. rewrite List.filter_app, length_app. reflexivity. Qed.

Lemma removed_app (cfi : string) (l1 l2 : list OverlayCmd) :
  SearchOverlay.removed cfi (l1 ++ l2)
  = (SearchOverlay.removed cfi l1 + SearchOverlay.removed cfi l2)%nat.
Proof. unfold SearchOverlay.removed. rewrite List.filter_app, length_app. reflexivity. Qed.

Lemma counts_of_removals (cfi : string) (cfis : list string) :
  SearchOverlay.drawn cfi (map (fun c => AnnotRemove c highlight) cfis) = 0%nat
  /\ SearchOverlay.removed cfi (map (fun c => AnnotRemove c highlight) cfis)
     = SearchOverlay.times cfi cfis.
Proof.
  unfold SearchOverlay.drawn, SearchOverlay.removed, SearchOverlay.times.
  induction cfis as [|c cfis [IH1 IH2]]; simpl; [auto|].
  split; [exact IH1|]. rewrite (String.eqb_sym c cfi).
  destruct (String.eqb cfi c); simpl; rewrite IH2; reflexivity.
Qed.

Lemma counts_of_additions (cfi : string) (results : list SearchResult) :
  SearchOverlay.drawn cfi
    (map (fun res => AnnotAdd highlight (sr_cfi res) (Some "epub-search-highlight") "red")
       results)
  = SearchOverlay.times cfi (map sr_cfi results)
  /\ SearchOverlay.removed cfi
       (map (fun res => AnnotAdd highlight (sr_cfi res) (Some "epub-search-highlight") "red")
          results)
     = 0%nat.
Proof.
  unfold SearchOverlay.drawn, SearchOverlay.removed, SearchOverlay.times.
  induction results as [|res results [IH1 IH2]]; simpl; [auto|].
  split; [|exact IH2]. rewrite (String.eqb_sym (sr_cfi res) cfi).
  destruct (String.eqb cfi (sr_cfi res)); simpl; rewrite IH1; reflexivity.
Qed.

Lemma last_cons {A} (l : list A) (a d : A) : List.last (a :: l) d = List.last l a.
Proof.
  revert a d. induction l as [|b l IH]; intros a d; [reflexivity|].
  change (List.last (a :: b :: l) d) with (List.last (b :: l) d).
  rewrite !IH. reflexivity.
Qed.

(** One run of the effect with a rendition. *)
Lemma publish_step (p : Props) (state : list string * Reader) (results : list SearchResult)
    (cfi : string) :
  hasRendition p = true ->
  let state' := SearchOverlay.publish p state results in
  fst state' = map sr_cfi results
  /\ searchResults (snd state') = results
  /\ (SearchOverlay.drawn cfi (overlay (snd state'))
      = SearchOverlay.drawn cfi (overlay (snd state))
        + SearchOverlay.times cfi (map sr_cfi results))%nat
  /\ (SearchOverlay.removed cfi (overlay (snd state'))
      = SearchOverlay.removed cfi (overlay (snd state))
        + SearchOverlay.times cfi (fst state))%nat.
Proof.
  intros Hr. unfold SearchOverlay.publish, SearchOverlay.highlightSearchResults.
  rewrite Hr. simpl negb. cbv iota zeta. simpl fst. simpl snd.
  change (searchResults (setSearchResults results (snd state))) with results.
  set (r1 := fold_left _ (fst state) _).
  destruct (annotate_fold
              (fun res => AnnotAdd highlight (sr_cfi res) (Some "epub-search-highlight") "red")
              results r1) as [A1 A2].
  destruct (annotate_fold (fun c => AnnotRemove c highlight) (fst state)
              (setSearchResults results (snd state))) as [B1 B2].
  fold r1 in B1, B2. rewrite A1, A2, B1, B2.
  change (overlay (setSearchResults results (snd state))) with (overlay (snd state)).
  destruct (counts_of_removals cfi (fst state)) as [C1 C2].
  destruct (counts_of_additions cfi results) as [D1 D2].
  rewrite !drawn_app, !removed_app, C1, C2, D1, D2.
  split; [reflexivity|]. split; [reflexivity|]. lia.
Qed.

(** X19. With a rendition, however often the result list is replaced,
    the search overlays do not pile up: for every position, the overlays
    drawn for results since the start are as many as the removals sent
    since, plus the occurrences of the position in the last result list,
    less those that stood at the start.  The positions remembered for the
    next removal are those of the last list published.  Without a
    rendition the effect does nothing at all. *)
Theorem search_overlays_balance (p : Props) (sets : list (list SearchResult))
    (previous : list string) (r : Reader) (cfi : string) :
  let state' := SearchOverlay.publishAll p sets (previous, r) in
  (hasRendition p = true ->
     (SearchOverlay.drawn cfi (overlay (snd state'))
      + SearchOverlay.removed cfi (overlay r)
      + SearchOverlay.times cfi previous
      = SearchOverlay.drawn cfi (overlay r)
        + SearchOverlay.removed cfi (overlay (snd state'))
        + SearchOverlay.times cfi (fst state'))%nat
     /\ fst state' = List.last (map (map sr_cfi) sets) previous
     /\ searchResults (snd state') = List.last sets (searchResults r))
  /\ (hasRendition p = false ->
        fst state' = previous /\ overlay (snd state') = overlay r).
Proof.
  unfold SearchOverlay.publishAll. split.
  - intros Hr. revert previous r.
    induction sets as [|results sets IH]; intros previous r.
    + simpl. split; [lia | auto].
    + simpl fold_left.
      destruct (publish_step p (previous, r) results cfi Hr) as (S1 & S2 & S3 & S4).
      cbv zeta in S1, S2, S3, S4. simpl fst in S4. simpl snd in S3, S4.
      destruct (SearchOverlay.publish p (previous, r) results) as [previous1 r1] eqn:Hp.
      simpl in S1, S2, S3, S4. subst previous1.
      destruct (IH (map sr_cfi results) r1) as (I1 & I2 & I3).
      split; [lia|]. rewrite I2, I3, S2, map_cons, !last_cons. auto.
  - intros Hr. revert previous r.
    induction sets as [|results sets IH]; intros previous r; [simpl; auto|].
    simpl fold_left.
    assert (Hp : SearchOverlay.publish p (previous, r) results
                 = (previous, setSearchResults results r)).
    { unfold SearchOverlay.publish, SearchOverlay.highlightSearchResults.
      rewrite Hr. reflexivity. }
    rewrite Hp. destruct (IH previous (setSearchResults results r)) as [I1 I2].
    rewrite I1, I2. auto.
Qed.

Lemma search_overlays_balance_witness :
  fst (SearchOverlay.publishAll Annotations.sampleProps
         [searchResults Navigation.twoResults; []; searchResults Search.secondFirst]
         ([], initialReader ∅))
  = map sr_cfi (searchResults Search.secondFirst).
Proof.
  destruct (search_overlays_balance Annotations.sampleProps
              [searchResults Navigation.twoResults; []; searchResults Search.secondFirst]
              [] (initialReader ∅) EmptyString) as [Hwith _].
  destruct Hwith as (_ & Hprev & _); [reflexivity|].
  exact Hprev.
Defined.

(** ** Clicks on the page *)

Lemma find_first {A} (f : A -> bool) (l : list A) (x : A) :
  List.find f l = Some x ->
  f x = true /\ exists before after,
    l = before ++ x :: after /\ forall y, In y before -> f y = false.
Proof.
  induction l as [|a l IH]; simpl; [discriminate|].
  destruct (f a) eqn:Ha.
  - intros H. injection H as <-. split; [exact Ha|].
    exists [], l. split; [reflexivity | intros y []].
  - intros H. destruct (IH H) as (Hx & before & after & -> & Hb). split; [exact Hx|].
    exists (a :: before), after. split; [reflexivity|].
    intros y [<- | Hy]; [exact Ha | apply Hb, Hy].
Qed.

Lemma find_missing {A} (f : A -> bool) (l : list A) :
  List.find f l = None <-> forall y, In y l -> f y = false.
Proof.
  split; [apply List.find_none|].
  induction l as [|a l IH]; intros H; simpl; [reflexivity|].
  rewrite (H a (or_introl eq_refl)). apply IH. intros y Hy. apply H. right. exact Hy.
Qed.

Lemma inside_spec (x y : Q) (rect : Clicks.Rect) :
  Clicks.inside x y rect = true
  <-> (Clicks.left rect <= x /\ x <= Clicks.right rect
       /\ Clicks.top rect <= y /\ y <= Clicks.bottom rect)%Q.
Proof.
  unfold Clicks.inside, Clicks.Qgeb. rewrite !andb_true_iff, !Qle_bool_iff. tauto.
Qed.

(** X20. A click looks at the notes first and at the highlights only
    when no note is under the point.  An annotation is under the point
    when the point lies in one of the client rectangles of its range,
    borders included; an annotation whose range is missing or cannot be
    computed is passed over.  The click opens the first note under the
    point, in the order of the collection, and otherwise marks the first
    highlight under the point.  The highlight marked by an earlier click
    is always forgotten, the note being edited stays when no note is hit,
    and the selection is dropped unless text is still selected. *)
Theorem handleClick_priority (getRange : string -> Clicks.RangeAnswer) (selected : bool)
    (x y : Q) (r : Reader) (c : Clicks.Cells) :
  let c' := Clicks.handleClick getRange selected x y r c in
  let under cfi := Clicks.hit getRange x y cfi = true in
  (forall cfi, under cfi <->
     exists rects rect, getRange cfi = Clicks.ClientRects rects /\ In rect rects
       /\ (Clicks.left rect <= x /\ x <= Clicks.right rect
           /\ Clicks.top rect <= y /\ y <= Clicks.bottom rect)%Q)
  /\ Clicks.selection c' = (if selected then Clicks.selection c else None)
  /\ ((exists n, In n (notes r) /\ under (n_cfi n)) ->
      Clicks.clickedHighlight c' = None
      /\ exists note before after,
           Clicks.editingNote c' = Some note /\ under (n_cfi note)
           /\ notes r = before ++ note :: after
           /\ forall n, In n before -> ~ under (n_cfi n))
  /\ ((forall n, In n (notes r) -> ~ under (n_cfi n)) ->
      Clicks.editingNote c' = Clicks.editingNote c
      /\ ((exists h, In h (highlights r) /\ under (h_cfi h)) ->
          exists h before after,
            Clicks.clickedHighlight c' = Some h /\ under (h_cfi h)
            /\ highlights r = before ++ h :: after
            /\ forall h0, In h0 before -> ~ under (h_cfi h0))
      /\ ((forall h, In h (highlights r) -> ~ under (h_cfi h)) ->
          Clicks.clickedHighlight c' = None)).
Proof.
  intros c' under. subst c' under. cbv beta.
  split; [|split; [|split]].
  - intros cfi. unfold Clicks.hit.
    destruct (getRange cfi) as [| |rects] eqn:Hr.
    + split; [discriminate | intros (rects & rect & H & _); discriminate].
    + split; [discriminate | intros (rects & rect & H & _); discriminate].
    + rewrite existsb_exists. split.
      * intros (rect & Hin & Hi). exists rects, rect. split; [reflexivity|].
        split; [exact Hin | apply inside_spec, Hi].
      * intros (rects0 & rect & H & Hin & Hi). injection H as <-.
        exists rect. split; [exact Hin | apply inside_spec, Hi].
  - unfold Clicks.handleClick.
    destruct (List.find _ (notes r)); [destruct selected; reflexivity|].
    destruct (List.find _ (highlights r)); destruct selected; reflexivity.
  - intros (n & Hin & Hn). unfold Clicks.handleClick.
    destruct (List.find (fun n0 => Clicks.hit getRange x y (n_cfi n0)) (notes r))
      as [note|] eqn:Hf.
    + simpl. split; [reflexivity|].
      destruct (find_first _ _ _ Hf) as (Hx & before & after & Hl & Hb).
      exists note, before, after. split; [reflexivity|]. split; [exact Hx|].
      split; [exact Hl|]. intros n0 Hn0 Hu. rewrite (Hb n0 Hn0) in Hu. discriminate.
    + rewrite find_missing in Hf. rewrite (Hf n Hin) in Hn. discriminate.
  - intros Hnone. unfold Clicks.handleClick.
    assert (Hf : List.find (fun n0 => Clicks.hit getRange x y (n_cfi n0)) (notes r) = None).
    { apply find_missing. intros n Hin. specialize (Hnone n Hin).
      destruct (Clicks.hit getRange x y (n_cfi n)); [elim Hnone; reflexivity | reflexivity]. }
    rewrite Hf.
    destruct (List.find (fun h0 => Clicks.hit getRange x y (h_cfi h0)) (highlights r))
      as [h|] eqn:Hh.
    + simpl. split; [destruct selected; reflexivity|]. split.
      * intros _. destruct (find_first _ _ _ Hh) as (Hx & before & after & Hl & Hb).
        exists h, before, after. split; [reflexivity|]. split; [exact Hx|].
        split; [exact Hl|]. intros h0 Hh0 Hu. rewrite (Hb h0 Hh0) in Hu. discriminate.
      * intros Hno. destruct (find_first _ _ _ Hh) as (Hx & before & after & Hl & _).
        elim (Hno h); [rewrite Hl; apply in_elt | exact Hx].
    + simpl. split; [destruct selected; reflexivity|]. split; [|reflexivity].
      intros (h & Hin & Hu). rewrite find_missing in Hh. rewrite (Hh h Hin) in Hu.
      discriminate.
Qed.

Lemma handleClick_priority_witness :
  Clicks.clickedHighlight
    (Clicks.handleClick Clicks.sampleRanges false 50 30 Clicks.samplePage
       (Clicks.mkCells None None (Some Store.underlined)))
  = None.
Proof.
  destruct (handleClick_priority Clicks.sampleRanges false 50 30 Clicks.samplePage
              (Clicks.mkCells None None (Some Store.underlined))) as (_ & _ & Hnote & _).
  destruct Hnote as [Hclicked _]; [|exact Hclicked].
  exists (mkNote "epubcfi(/6/4!/4/2,/1:0,/1:5)" "Hello" "check this"
            "2025-01-01T10:00:00.000Z").
  split; [left; reflexivity | vm_compute; reflexivity].
Defined.

(** ** The text preview *)

Lemma trimStart_head (s : string) :
  Search.trimStart s = EmptyString
  \/ exists c rest, Search.trimStart s = String c rest /\ Search.isSpace c = false.
Proof.
  induction s as [|c s IH]; [left; reflexivity|].
  simpl. destruct (Search.isSpace c) eqn:Hc; [exact IH|].
  right. exists c, s. auto.
Qed.

Lemma trim_head (s : string) :
  Search.trim s = EmptyString
  \/ exists c rest, Search.trim s = String c rest /\ Search.isSpace c = false.
Proof.
  unfold Search.trim. destruct (trimStart_head s) as [-> | (c & rest & -> & Hc)].
  - left. reflexivity.
  - right. exists c, (Search.trimEnd rest). simpl. rewrite Hc. auto.
Qed.

Lemma prefix_substring (s : string) (n : nat) :
  String.prefix (String.substring 0 n s) s = true.
Proof.
  revert n. induction s as [|c s IH]; intros n.
  - destruct n; reflexivity.
  - destruct n as [|n]; [reflexivity|]. simpl.
    destruct (ascii_dec c c) as [_ | Hne]; [apply IH | elim Hne; reflexivity].
Qed.

Lemma substring_head (s : string) (n : nat) (c : ascii) (rest : string) :
  s = String c rest -> String.substring 0 n s <> EmptyString ->
  exists rest', String.substring 0 n s = String c rest'.
Proof.
  intros -> Hne. destruct n as [|n]; [elim Hne; reflexivity|].
  simpl. eexists. reflexivity.
Qed.

(** X21. When [getPreviewText] gives a text, the text is not empty, it
    is a prefix of the trimmed body text of the section in the middle of
    the book, it starts with a character that is not white space, and for
    a character count that is not negative it has at most that many
    characters.  A count of zero, a missing book, section or body text
    give [null]. *)
Theorem getPreviewText_shape (middle : Preview.Middle) (charCount : Z) :
  (forall text, Preview.getPreviewText middle charCount = Some text ->
     text <> EmptyString
     /\ (exists content, middle = Preview.Body (Some content)
           /\ String.prefix text (Search.trim content) = true)
     /\ (exists c rest, text = String c rest /\ Search.isSpace c = false)
     /\ (0 <= charCount -> Z.of_nat (String.length text) <= charCount))
  /\ Preview.getPreviewText middle 0 = None
  /\ ((forall content, middle <> Preview.Body (Some content)) ->
      Preview.getPreviewText middle charCount = None).
Proof.
  split; [|split].
  - intros text. unfold Preview.getPreviewText.
    destruct middle as [| |[content|]]; try discriminate.
    cbv zeta. destruct (String.eqb (Preview.slice0 _ _) EmptyString) eqn:He; [discriminate|].
    intros H. injection H as <-. apply String.eqb_neq in He.
    split; [exact He|]. unfold Preview.slice0 in *.
    split; [exists content; split; [reflexivity|];
            destruct (0 <=? charCount); apply prefix_substring|].
    split.
    + destruct (trim_head content) as [Ht | (c & rest & Ht & Hc)].
      * rewrite Ht in He. elim He. destruct (0 <=? charCount).
        -- destruct (Z.to_nat charCount); reflexivity.
        -- simpl. reflexivity.
      * destruct (0 <=? charCount);
          (destruct (substring_head _ _ c rest Ht He) as [rest' Hr];
           exists c, rest'; split; [exact Hr | exact Hc]).
    + intros Hpos. rewrite (proj2 (Z.leb_le 0 charCount) Hpos).
      rewrite substring_length. lia.
  - unfold Preview.getPreviewText. destruct middle as [| |[content|]]; try reflexivity.
    unfold Preview.slice0. simpl. destruct (Search.trim content); reflexivity.
  - intros Hne. unfold Preview.getPreviewText.
    destruct middle as [| |[content|]]; try reflexivity.
    elim (Hne content). reflexivity.
Qed.

Lemma getPreviewText_shape_witness :
  String.prefix "It was" (Search.trim "  It was a dark night.  ") = true.
Proof.
  destruct (getPreviewText_shape (Preview.Body (Some "  It was a dark night.  ")) 6)
    as [Hshape _].
  destruct (Hshape "It was") as (_ & (content & Hmiddle & Hprefix) & _);
    [vm_compute; reflexivity|].
  injection Hmiddle as <-. exact Hprefix.
Defined.

(** ** Notes on the page *)

Lemma withRendition_overlay (p : Props) (c : OverlayCmd) (r : Reader) :
  overlay (withRendition p (annotate c) r) = overlay r ++ (if hasRendition p then [c] else []).
Proof. unfold withRendition. destruct (hasRendition p); simpl; [reflexivity | rewrite app_nil_r; reflexivity]. Qed.

Lemma redisplay_overlay (p : Props) (r : Reader) : overlay (Store.redisplay p r) = overlay r.
Proof.
  unfold Store.redisplay. destruct (location r) as [loc|]; [|reflexivity].
  destruct (String.eqb loc EmptyString); [reflexivity|].
  unfold withRendition. destruct (hasRendition p); reflexivity.
Qed.

Lemma unmark_notes_fold (p : Props) (l : list Note) (r : Reader) :
  overlay (fold_left
             (fun acc n => withRendition p (annotate (AnnotRemove (n_cfi n) highlight)) acc)
             l r)
  = overlay r
    ++ (if hasRendition p then map (fun n => AnnotRemove (n_cfi n) highlight) l else []).
Proof.
  revert r. induction l as [|n l IH]; intros r; simpl.
  - destruct (hasRendition p); rewrite app_nil_r; reflexivity.
  - rewrite IH, withRendition_overlay. destruct (hasRendition p); simpl.
    + rewrite <- app_assoc. reflexivity.
    + rewrite !app_nil_r. reflexivity.
Qed.

(** X22. A note is drawn and taken off the page under the annotation
    kind "highlight".  [addNote] draws one such annotation at the note's
    position, with the class of notes.  [removeNote(cfi)] sends the page
    exactly what [removeHighlight(cfi, "highlight")] sends, whether or not
    a note is stored at [cfi], and leaves every stored highlight in the
    collection and in storage; [removeHighlight] in turn leaves the
    notes.  [removeAllNotes] sends one such removal per stored note. *)
Theorem notes_share_the_highlight_kind (p : Props) (now cfi : string) (args : Note)
    (r : Reader) :
  overlay (Store.addNote p now args r)
  = overlay r
    ++ (if hasRendition p
        then [AnnotAdd highlight (n_cfi args) (Some "epub-note") "lightblue"] else [])
  /\ overlay (Store.removeNote p cfi r)
     = overlay r ++ (if hasRendition p then [AnnotRemove cfi highlight] else [])
  /\ overlay (Store.removeNote p cfi r)
     = overlay (Annotations.removeHighlight p cfi highlight r)
  /\ highlights (Store.removeNote p cfi r) = highlights r
  /\ localStorage (Store.removeNote p cfi r) !! STORAGE_KEY_HIGHLIGHTS p
     = localStorage r !! STORAGE_KEY_HIGHLIGHTS p
  /\ notes (Store.removeNote p cfi r)
     = List.filter (fun n => negb (String.eqb (n_cfi n) cfi)) (notes r)
  /\ notes (Annotations.removeHighlight p cfi highlight r) = notes r
  /\ overlay (Store.removeAllNotes p r)
     = overlay r
       ++ (if hasRendition p
           then map (fun n => AnnotRemove (n_cfi n) highlight) (notes r) else []).
Proof.
  assert (Hrn : overlay (Store.removeNote p cfi r)
                = overlay r ++ (if hasRendition p then [AnnotRemove cfi highlight] else [])).
  { unfold Store.removeNote. simpl. apply withRendition_overlay. }
  split; [unfold Store.addNote; simpl; apply withRendition_overlay|].
  split; [exact Hrn|]. split.
  { rewrite Hrn. unfold Annotations.removeHighlight. cbv zeta. simpl overlay.
    fold (Store.redisplay p (withRendition p (annotate (AnnotRemove cfi highlight)) r)).
    rewrite redisplay_overlay, withRendition_overlay. reflexivity. }
  destruct (removeNote_data p cfi r) as (N1 & N2 & N3 & N4). cbv zeta in N1, N2, N3, N4.
  destruct (removeHighlight_data p cfi highlight r) as (_ & _ & H3 & _).
  split; [exact N2|]. split.
  { rewrite N4. apply lookup_insert_ne. intros E. symmetry in E.
    exact (key_highlights_notes p E). }
  split; [exact N1|]. split; [exact H3|].
  unfold Store.removeAllNotes. simpl. apply unmark_notes_fold.
Qed.

(** ** The first entry of the table of contents *)

(** X23. The first entry of the table of contents is estimated at page
    1, whatever the number of entries and of locations, as soon as the
    book reports at least one location for it (both numbers being safe
    integers): [0 / n * len] is an exact zero in double precision. *)
Theorem toc_starts_on_page_one (tocItems : list Toc.NavItem) (book : Toc.Book)
    (item : Toc.NavItem) (len : Z) :
  tocItems !! 0%nat = Some item ->
  book [0%nat] = Toc.Length len ->
  1 <= len < 2 ^ 53 ->
  Z.of_nat (length tocItems) < 2 ^ 53 ->
  exists e,
    Toc.enhanceTocWithPages tocItems book !! 0%nat = Some e
    /\ Toc.enh_label e = Toc.nav_label item
    /\ Toc.enh_page e = Some 1.
Proof.
  intros Hitem Hbook Hlen Hn.
  assert (Hpos : 1 <= Z.of_nat (length tocItems)).
  { destruct tocItems; [discriminate | simpl; lia]. }
  unfold Toc.enhanceTocWithPages. rewrite list_lookup_imap, Hitem. simpl.
  eexists. split; [reflexivity|]. split; [apply enhanceItem_label|].
  rewrite enhanceItem_page, Hbook. unfold Toc.estimatePage.
  rewrite (proj2 (Z.ltb_lt 0 len)) by lia.
  destruct (of_Z_finite (Z.of_nat (length tocItems)) (conj Hpos Hn)) as (m & e & ->).
  destruct (of_Z_finite len Hlen) as (m' & e' & ->).
  change (Toc.of_Z 0) with (S754_zero false). simpl.
  unfold Toc.clamp. change (0 + 1) with 1. change (1 <? 1) with false. cbv iota.
  rewrite (proj2 (Z.ltb_ge len 1)) by lia. reflexivity.
Qed.

Lemma toc_starts_on_page_one_witness :
  exists e,
    Toc.enhanceTocWithPages Toc.nestedToc (Toc.located 100) !! 0%nat = Some e
    /\ Toc.enh_label e = Toc.nav_label (Toc.mkNavItem "One" "One.xhtml" "One" [Toc.leaf "One.1"])
    /\ Toc.enh_page e = Some 1.
Proof.
  apply (toc_starts_on_page_one Toc.nestedToc (Toc.located 100)
           (Toc.mkNavItem "One" "One.xhtml" "One" [Toc.leaf "One.1"]) 100).
  - reflexivity.
  - reflexivity.
  - lia.
  - simpl. lia.
Defined.
